(** * plang::Invocation (plugins/python/plang/Invocation.cpp)

    A shallow embedding of the bridge between the point-cloud pipeline and
    the embedded interpreter.  The host object ([Invocation]), the guest
    object heap with its reference counts, the native heap holding the
    staging buffers and the point view are explicit pieces of state; every
    member function of the class is a computation in a state monad whose
    outcomes are a normal return, a thrown [pdal_error], or a crash of the
    process (a null or dangling pointer being followed). *)

From stdpp Require Import gmap strings list fin_maps pretty.
From Stdlib Require Import ZArith Ascii.
From Stdlib.Strings Require Import Byte.

Open Scope string_scope.
Open Scope list_scope.
Open Scope Z_scope.

(** ** Outcomes and the monad *)

(** The error kinds of the bridge.  The source throws [pdal::pdal_error] at
    every site; the kind names the site. *)
Inductive ErrorKind :=
| CompileError | MissingEntryFunction | NotCallable
| NotCompiledError | ArityError | BindingError | ExecutionError
| NonBooleanResult | MissingOutputError | NotAnArrayError
| SizeMismatchError | KindMismatchError | JsonDecodeError.

Record pdal_error := mk_error { kind : ErrorKind; what : string }.

(** What a C++ process does when it follows a bad pointer. *)
Inductive Fault :=
| NullDereference      (* a guest API that does not accept NULL was given NULL *)
| UseAfterFree         (* a guest object already deallocated was touched *)
| OutOfBounds          (* native memory read or written outside its block *)
| InvalidFree.         (* free() of a block that is not allocated *)

Inductive outcome (A : Type) :=
| Ret (a : A)
| Throw (e : pdal_error)
| Crash (f : Fault).
Arguments Ret {A} a.
Arguments Throw {A} e.
Arguments Crash {A} f.

(** State changes made before a throw stay: C++ exceptions do not roll
    anything back. *)
Definition M (S A : Type) : Type := S → outcome A * S.

Definition ret {S A} (a : A) : M S A := λ s, (Ret a, s).

Definition bind {S A B} (m : M S A) (k : A → M S B) : M S B :=
  λ s, match m s with
       | (Ret a, s') => k a s'
       | (Throw e, s') => (Throw e, s')
       | (Crash f, s') => (Crash f, s')
       end.

Definition throw {S A} (k : ErrorKind) (msg : string) : M S A :=
  λ s, (Throw (mk_error k msg), s).
Definition crash {S A} (f : Fault) : M S A := λ s, (Crash f, s).
Definition gets {S A} (f : S → A) : M S A := λ s, (Ret (f s), s).
Definition modify {S} (f : S → S) : M S unit := λ s, (Ret tt, f s).

Notation "x <- m ;; k" := (bind m (λ x, k))
  (at level 100, m at next level, right associativity).
Notation "m ;; k" := (bind m (λ _, k))
  (at level 100, right associativity).

(** [for (x : xs) body(x);] *)
Fixpoint for_each {S A} (xs : list A) (body : A → M S unit) : M S unit :=
  match xs with
  | [] => ret tt
  | x :: rest => body x ;; for_each rest body
  end.

(** ** Host attribute types (pdal/Dimension.hpp) *)

Module Dimension.

(** Modelled from the spec: [Dimension::BaseType], declared in
    pdal/Dimension.hpp; the three base kinds an attribute type can have
    (signed integer, unsigned integer, floating point). *)
Inductive BaseType := Signed | Unsigned | Floating.

(** Modelled from the spec: [Dimension::Type], declared in
    pdal/Dimension.hpp; the host attribute types, each with an element byte
    size and a base kind. *)
Inductive Type_ :=
| Signed8 | Signed16 | Signed32 | Signed64
| Unsigned8 | Unsigned16 | Unsigned32 | Unsigned64
| Float | Double.

(** Modelled from the spec: [Dimension::size], the declared byte size. *)
Definition size (t : Type_) : Z :=
  match t with
  | Signed8 | Unsigned8 => 1
  | Signed16 | Unsigned16 => 2
  | Signed32 | Unsigned32 | Float => 4
  | Signed64 | Unsigned64 | Double => 8
  end.

(** Modelled from the spec: [Dimension::base], the base kind. *)
Definition base (t : Type_) : BaseType :=
  match t with
  | Signed8 | Signed16 | Signed32 | Signed64 => Signed
  | Unsigned8 | Unsigned16 | Unsigned32 | Unsigned64 => Unsigned
  | Float | Double => Floating
  end.

Definition Id := positive.

(** [Dimension::Detail] with the name the layout gives the dimension. *)
Record Detail := mk_detail { id : Id; name : string; type : Type_ }.

#[global] Instance BaseType_eq_dec : EqDecision BaseType.
Proof. solve_decision. Defined.
#[global] Instance Type_eq_dec : EqDecision Type_.
Proof. solve_decision. Defined.
#[global] Instance Detail_eq_dec : EqDecision Detail.
Proof. solve_decision. Defined.

End Dimension.

(** ** Native memory: malloc, free, and byte access *)

(** A native address: the allocation it points into and a byte offset. *)
Record ptr := mk_ptr { block : positive; offset : Z }.

#[global] Instance ptr_eq_dec : EqDecision ptr.
Proof. solve_decision. Defined.

Record Memory := mk_memory {
  blocks : gmap positive (list byte);   (* the live allocations *)
  brk : positive                        (* next allocation *)
}.

(** [p += n] on a [char*]. *)
Definition ptr_add (p : ptr) (n : Z) : ptr :=
  mk_ptr (block p) (offset p + n).

Definition malloc (n : Z) : M Memory ptr := λ m,
  let b := brk m in
  (Ret (mk_ptr b 0),
   mk_memory (<[b := replicate (Z.to_nat n) x00]> (blocks m)) (Pos.succ b)).

(** [free] takes the pointer [malloc] returned; anything else is invalid. *)
Definition free (p : ptr) : M Memory unit := λ m,
  match blocks m !! block p with
  | Some _ =>
      if decide (offset p = 0)
      then (Ret tt, mk_memory (delete (block p) (blocks m)) (brk m))
      else (Crash InvalidFree, m)
  | None => (Crash InvalidFree, m)
  end.

(** Reading [n] bytes at [p]: inside a live block, or the process crashes. *)
Definition mem_read (p : ptr) (n : Z) : M Memory (list byte) := λ m,
  match blocks m !! block p with
  | Some bs =>
      if decide (0 ≤ offset p ∧ 0 ≤ n ∧ offset p + n ≤ Z.of_nat (length bs))
      then (Ret (take (Z.to_nat n) (drop (Z.to_nat (offset p)) bs)), m)
      else (Crash OutOfBounds, m)
  | None => (Crash OutOfBounds, m)
  end.

Definition mem_write (p : ptr) (data : list byte) : M Memory unit := λ m,
  match blocks m !! block p with
  | Some bs =>
      if decide (0 ≤ offset p ∧
                 offset p + Z.of_nat (length data) ≤ Z.of_nat (length bs))
      then (Ret tt,
            mk_memory
              (<[block p :=
                   take (Z.to_nat (offset p)) bs ++ data ++
                   drop (Z.to_nat (offset p) + length data) bs]> (blocks m))
              (brk m))
      else (Crash OutOfBounds, m)
  | None => (Crash OutOfBounds, m)
  end.

(** ** The guest object heap *)

Definition PyRef := positive.

(** A [PyObject*]: [None] is NULL. *)
Abbreviation PyPtr := (option PyRef).

(** Dictionary keys.  A key is a guest string that has a byte encoding the
    bridge can ask for, given by the bytes of that encoding (the UTF-8 form
    of a str of version 3; the bytes of a str of version 2, which a unicode
    object of ASCII characters equals); or a guest string that has none (a
    str of version 3 with a lone surrogate in it, a unicode object of
    version 2 with a character outside ASCII), given by its code points; or
    some other hashable guest object (an integer, say).  Decoding to a host
    string fails for the last two. *)
Inductive PyKey :=
| KStr (s : string)
| KUnicode (codepoints : list Z)
| KObj (n : Z).

#[global] Instance PyKey_eq_dec : EqDecision PyKey.
Proof. solve_decision. Defined.

(** [PyArray_Descr]: element byte size and kind character. *)
Record PyArray_Descr := mk_descr { elsize : Z; dkind : ascii }.

(** [PyArrayObject]: a view over native memory; it does not own [data]. *)
Record PyArrayObject := mk_array {
  descr : PyArray_Descr;
  data : ptr;
  dimensions : list Z;
  strides : list Z
}.

(** What a [def] declares, as [inspect] reports it: the names of the
    parameters that can be passed by position, in order; the name after [*]
    and the name after [**], when there are such; the names of the
    parameters that can be passed by keyword only; and whether a parameter
    or the result carries an annotation. *)
Record Signature := mk_signature {
  sig_args : list string;
  sig_varargs : option string;
  sig_kwonly : list string;
  sig_varkw : option string;
  sig_annotated : bool
}.

Inductive PyVal :=
| PyNone
| PyBool (b : bool)
| PyInt (z : Z)
| PyStr (s : string)
| PyBytes (s : string)
| PyList (items : list PyRef)
| PyTuple (items : list PyPtr)
| PyDict (entries : list (PyKey * PyRef))
| PyCode (source : string)
| PyModule (md_name : string) (md_dict : PyRef)
| PyFunction (sig : Signature)             (* a def, with what it declares *)
| PyBuiltin (b_name : string)              (* a function of the guest library *)
| PyNdarray (a : PyArrayObject)
| PyDocument (text : string).              (* a decoded JSON or metadata tree *)

Record PyObject := mk_object { ob_refcnt : Z; ob_val : PyVal }.

Record PyHeap := mk_heap {
  objs : gmap PyRef PyObject;          (* the live objects *)
  fresh : PyRef;                       (* next object address *)
  sys_modules : gmap string PyRef;     (* the interpreter's module table *)
  pending : option string;             (* the error indicator: a traceback *)
  empty_tuple : option PyRef           (* the empty tuple, once there is one *)
}.

Definition set_objs (f : gmap PyRef PyObject → gmap PyRef PyObject)
    (h : PyHeap) : PyHeap :=
  mk_heap (f (objs h)) (fresh h) (sys_modules h) (pending h) (empty_tuple h).

(** The references an object holds, released when it is deallocated. *)
Definition children (v : PyVal) : list PyRef :=
  match v with
  | PyList items => items
  | PyTuple items => omap id items
  | PyDict entries => entries.*2
  | PyModule _ d => [d]
  | _ => []
  end.

(** [Py_DECREF] on each reference of [work] in turn: the count drops by one,
    and an object whose last reference goes is deallocated, which releases
    the references it holds.  [None]: an object already deallocated was
    touched.  Each step takes one reference off [work]; [fuel] bounds the
    steps (see [release_fuel]). *)
Fixpoint release (fuel : nat) (work : list PyRef)
    (os : gmap PyRef PyObject) : option (gmap PyRef PyObject) :=
  match fuel with
  | O => Some os
  | S fuel' =>
      match work with
      | [] => Some os
      | r :: rest =>
          match os !! r with
          | None => None
          | Some o =>
              if decide (ob_refcnt o = 1)
              then release fuel' (children (ob_val o) ++ rest) (delete r os)
              else release fuel' rest
                     (<[r := mk_object (ob_refcnt o - 1) (ob_val o)]> os)
          end
      end
  end.

(** The references held by all live objects. *)
Definition held (os : gmap PyRef PyObject) : nat :=
  sum_list ((λ ro, length (children (ob_val ro.2))) <$> map_to_list os).

(** Enough steps for any cascade: every reference on [work], and every
    reference a live object holds, is released at most once. *)
Definition release_fuel (work : list PyRef) (os : gmap PyRef PyObject) : nat :=
  S (length work + held os).

Definition PyErr_SetString (msg : string) : M PyHeap unit :=
  modify (λ h, mk_heap (objs h) (fresh h) (sys_modules h) (Some msg)
                 (empty_tuple h)).

(** A new object, with one reference, owned by the caller. *)
Definition py_new (v : PyVal) : M PyHeap PyRef := λ h,
  let r := fresh h in
  (Ret r,
   mk_heap (<[r := mk_object 1 v]> (objs h)) (Pos.succ r)
     (sys_modules h) (pending h) (empty_tuple h)).

(** Following a non-null pointer to the object. *)
Definition py_val (r : PyRef) : M PyHeap PyVal := λ h,
  match objs h !! r with
  | Some o => (Ret (ob_val o), h)
  | None => (Crash UseAfterFree, h)
  end.

(** Following a pointer an API does not accept NULL for. *)
Definition py_deref (p : PyPtr) : M PyHeap PyVal :=
  match p with
  | None => crash NullDereference
  | Some r => py_val r
  end.

Definition py_incref (r : PyRef) : M PyHeap unit := λ h,
  match objs h !! r with
  | Some o =>
      (Ret tt, set_objs (insert r (mk_object (ob_refcnt o + 1) (ob_val o))) h)
  | None => (Crash UseAfterFree, h)
  end.

Definition py_decref (r : PyRef) : M PyHeap unit := λ h,
  match release (release_fuel [r] (objs h)) [r] (objs h) with
  | Some os => (Ret tt, set_objs (λ _, os) h)
  | None => (Crash UseAfterFree, h)
  end.

(** Store a new value for an object. *)
Definition py_store (r : PyRef) (v : PyVal) : M PyHeap unit := λ h,
  match objs h !! r with
  | Some o => (Ret tt, set_objs (insert r (mk_object (ob_refcnt o) v)) h)
  | None => (Crash UseAfterFree, h)
  end.

(** The two instances of the boolean type and the None object, which the
    interpreter creates at start-up. *)
Definition Py_True : PyRef := 1%positive.
Definition Py_False : PyRef := 2%positive.
Definition Py_None : PyRef := 3%positive.

(** *** Dictionaries *)

Fixpoint dict_get (k : PyKey) (es : list (PyKey * PyRef)) : PyPtr :=
  match es with
  | [] => None
  | (k', v) :: rest => if decide (k' = k) then Some v else dict_get k rest
  end.

(** Rebinding keeps the key's place; a new key goes last. *)
Fixpoint dict_set (k : PyKey) (v : PyRef) (es : list (PyKey * PyRef))
    : list (PyKey * PyRef) :=
  match es with
  | [] => [(k, v)]
  | (k', v') :: rest =>
      if decide (k' = k) then (k, v) :: rest else (k', v') :: dict_set k v rest
  end.

(** A [const char*] made from a host string stops at the first NUL. *)
Fixpoint c_str (s : string) : string :=
  match s with
  | EmptyString => EmptyString
  | String c rest =>
      if decide (c = Ascii.zero) then EmptyString else String c (c_str rest)
  end.

Definition PyDict_New : M PyHeap PyPtr :=
  r <- py_new (PyDict []) ;; ret (Some r).

(** Borrowed reference, or NULL when the key is absent or [d] is not a
    dictionary. *)
Definition py_dict_get (d : PyPtr) (k : PyKey) : M PyHeap PyPtr :=
  v <- py_deref d ;;
  match v with
  | PyDict es => ret (dict_get k es)
  | _ => ret None
  end.

Definition PyDict_GetItemString (d : PyPtr) (key : string) : M PyHeap PyPtr :=
  py_dict_get d (KStr (c_str key)).

(** The dictionary takes its own reference to [v]; the value it replaces
    loses one.  0 on success, -1 if [d] is not a dictionary. *)
Definition py_dict_set (d : PyPtr) (k : PyKey) (v : PyPtr) : M PyHeap Z :=
  dv <- py_deref d ;;
  match dv, d with
  | PyDict es, Some dr =>
      match v with
      | None => crash NullDereference
      | Some vr =>
          py_incref vr ;;
          py_store dr (PyDict (dict_set k vr es)) ;;
          match dict_get k es with
          | Some old => py_decref old
          | None => ret tt
          end ;;
          ret 0
      end
  | _, _ => PyErr_SetString "SystemError: bad argument to internal function" ;;
            ret (-1)
  end.

Definition PyDict_SetItemString (d : PyPtr) (key : string) (v : PyPtr)
    : M PyHeap Z :=
  py_dict_set d (KStr (c_str key)) v.

(** *** Reference counts *)

Definition Py_XDECREF_ (p : PyPtr) : M PyHeap unit :=
  match p with
  | None => ret tt
  | Some r => py_decref r
  end.

(** *** Tuples and lists *)

(** [PyTuple_New(n)]: a new tuple of [n] empty slots, with one reference,
    owned by the caller.  There is one empty tuple only: the interpreter
    makes it the first time a tuple of no slot is asked for and keeps a
    reference to it, so that the caller gets a reference to a tuple that is
    shared. *)
Definition PyTuple_New (n : Z) : M PyHeap PyPtr :=
  if decide (n < 0)
  then PyErr_SetString "SystemError: bad argument to internal function" ;;
       ret None
  else if decide (n = 0)
  then shared <- gets empty_tuple ;;
       match shared with
       | Some r => py_incref r ;; ret (Some r)
       | None =>
           r <- py_new (PyTuple []) ;;
           py_incref r ;;
           modify (λ h, mk_heap (objs h) (fresh h) (sys_modules h) (pending h)
                          (Some r)) ;;
           ret (Some r)
       end
  else r <- py_new (PyTuple (replicate (Z.to_nat n) None)) ;; ret (Some r).

(** Takes over the caller's reference to [v], also when it fails.  It
    fails (-1) when [t] is not a tuple, when the tuple is shared, and when
    [i] is out of range. *)
Definition PyTuple_SetItem (t : PyPtr) (i : Z) (v : PyPtr) : M PyHeap Z :=
  match t with
  | None => crash NullDereference
  | Some tr => λ h,
      match objs h !! tr with
      | None => (Crash UseAfterFree, h)
      | Some (mk_object rc (PyTuple items)) =>
          if decide (rc = 1)
          then
            if decide (0 ≤ i < Z.of_nat (length items))
            then (py_store tr (PyTuple (<[Z.to_nat i := v]> items)) ;;
                  Py_XDECREF_ (items !!! Z.to_nat i) ;;
                  ret 0) h
            else (Py_XDECREF_ v ;;
                  PyErr_SetString
                    "IndexError: tuple assignment index out of range" ;;
                  ret (-1)) h
          else (Py_XDECREF_ v ;;
                PyErr_SetString
                  "SystemError: bad argument to internal function" ;;
                ret (-1)) h
      | Some _ =>
          (Py_XDECREF_ v ;;
           PyErr_SetString "SystemError: bad argument to internal function" ;;
           ret (-1)) h
      end
  end.

(** Borrowed reference. *)
Definition PyTuple_GetItem (t : PyPtr) (i : Z) : M PyHeap PyPtr :=
  v <- py_deref t ;;
  match v with
  | PyTuple items =>
      if decide (0 ≤ i < Z.of_nat (length items))
      then ret (items !!! Z.to_nat i)
      else PyErr_SetString "IndexError: tuple index out of range" ;; ret None
  | _ => PyErr_SetString "SystemError: bad argument to internal function" ;;
         ret None
  end.

Definition PyList_Size (l : PyPtr) : M PyHeap Z :=
  v <- py_deref l ;;
  match v with
  | PyList items => ret (Z.of_nat (length items))
  | _ => PyErr_SetString "SystemError: bad argument to internal function" ;;
         ret (-1)
  end.

Definition PyUnicode_FromString (s : string) : M PyHeap PyPtr :=
  r <- py_new (PyStr (c_str s)) ;; ret (Some r).

(** *** Modules *)

(** New reference to the module, or NULL with an import error pending. *)
Definition PyImport_ImportModule (name : string) : M PyHeap PyPtr := λ h,
  match sys_modules h !! name with
  | Some r => (py_incref r ;; ret (Some r)) h
  | None =>
      (PyErr_SetString ("ImportError: No module named " +:+ name) ;;
       ret None) h
  end.

(** Borrowed reference to the module's dictionary. *)
Definition PyModule_GetDict (m : PyPtr) : M PyHeap PyPtr :=
  v <- py_deref m ;;
  match v with
  | PyModule _ d => ret (Some d)
  | _ => PyErr_SetString "SystemError: bad argument to internal function" ;;
         ret None
  end.

(** Binds [name] in the module.  On success (0) the module has taken over
    the caller's reference to [o]; on failure (-1) it has not. *)
Definition PyModule_AddObject_ (m : PyPtr) (name : string) (o : PyPtr)
    : M PyHeap Z :=
  v <- py_deref m ;;
  match v with
  | PyModule _ d =>
      match o with
      | None =>
          PyErr_SetString
            "TypeError: PyModule_AddObject() needs non-NULL value" ;;
          ret (-1)
      | Some r =>
          rc <- PyDict_SetItemString (Some d) name o ;;
          if decide (rc = 0) then py_decref r ;; ret 0 else ret (-1)
      end
  | _ =>
      PyErr_SetString
        "TypeError: PyModule_AddObject() needs module as first arg" ;;
      ret (-1)
  end.

(** *** Type checks *)

Definition PyBool_Check (p : PyPtr) : M PyHeap bool :=
  v <- py_deref p ;;
  ret (match v with PyBool _ => true | _ => false end).

Definition PyArray_Check (p : PyPtr) : M PyHeap bool :=
  v <- py_deref p ;;
  ret (match v with PyNdarray _ => true | _ => false end).

Definition PyCallable_Check (p : PyPtr) : M PyHeap bool :=
  match p with
  | None => ret false
  | Some r =>
      v <- py_val r ;;
      ret (match v with PyFunction _ | PyBuiltin _ => true | _ => false end)
  end.

(** *** Arrays *)

(** The element descriptors of the array library, by type number. *)
Definition PyArray_DescrFromType (type_num : Z) : option PyArray_Descr :=
  match type_num with
  | 0 => Some (mk_descr 1 "b")       (* NPY_BOOL *)
  | 1 => Some (mk_descr 1 "i")       (* NPY_BYTE *)
  | 2 => Some (mk_descr 1 "u")       (* NPY_UBYTE *)
  | 3 => Some (mk_descr 2 "i")       (* NPY_SHORT *)
  | 4 => Some (mk_descr 2 "u")       (* NPY_USHORT *)
  | 5 => Some (mk_descr 4 "i")       (* NPY_INT *)
  | 6 => Some (mk_descr 4 "u")       (* NPY_UINT *)
  | 7 => Some (mk_descr 8 "i")       (* NPY_LONG *)
  | 8 => Some (mk_descr 8 "u")       (* NPY_ULONG *)
  | 9 => Some (mk_descr 8 "i")       (* NPY_LONGLONG *)
  | 10 => Some (mk_descr 8 "u")      (* NPY_ULONGLONG *)
  | 11 => Some (mk_descr 4 "f")      (* NPY_FLOAT *)
  | 12 => Some (mk_descr 8 "f")      (* NPY_DOUBLE *)
  | 14 => Some (mk_descr 8 "c")      (* NPY_CFLOAT *)
  | 15 => Some (mk_descr 16 "c")     (* NPY_CDOUBLE *)
  | _ => None
  end.

(** Modelled from the spec: [Environment::getPythonDataType], defined in
    plang/Environment.cpp; the table from host attribute type to guest array
    element type (a type number of the array library), of the same byte size
    and kind. *)
Definition getPythonDataType (t : Dimension.Type_) : Z :=
  match t with
  | Dimension.Float => 11
  | Dimension.Double => 12
  | Dimension.Signed8 => 1
  | Dimension.Signed16 => 3
  | Dimension.Signed32 => 5
  | Dimension.Signed64 => 9
  | Dimension.Unsigned8 => 2
  | Dimension.Unsigned16 => 4
  | Dimension.Unsigned32 => 6
  | Dimension.Unsigned64 => 10
  end.

(** A new array object viewing [data]; NULL for an unknown type number. *)
Definition PyArray_New (dims : list Z) (type_num : Z) (strides_ : list Z)
    (data_ : ptr) : M PyHeap PyPtr :=
  match PyArray_DescrFromType type_num with
  | Some d =>
      r <- py_new (PyNdarray (mk_array d data_ dims strides_)) ;; ret (Some r)
  | None => PyErr_SetString "ValueError: invalid data type" ;; ret None
  end.

(** [PyArray_GetPtr(arr, ind)]: the data pointer of the array, moved by
    stride times index for each dimension of the array.  It reads one entry
    of [ind] per dimension, and none for an array of no dimension; when the
    array has more dimensions than [ind] has entries, it reads past the end
    of [ind]. *)
Definition PyArray_GetPtr (a : PyArrayObject) (ind : list Z) : M PyHeap ptr :=
  if decide (length (strides a) ≤ length ind)%nat
  then ret (ptr_add (data a)
              (foldr Z.add 0 (zip_with Z.mul (strides a) ind)))
  else crash OutOfBounds.

(** Modelled from the spec: [getTraceback], defined outside this unit; the
    interpreter's textual traceback of the pending guest exception, which it
    clears. *)
Definition getTraceback : M PyHeap string := λ h,
  match pending h with
  | Some tb =>
      (Ret tb, mk_heap (objs h) (fresh h) (sys_modules h) None (empty_tuple h))
  | None => (Ret "", h)
  end.

(** ** The host side *)

(** [Script]: the source text, the module name and the entry function's
    name. *)
Record Script := mk_script {
  source : string;
  module : string;
  function : string
}.

(** A metadata tree, as its text. *)
Definition MetadataNode := string.

(** The members of [Invocation] (Invocation.hpp). *)
Record Invocation := mk_invocation {
  m_script : Script;
  m_bytecode : PyPtr;
  m_module : PyPtr;
  m_dictionary : PyPtr;
  m_function : PyPtr;
  m_varsIn : PyPtr;
  m_varsOut : PyPtr;
  m_scriptArgs : PyPtr;
  m_scriptResult : PyPtr;
  m_metadata_PyObject : PyPtr;
  m_schema_PyObject : PyPtr;
  m_srs_PyObject : PyPtr;
  m_pdalargs_PyObject : PyPtr;
  m_pyInputArrays : list PyPtr;
  m_buffers : list ptr
}.

Definition set_m_bytecode (v : PyPtr) (i : Invocation) : Invocation :=
  mk_invocation (m_script i) v (m_module i) (m_dictionary i) (m_function i)
    (m_varsIn i) (m_varsOut i) (m_scriptArgs i) (m_scriptResult i)
    (m_metadata_PyObject i) (m_schema_PyObject i) (m_srs_PyObject i)
    (m_pdalargs_PyObject i) (m_pyInputArrays i) (m_buffers i).

Definition set_m_module (v : PyPtr) (i : Invocation) : Invocation :=
  mk_invocation (m_script i) (m_bytecode i) v (m_dictionary i) (m_function
    i) (m_varsIn i) (m_varsOut i) (m_scriptArgs i) (m_scriptResult i)
    (m_metadata_PyObject i) (m_schema_PyObject i) (m_srs_PyObject i)
    (m_pdalargs_PyObject i) (m_pyInputArrays i) (m_buffers i).

Definition set_m_dictionary (v : PyPtr) (i : Invocation) : Invocation :=
  mk_invocation (m_script i) (m_bytecode i) (m_module i) v (m_function i)
    (m_varsIn i) (m_varsOut i) (m_scriptArgs i) (m_scriptResult i)
    (m_metadata_PyObject i) (m_schema_PyObject i) (m_srs_PyObject i)
    (m_pdalargs_PyObject i) (m_pyInputArrays i) (m_buffers i).

Definition set_m_function (v : PyPtr) (i : Invocation) : Invocation :=
  mk_invocation (m_script i) (m_bytecode i) (m_module i) (m_dictionary i) v
    (m_varsIn i) (m_varsOut i) (m_scriptArgs i) (m_scriptResult i)
    (m_metadata_PyObject i) (m_schema_PyObject i) (m_srs_PyObject i)
    (m_pdalargs_PyObject i) (m_pyInputArrays i) (m_buffers i).

Definition set_m_varsIn (v : PyPtr) (i : Invocation) : Invocation :=
  mk_invocation (m_script i) (m_bytecode i) (m_module i) (m_dictionary i)
    (m_function i) v (m_varsOut i) (m_scriptArgs i) (m_scriptResult i)
    (m_metadata_PyObject i) (m_schema_PyObject i) (m_srs_PyObject i)
    (m_pdalargs_PyObject i) (m_pyInputArrays i) (m_buffers i).

Definition set_m_varsOut (v : PyPtr) (i : Invocation) : Invocation :=
  mk_invocation (m_script i) (m_bytecode i) (m_module i) (m_dictionary i)
    (m_function i) (m_varsIn i) v (m_scriptArgs i) (m_scriptResult i)
    (m_metadata_PyObject i) (m_schema_PyObject i) (m_srs_PyObject i)
    (m_pdalargs_PyObject i) (m_pyInputArrays i) (m_buffers i).

Definition set_m_scriptArgs (v : PyPtr) (i : Invocation) : Invocation :=
  mk_invocation (m_script i) (m_bytecode i) (m_module i) (m_dictionary i)
    (m_function i) (m_varsIn i) (m_varsOut i) v (m_scriptResult i)
    (m_metadata_PyObject i) (m_schema_PyObject i) (m_srs_PyObject i)
    (m_pdalargs_PyObject i) (m_pyInputArrays i) (m_buffers i).

Definition set_m_scriptResult (v : PyPtr) (i : Invocation) : Invocation :=
  mk_invocation (m_script i) (m_bytecode i) (m_module i) (m_dictionary i)
    (m_function i) (m_varsIn i) (m_varsOut i) (m_scriptArgs i) v
    (m_metadata_PyObject i) (m_schema_PyObject i) (m_srs_PyObject i)
    (m_pdalargs_PyObject i) (m_pyInputArrays i) (m_buffers i).

Definition set_m_metadata_PyObject (v : PyPtr) (i : Invocation) : Invocation :=
  mk_invocation (m_script i) (m_bytecode i) (m_module i) (m_dictionary i)
    (m_function i) (m_varsIn i) (m_varsOut i) (m_scriptArgs i) (m_scriptResult
    i) v (m_schema_PyObject i) (m_srs_PyObject i) (m_pdalargs_PyObject i)
    (m_pyInputArrays i) (m_buffers i).

Definition set_m_schema_PyObject (v : PyPtr) (i : Invocation) : Invocation :=
  mk_invocation (m_script i) (m_bytecode i) (m_module i) (m_dictionary i)
    (m_function i) (m_varsIn i) (m_varsOut i) (m_scriptArgs i) (m_scriptResult
    i) (m_metadata_PyObject i) v (m_srs_PyObject i) (m_pdalargs_PyObject i)
    (m_pyInputArrays i) (m_buffers i).

Definition set_m_srs_PyObject (v : PyPtr) (i : Invocation) : Invocation :=
  mk_invocation (m_script i) (m_bytecode i) (m_module i) (m_dictionary i)
    (m_function i) (m_varsIn i) (m_varsOut i) (m_scriptArgs i) (m_scriptResult
    i) (m_metadata_PyObject i) (m_schema_PyObject i) v (m_pdalargs_PyObject i)
    (m_pyInputArrays i) (m_buffers i).

Definition set_m_pdalargs_PyObject (v : PyPtr) (i : Invocation) : Invocation :=
  mk_invocation (m_script i) (m_bytecode i) (m_module i) (m_dictionary i)
    (m_function i) (m_varsIn i) (m_varsOut i) (m_scriptArgs i) (m_scriptResult
    i) (m_metadata_PyObject i) (m_schema_PyObject i) (m_srs_PyObject i) v
    (m_pyInputArrays i) (m_buffers i).

Definition set_m_pyInputArrays (v : list PyPtr) (i : Invocation) : Invocation :=
  mk_invocation (m_script i) (m_bytecode i) (m_module i) (m_dictionary i)
    (m_function i) (m_varsIn i) (m_varsOut i) (m_scriptArgs i) (m_scriptResult
    i) (m_metadata_PyObject i) (m_schema_PyObject i) (m_srs_PyObject i)
    (m_pdalargs_PyObject i) v (m_buffers i).

Definition set_m_buffers (v : list ptr) (i : Invocation) : Invocation :=
  mk_invocation (m_script i) (m_bytecode i) (m_module i) (m_dictionary i)
    (m_function i) (m_varsIn i) (m_varsOut i) (m_scriptArgs i) (m_scriptResult
    i) (m_metadata_PyObject i) (m_schema_PyObject i) (m_srs_PyObject i)
    (m_pdalargs_PyObject i) (m_pyInputArrays i) v.


(** [PointView] with its layout: the attributes in layout order, the number
    of points, the stored bytes of each attribute of each point, and the
    JSON renderings of the layout and of the spatial reference. *)
Record PointView := mk_view {
  dims : list Dimension.Detail;
  points : nat;
  field : Dimension.Id → nat → list byte;
  layout_json : string;
  srs_json : string
}.

(** [getFieldInternal(d, idx, buf)] copies exactly [size] bytes. *)
Definition getFieldInternal (v : PointView) (d : Dimension.Id) (idx : nat)
    (size : Z) : list byte :=
  resize (Z.to_nat size) x00 (field v d idx).

(** [setField(d, type, idx, buf)] stores the value of one attribute of one
    point. *)
Definition setField (d : Dimension.Id) (idx : nat) (val : list byte)
    (v : PointView) : PointView :=
  mk_view (dims v) (points v)
    (λ d' idx', if decide (d' = d ∧ idx' = idx) then val else field v d' idx')
    (layout_json v) (srs_json v).

(** What [json.loads] returns for a text it accepts: a new reference, to a
    new object that holds the decoded document, or, for a document the
    interpreter keeps one object of ([true], [false], [null], a small
    integer), to that object, which whoever holds a reference to it
    shares. *)
Inductive Decoded :=
| NewObject (v : PyVal)
| SharedObject (r : PyRef).

(** The embedded interpreter: the major version the unit is compiled
    against ([PY_MAJOR_VERSION], a macro of the interpreter's headers, which
    line 243 tests), and what the interpreter does with guest code; an
    external collaborator.  A failure is the traceback of the guest
    exception. *)
Record Environment := mk_env {
  PY_MAJOR_VERSION : Z;
  (* Py_CompileString on a source text *)
  py_compile : string → string + unit;
  (* running a module body: the globals it defines *)
  py_exec : string → string + list (string * PyVal);
  (* calling the entry function on its positional arguments *)
  py_call : list PyPtr → PyHeap * Memory → (string + PyRef) * (PyHeap * Memory);
  (* json.loads on a text: what it returns *)
  json_loads : string → string + Decoded;
  (* the library modules that can be imported *)
  stdlib : list string
}.

(** What the host asks of the guest runtime, in order. *)
Inductive Event :=
| EvIncref (r : PyRef)
| EvDecref (r : PyRef)
| EvAddObject (name : string) (r : PyRef)
| EvCall (f : PyRef) (args : list PyPtr).

#[global] Instance Event_eq_dec : EqDecision Event.
Proof. solve_decision. Defined.

Record State := mk_state {
  self : Invocation;       (* the object *)
  py : PyHeap;             (* the guest heap *)
  ram : Memory;            (* the native heap *)
  trace : list Event
}.

Definition liftPy {A} (m : M PyHeap A) : M State A := λ st,
  let '(o, h) := m (py st) in (o, mk_state (self st) h (ram st) (trace st)).

Definition liftMem {A} (m : M Memory A) : M State A := λ st,
  let '(o, r) := m (ram st) in (o, mk_state (self st) (py st) r (trace st)).

Definition this {A} (f : Invocation → A) : M State A := gets (λ st, f (self st)).

Definition assign (f : Invocation → Invocation) : M State unit :=
  modify (λ st, mk_state (f (self st)) (py st) (ram st) (trace st)).

Definition log (e : Event) : M State unit :=
  modify (λ st, mk_state (self st) (py st) (ram st) (trace st ++ [e])).

Definition Py_INCREF (p : PyPtr) : M State unit :=
  match p with
  | None => crash NullDereference
  | Some r => liftPy (py_incref r) ;; log (EvIncref r)
  end.

Definition Py_XDECREF (p : PyPtr) : M State unit :=
  match p with
  | None => ret tt
  | Some r => liftPy (py_decref r) ;; log (EvDecref r)
  end.

Definition PyModule_AddObject (m : PyPtr) (name : string) (o : PyPtr)
    : M State Z :=
  rc <- liftPy (PyModule_AddObject_ m name o) ;;
  match o with
  | Some r => if decide (rc = 0) then log (EvAddObject name r) else ret tt
  | None => ret tt
  end ;;
  ret rc.

(** The interpreter at start-up ([Environment::get]): the boolean and None
    objects, and the library modules with the functions the bridge uses. *)
Definition install_module (name fn : string) : M PyHeap unit :=
  b <- py_new (PyBuiltin fn) ;;
  d <- py_new (PyDict [(KStr fn, b)]) ;;
  m <- py_new (PyModule name d) ;;
  modify (λ h, mk_heap (objs h) (fresh h) (<[name := m]> (sys_modules h))
                 (pending h) (empty_tuple h)).

Definition Py_Initialize (libs : list string) : PyHeap :=
  let h0 :=
    mk_heap (<[Py_None := mk_object 1 PyNone]>
               (<[Py_False := mk_object 1 (PyBool false)]>
                  (<[Py_True := mk_object 1 (PyBool true)]> ∅)))
      4%positive ∅ None None in
  let m :=
    (if decide ("inspect" ∈ libs)
     then install_module "inspect" "getargspec" else ret tt) ;;
    (if decide ("json" ∈ libs)
     then install_module "json" "loads" else ret tt) in
  (m h0).2.

(** Modelled from the spec: [plang::fromMetadata], defined outside this
    unit; the guest object derived from the supplied metadata tree. *)
Definition fromMetadata (m : MetadataNode) : M PyHeap PyPtr :=
  r <- py_new (PyDocument m) ;; ret (Some r).

(** Modelled from the spec: [addMetadata], defined outside this unit;
    attaches the guest metadata value onto the supplied metadata tree. *)
Definition addMetadata (v : PyVal) (m : MetadataNode) : MetadataNode :=
  match v with
  | PyDocument text => text
  | _ => m
  end.

(** The key a guest object is, when used to index a dictionary. *)
Definition py_key (p : PyPtr) : M PyHeap PyKey :=
  v <- py_deref p ;;
  ret (match v with
       | PyStr s => KStr s
       | PyInt z => KObj z
       | _ => KObj 0
       end).

Definition PyDict_GetItem (d key : PyPtr) : M PyHeap PyPtr :=
  k <- py_key key ;; py_dict_get d k.

(** 1 if present, 0 if not. *)
Definition PyDict_Contains (d key : PyPtr) : M PyHeap Z :=
  k <- py_key key ;;
  v <- py_dict_get d k ;;
  ret (match v with Some _ => 1 | None => 0 end).

(** The bytes of a key that is a string with a byte encoding. *)
Definition key_bytes (k : PyKey) : option string :=
  match k with
  | KStr s => Some s
  | KUnicode _ => None
  | KObj _ => None
  end.

(** [PyString_AsString(key)]: the bytes of a string object; NULL for a
    string that cannot be encoded, with an encoding error pending, and for
    any other object, with a type error pending. *)
Definition PyString_AsString (k : PyKey) : M PyHeap (option string) :=
  match k with
  | KStr s => ret (Some s)
  | KUnicode _ =>
      PyErr_SetString
        "UnicodeEncodeError: 'ascii' codec can't encode character" ;;
      ret None
  | KObj _ => PyErr_SetString "TypeError: expected string object" ;; ret None
  end.

(** [PyUnicode_AsUTF8String(key)]: a new bytes object holding the encoded
    text of a string object, owned by the caller; NULL for a string that
    cannot be encoded, with an encoding error pending, and for any other
    object, with a type error pending. *)
Definition PyUnicode_AsUTF8String (k : PyKey) : M PyHeap PyPtr :=
  match k with
  | KStr s => r <- py_new (PyBytes s) ;; ret (Some r)
  | KUnicode _ =>
      PyErr_SetString
        ("UnicodeEncodeError: 'utf-8' codec can't encode character: " +:+
         "surrogates not allowed") ;;
      ret None
  | KObj _ => PyErr_SetString "TypeError: bad argument type" ;; ret None
  end.

(** [PyBytes_AsString(o)]: the bytes of a bytes object; NULL, with a type
    error pending, for another object.  It reads the type of [o] first, and
    does not accept NULL. *)
Definition PyBytes_AsString (o : PyPtr) : M PyHeap (option string) :=
  v <- py_deref o ;;
  match v with
  | PyBytes s => ret (Some s)
  | _ => PyErr_SetString "TypeError: expected bytes" ;; ret None
  end.

(** A loop that builds up a value. *)
Fixpoint fold_M {S A B} (f : B → A → M S B) (xs : list A) (b : B) : M S B :=
  match xs with
  | [] => ret b
  | x :: rest => b' <- f b x ;; fold_M f rest b'
  end.

Fixpoint map_M {S A B} (f : A → M S B) (xs : list A) : M S (list B) :=
  match xs with
  | [] => ret []
  | x :: rest => y <- f x ;; ys <- map_M f rest ;; ret (y :: ys)
  end.

(** ** The member functions *)

Section Methods.

Variable E : Environment.

(** *** Calls into the guest *)

(** [inspect.getargspec(f)] raises [ValueError], since version 3, for a
    function with keyword-only parameters or annotations. *)
Definition getargspec_raises (sig : Signature) : bool :=
  bool_decide (3 ≤ PY_MAJOR_VERSION E) &&
  (negb (bool_decide (sig_kwonly sig = [])) || sig_annotated sig).

(** A name of [getargspec]'s result: a new string, or None. *)
Definition py_name_or_none (n : option string) : M PyHeap PyRef :=
  match n with
  | Some s => py_new (PyStr s)
  | None => py_incref Py_None ;; ret Py_None
  end.

(** [inspect.getargspec(f)]: a tuple of four items.  The first is the list
    of the names of the parameters of [f] that can be passed by position;
    the second and the third are the name after [*] and the name after
    [**], or None; the fourth holds the default values, which functions do
    not have here: None. *)
Definition call_getargspec (items : list PyPtr) : M PyHeap PyPtr :=
  match items with
  | [Some f] =>
      v <- py_val f ;;
      match v with
      | PyFunction sig =>
          if getargspec_raises sig
          then PyErr_SetString
                 ("ValueError: Function has keyword-only parameters or " +:+
                  "annotations, use getfullargspec() API which can " +:+
                  "support them") ;;
               ret None
          else
            names <- map_M (λ n, py_new (PyStr n)) (sig_args sig) ;;
            l <- py_new (PyList names) ;;
            varargs <- py_name_or_none (sig_varargs sig) ;;
            varkw <- py_name_or_none (sig_varkw sig) ;;
            py_incref Py_None ;;
            t <- py_new (PyTuple [Some l; Some varargs; Some varkw;
                                  Some Py_None]) ;;
            ret (Some t)
      | _ => PyErr_SetString "TypeError: arg is not a Python function" ;;
             ret None
      end
  | [None] => crash NullDereference
  | _ => PyErr_SetString "TypeError: getargspec() takes exactly 1 argument" ;;
         ret None
  end.

(** [json.loads(s)]. *)
Definition call_loads (items : list PyPtr) : M PyHeap PyPtr :=
  match items with
  | [Some s] =>
      v <- py_val s ;;
      match v with
      | PyStr text =>
          match json_loads E text with
          | inl tb => PyErr_SetString tb ;; ret None
          | inr (NewObject doc) => r <- py_new doc ;; ret (Some r)
          | inr (SharedObject r) => py_incref r ;; ret (Some r)
          end
      | _ => PyErr_SetString "TypeError: expected string or buffer" ;;
             ret None
      end
  | [None] => crash NullDereference
  | _ => PyErr_SetString "TypeError: loads() takes exactly 1 argument" ;;
         ret None
  end.

(** The guest runs the entry function: whatever it does to the guest heap
    and to the memory its argument arrays view, it returns a new reference,
    or raises. *)
Definition call_entry (items : list PyPtr) : M State PyPtr := λ st,
  let '(res, (h, m)) := py_call E items (py st, ram st) in
  match res with
  | inl tb =>
      (Ret None,
       mk_state (self st)
         (mk_heap (objs h) (fresh h) (sys_modules h) (Some tb)
            (empty_tuple h)) m (trace st))
  | inr r => (Ret (Some r), mk_state (self st) h m (trace st))
  end.

(** New reference to the result, or NULL with the exception pending. *)
Definition PyObject_CallObject (callable args : PyPtr) : M State PyPtr :=
  match callable with
  | None => crash NullDereference
  | Some f =>
      fv <- liftPy (py_val f) ;;
      av <- match args with
            | None => ret (PyTuple [])
            | Some a => liftPy (py_val a)
            end ;;
      match av with
      | PyTuple items =>
          match fv with
          | PyFunction _ => log (EvCall f items) ;; call_entry items
          | PyBuiltin name =>
              if decide (name = "getargspec")
              then liftPy (call_getargspec items)
              else if decide (name = "loads")
              then liftPy (call_loads items)
              else liftPy (PyErr_SetString "SystemError: unknown function") ;;
                   ret None
          | _ => liftPy (PyErr_SetString "TypeError: object is not callable") ;;
                 ret None
          end
      | _ => liftPy (PyErr_SetString
                       "TypeError: argument list must be a tuple") ;;
             ret None
      end
  end.

Definition Py_CompileString (src : string) : M PyHeap PyPtr :=
  match py_compile E src with
  | inl tb => PyErr_SetString tb ;; ret None
  | inr _ => r <- py_new (PyCode src) ;; ret (Some r)
  end.

(** Runs the code as the body of the module [name], which it creates in the
    module table if it is not there.  New reference to the module. *)
Definition PyImport_ExecCodeModule (name : string) (code : PyPtr)
    : M PyHeap PyPtr :=
  cv <- py_deref code ;;
  match cv with
  | PyCode src =>
      m <- (λ h, match sys_modules h !! name with
                 | Some m => (Ret m, h)
                 | None =>
                     (d <- py_new (PyDict []) ;;
                      m <- py_new (PyModule name d) ;;
                      modify (λ h, mk_heap (objs h) (fresh h)
                                     (<[name := m]> (sys_modules h))
                                     (pending h) (empty_tuple h)) ;;
                      ret m) h
                 end) ;;
      match py_exec E src with
      | inl tb => PyErr_SetString tb ;; ret None
      | inr globals =>
          d <- PyModule_GetDict (Some m) ;;
          for_each globals
            (λ nv, r <- py_new nv.2 ;;
                   py_dict_set d (KStr nv.1) (Some r) ;;
                   py_decref r) ;;
          py_incref m ;;
          ret (Some m)
      end
  | _ => PyErr_SetString "SystemError: bad argument to internal function" ;;
         ret None
  end.

(** *** argCount (lines 57-69) *)

Definition argCount (function_ : PyPtr) : M State Z :=
  module_ <- liftPy (PyImport_ImportModule "inspect") ;;
  match module_ with
  | None => ret 0
  | Some _ =>
      dictionary <- liftPy (PyModule_GetDict module_) ;;
      getargFunc <- liftPy (PyDict_GetItemString dictionary "getargspec") ;;
      inArgs <- liftPy (PyTuple_New 1) ;;
      liftPy (PyTuple_SetItem inArgs 0 function_) ;;
      outArgs <- PyObject_CallObject getargFunc inArgs ;;
      arglist <- liftPy (PyTuple_GetItem outArgs 0) ;;
      liftPy (PyList_Size arglist)
  end.

(** [throw pdal::pdal_error(getTraceback())] *)
Definition throw_traceback {A} (k : ErrorKind) : M State A :=
  tb <- liftPy getTraceback ;; throw k tb.

(** *** compile (lines 104-129) *)

Definition compile : M State unit :=
  script <- this m_script ;;
  bytecode <- liftPy (Py_CompileString (source script)) ;;
  assign (set_m_bytecode bytecode) ;;
  match bytecode with
  | None => throw_traceback CompileError
  | Some _ => ret tt
  end ;;
  Py_INCREF bytecode ;;
  module_ <- liftPy (PyImport_ExecCodeModule (module script) bytecode) ;;
  assign (set_m_module module_) ;;
  match module_ with
  | None => throw_traceback CompileError
  | Some _ => ret tt
  end ;;
  dictionary <- liftPy (PyModule_GetDict module_) ;;
  assign (set_m_dictionary dictionary) ;;
  function_ <- liftPy (PyDict_GetItemString dictionary (function script)) ;;
  assign (set_m_function function_) ;;
  match function_ with
  | None =>
      throw MissingEntryFunction
        ("unable to find target function '" +:+ function script +:+
         "' in module.")
  | Some _ => ret tt
  end ;;
  callable <- liftPy (PyCallable_Check function_) ;;
  if callable then ret tt else throw_traceback NotCallable.

(** *** cleanup (lines 132-142) *)

Definition cleanup : M State unit :=
  varsIn <- this m_varsIn ;; Py_XDECREF varsIn ;;
  varsOut <- this m_varsOut ;; Py_XDECREF varsOut ;;
  scriptResult <- this m_scriptResult ;; Py_XDECREF scriptResult ;;
  scriptArgs <- this m_scriptArgs ;; Py_XDECREF scriptArgs ;;
  pyInputArrays <- this m_pyInputArrays ;;
  for_each pyInputArrays Py_XDECREF ;;
  assign (set_m_pyInputArrays []) ;;
  bytecode <- this m_bytecode ;; Py_XDECREF bytecode.

(** *** resetArguments (lines 145-150) *)

Definition resetArguments : M State unit :=
  cleanup ;;
  varsIn <- liftPy PyDict_New ;; assign (set_m_varsIn varsIn) ;;
  varsOut <- liftPy PyDict_New ;; assign (set_m_varsOut varsOut).

(** *** insertArgument (lines 153-174) *)

Definition insertArgument (name : string) (data_ : ptr)
    (t : Dimension.Type_) (count : Z) : M State unit :=
  let mydims := count in
  let stride := Dimension.size t in
  let pyDataType := getPythonDataType t in
  pyArray <- liftPy (PyArray_New [mydims] pyDataType [stride] data_) ;;
  pyInputArrays <- this m_pyInputArrays ;;
  assign (set_m_pyInputArrays (pyInputArrays ++ [pyArray])) ;;
  varsIn <- this m_varsIn ;;
  liftPy (PyDict_SetItemString varsIn name pyArray) ;;
  ret tt.

(** *** extractResult (lines 177-230) *)

Definition extractResult (name : string) (t : Dimension.Type_) : M State ptr :=
  varsOut <- this m_varsOut ;;
  xarr <- liftPy (PyDict_GetItemString varsOut name) ;;
  match xarr with
  | None =>
      throw MissingOutputError
        ("plang output variable '" +:+ name +:+ "' not found.")
  | Some _ => ret tt
  end ;;
  is_array <- liftPy (PyArray_Check xarr) ;;
  (if is_array then ret tt
   else throw NotAnArrayError
          ("Plang output variable  '" +:+ name +:+ "' is not a numpy array")) ;;
  xv <- liftPy (py_deref xarr) ;;
  match xv with
  | PyNdarray arr =>
      let one := 0 in
      let dtype := descr arr in
      (if decide (elsize dtype `mod` 2 ^ 32 ≠ Dimension.size t)
       then throw SizeMismatchError
              ("dtype of array has size " +:+ pretty (elsize dtype) +:+
               " but PDAL dimension '" +:+ name +:+ "' has byte size of " +:+
               pretty (Dimension.size t) +:+ " bytes.")
       else ret tt) ;;
      let b := Dimension.base t in
      (if decide (dkind dtype = "i"%char ∧ b ≠ Dimension.Signed)
       then throw KindMismatchError
              ("dtype of array has a signed integer type but the " +:+
               "dimension data type of '" +:+ name +:+
               "' is not pdal::Signed.")
       else ret tt) ;;
      (if decide (dkind dtype = "u"%char ∧ b ≠ Dimension.Unsigned)
       then throw KindMismatchError
              ("dtype of array has a unsigned integer type but the " +:+
               "dimension data type of '" +:+ name +:+
               "' is not pdal::Unsigned.")
       else ret tt) ;;
      (if decide (dkind dtype = "f"%char ∧ b ≠ Dimension.Floating)
       then throw KindMismatchError
              ("dtype of array has a float type but the " +:+
               "dimension data type of '" +:+ name +:+
               "' is not pdal::Floating.")
       else ret tt) ;;
      liftPy (PyArray_GetPtr arr [one])
  | _ => crash NullDereference   (* not reached: [is_array] holds *)
  end.

(** *** getOutputNames (lines 233-251) *)

(** [PyDict_Next] walks the entries of a dictionary, and finds none in
    anything else.  A decoded name is a [const char*] pushed onto a vector
    of host strings.  The key is decoded one way when the unit is compiled
    against a major version of at least 3 (line 244: the bytes object
    [PyUnicode_AsUTF8String] makes is handed to [PyBytes_AsString] as it is,
    and is never released), and another way otherwise (line 246). *)
Definition decode_key (key : PyKey) : M State (option string) :=
  if decide (3 ≤ PY_MAJOR_VERSION E)
  then liftPy (b <- PyUnicode_AsUTF8String key ;; PyBytes_AsString b)
  else liftPy (PyString_AsString key).

Definition getOutputNames : M State (list string) :=
  varsOut <- this m_varsOut ;;
  v <- liftPy (py_deref varsOut) ;;
  let entries := match v with PyDict entries => entries | _ => [] end in
  fold_M
    (λ names kv,
       p <- decode_key kv.1 ;;
       match p with
       | Some p => ret (names ++ [c_str p])
       | None => ret names
       end)
    entries [].

(** *** hasOutputVariable (lines 254-257) *)

Definition hasOutputVariable (name : string) : M State bool :=
  varsOut <- this m_varsOut ;;
  v <- liftPy (PyDict_GetItemString varsOut name) ;;
  ret (match v with Some _ => true | None => false end).

(** *** execute (lines 260-326) *)

(** Lines 262-277: the argument tuple. *)
Definition execute_args : M State unit :=
  bytecode <- this m_bytecode ;;
  match bytecode with
  | None => throw NotCompiledError "No code has been compiled"
  | Some _ => ret tt
  end ;;
  varsIn <- this m_varsIn ;;
  Py_INCREF varsIn ;;
  function_ <- this m_function ;;
  numArgs <- argCount function_ ;;
  scriptArgs <- liftPy (PyTuple_New numArgs) ;;
  assign (set_m_scriptArgs scriptArgs) ;;
  (if decide (numArgs > 2)
   then throw ArityError
          "Only two arguments -- ins and outs numpy arrays -- can be passed!"
   else ret tt) ;;
  liftPy (PyTuple_SetItem scriptArgs 0 varsIn) ;;
  if decide (numArgs > 1)
  then varsOut <- this m_varsOut ;;
       Py_INCREF varsOut ;;
       liftPy (PyTuple_SetItem scriptArgs 1 varsOut) ;;
       ret tt
  else ret tt.

(** Lines 279-311: the module-level bindings. *)
Definition execute_globals : M State unit :=
  module_ <- this m_module ;;
  metadata <- this m_metadata_PyObject ;;
  schema <- this m_schema_PyObject ;;
  srs <- this m_srs_PyObject ;;
  pdalargs <- this m_pdalargs_PyObject ;;
  match metadata with
  | Some _ =>
      success <- PyModule_AddObject module_ "metadata" metadata ;;
      (if decide (success ≠ 0)
       then throw BindingError "unable to set metadata global" else ret tt) ;;
      Py_INCREF metadata
  | None => ret tt
  end ;;
  match schema with
  | Some _ =>
      success <- PyModule_AddObject module_ "schema" schema ;;
      (if decide (success ≠ 0)
       then throw BindingError "unable to set schema global" else ret tt) ;;
      Py_INCREF srs
  | None => ret tt
  end ;;
  match srs with
  | Some _ =>
      success <- PyModule_AddObject module_ "spatialreference" srs ;;
      (if decide (success ≠ 0)
       then throw BindingError "unable to set spatialreference global"
       else ret tt) ;;
      Py_INCREF schema
  | None => ret tt
  end ;;
  match pdalargs with
  | Some _ =>
      success <- PyModule_AddObject module_ "pdalargs" pdalargs ;;
      (if decide (success ≠ 0)
       then throw BindingError "unable to set pdalargs global" else ret tt) ;;
      Py_INCREF pdalargs
  | None => ret tt
  end.

(** Lines 313-325: the call and what is made of its result. *)
Definition execute_call : M State bool :=
  function_ <- this m_function ;;
  scriptArgs <- this m_scriptArgs ;;
  scriptResult <- PyObject_CallObject function_ scriptArgs ;;
  assign (set_m_scriptResult scriptResult) ;;
  match scriptResult with
  | None => throw_traceback ExecutionError
  | Some _ => ret tt
  end ;;
  is_bool <- liftPy (PyBool_Check scriptResult) ;;
  (if is_bool then ret tt
   else throw NonBooleanResult
          "User function return value not a boolean type.") ;;
  module_ <- this m_module ;;
  mod_vars <- liftPy (PyModule_GetDict module_) ;;
  b <- liftPy (PyUnicode_FromString "metadata") ;;
  key <- liftPy (PyUnicode_FromString "metadata") ;;
  found <- liftPy (PyDict_Contains mod_vars key) ;;
  (if decide (found = 1)
   then dictionary <- this m_dictionary ;;
        metadata <- liftPy (PyDict_GetItem dictionary b) ;;
        assign (set_m_metadata_PyObject metadata)
   else ret tt) ;;
  ret (bool_decide (scriptResult = Some Py_True)).

Definition execute : M State bool :=
  execute_args ;; execute_globals ;; execute_call.

(** *** getPyJSON (lines 328-357) *)

Definition getPyJSON (str : string) : M State PyPtr :=
  raw_json <- liftPy (PyUnicode_FromString str) ;;
  json_module <- liftPy (PyImport_ImportModule "json") ;;
  match json_module with
  | None => throw_traceback JsonDecodeError
  | Some _ => ret tt
  end ;;
  json_mod_dict <- liftPy (PyModule_GetDict json_module) ;;
  match json_mod_dict with
  | None => throw_traceback JsonDecodeError
  | Some _ => ret tt
  end ;;
  loads_func <- liftPy (PyDict_GetItemString json_mod_dict "loads") ;;
  match loads_func with
  | None => throw_traceback JsonDecodeError
  | Some _ => ret tt
  end ;;
  json_args <- liftPy (PyTuple_New 1) ;;
  match json_args with
  | None => throw_traceback JsonDecodeError
  | Some _ => ret tt
  end ;;
  success <- liftPy (PyTuple_SetItem json_args 0 raw_json) ;;
  (if decide (success ≠ 0) then throw_traceback JsonDecodeError else ret tt) ;;
  json <- PyObject_CallObject loads_func json_args ;;
  match json with
  | None => throw_traceback JsonDecodeError
  | Some _ => ret tt
  end ;;
  ret json.

(** *** setKWargs (lines 359-363) *)

Definition setKWargs (s : string) : M State unit :=
  pdalargs <- this m_pdalargs_PyObject ;;
  Py_XDECREF pdalargs ;;
  json <- getPyJSON s ;;
  assign (set_m_pdalargs_PyObject json).

(** *** begin (lines 365-403) *)

(** Lines 374-383, for one attribute of the layout. *)
Definition begin_dim (view : PointView) (dd : Dimension.Detail) : M State unit :=
  let d := Dimension.id dd in
  let size := Dimension.size (Dimension.type dd) in
  data_ <- liftMem (malloc (size * Z.of_nat (points view))) ;;
  buffers <- this m_buffers ;;
  assign (set_m_buffers (buffers ++ [data_])) ;;
  for_each (seq 0 (points view))
    (λ idx, liftMem (mem_write (ptr_add data_ (size * Z.of_nat idx))
                       (getFieldInternal view d idx size))) ;;
  insertArgument (Dimension.name dd) data_ (Dimension.type dd)
    (Z.of_nat (points view)).

Definition begin (view : PointView) (m : MetadataNode) : M State unit :=
  for_each (dims view) (begin_dim view) ;;
  metadata <- this m_metadata_PyObject ;; Py_XDECREF metadata ;;
  metadata' <- liftPy (fromMetadata m) ;;
  assign (set_m_metadata_PyObject metadata') ;;
  schema <- this m_schema_PyObject ;; Py_XDECREF schema ;;
  schema' <- getPyJSON (layout_json view) ;;
  assign (set_m_schema_PyObject schema') ;;
  srs <- this m_srs_PyObject ;; Py_XDECREF srs ;;
  srs' <- getPyJSON (srs_json view) ;;
  assign (set_m_srs_PyObject srs').

(** *** end (lines 406-444) *)

(** [end] also writes to the view it is given by reference: its state is the
    process state and the view. *)
Definition onState {A} (m : M State A) : M (State * PointView) A := λ s,
  let '(o, st) := m s.1 in (o, (st, s.2)).

Definition onView (f : PointView → PointView) : M (State * PointView) unit :=
  modify (λ s, (s.1, f s.2)).

(** Lines 421-437, for one attribute of the layout.  The two assertions of
    lines 427-428 are compiled out. *)
Definition end_dim (names : list string) (npoints : nat)
    (dd : Dimension.Detail) : M (State * PointView) unit :=
  let d := Dimension.id dd in
  let name := Dimension.name dd in
  if decide (name ∈ names)
  then
    let size := Dimension.size (Dimension.type dd) in
    data_ <- onState (extractResult name (Dimension.type dd)) ;;
    for_each (seq 0 npoints)
      (λ idx,
         val <- onState (liftMem (mem_read (ptr_add data_ (size * Z.of_nat idx))
                                    size)) ;;
         onView (setField d idx val))
  else ret tt.

Definition end_ (m : MetadataNode) : M (State * PointView) MetadataNode :=
  names <- onState getOutputNames ;;
  view <- gets snd ;;
  for_each (dims view) (end_dim names (points view)) ;;
  buffers <- onState (this m_buffers) ;;
  for_each buffers (λ bi, onState (liftMem (free bi))) ;;
  onState (assign (set_m_buffers [])) ;;
  metadata <- onState (this m_metadata_PyObject) ;;
  match metadata with
  | Some r => v <- onState (liftPy (py_val r)) ;; ret (addMetadata v m)
  | None => ret m
  end.

(** *** Constructor and destructor (lines 78-101) *)

Definition Invocation_new (script : Script) : outcome unit * State :=
  resetArguments
    (mk_state
       (mk_invocation script None None None None None None None None None None
          None None [] [])
       (Py_Initialize (stdlib E))
       (mk_memory ∅ 1%positive)
       []).

Definition Invocation_delete : M State unit := cleanup.

End Methods.

(** ** Vocabulary of the statements *)

(** The kind of the error a computation threw, if it threw. *)
Definition thrown {A} (o : outcome A) : option ErrorKind :=
  match o with
  | Throw e => Some (kind e)
  | _ => None
  end.

(** [m] keeps [I], however it ends. *)
Definition preserves {S A} (I : S → Prop) (m : M S A) : Prop :=
  ∀ s o s', m s = (o, s') → I s → I s'.

(** [m] changes nothing. *)
Definition readonly {S A} (m : M S A) : Prop :=
  ∀ s, (m s).2 = s.

(** The native side of the state: the staging buffers the object holds and
    the native heap. *)
Definition native (st : State) : list ptr * Memory :=
  (m_buffers (self st), ram st).

(** A pointer is released when its allocation is no longer live. *)
Definition released (p : ptr) (m : Memory) : Prop :=
  blocks m !! block p = None.

(** [name] is bound in [outputs]: the dictionary has an entry whose key is
    the string [name]. *)
Definition bound_in_outputs (st : State) (name : string) : bool :=
  match m_varsOut (self st) with
  | Some out =>
      match objs (py st) !! out with
      | Some (mk_object _ (PyDict entries)) =>
          bool_decide (KStr name ∈ entries.*1)
      | _ => false
      end
  | None => false
  end.

(** The names [getOutputNames] makes of the entries of a dictionary. *)
Definition decoded_names (entries : list (PyKey * PyRef)) : list string :=
  c_str <$> omap (λ kv, key_bytes kv.1) entries.

(** Two states that differ at most in the interpreter's error indicator. *)
Definition same_but_pending (st st' : State) : Prop :=
  self st' = self st ∧ ram st' = ram st ∧ trace st' = trace st ∧
  objs (py st') = objs (py st) ∧ fresh (py st') = fresh (py st) ∧
  sys_modules (py st') = sys_modules (py st).

(** From [st] to [st'] nothing changed but the error indicator of the guest
    and the allocator, and every guest object is as it was or is a bytes
    object. *)
Definition same_but_bytes (st st' : State) : Prop :=
  self st' = self st ∧ ram st' = ram st ∧ trace st' = trace st ∧
  sys_modules (py st') = sys_modules (py st) ∧
  ∀ r, objs (py st') !! r = objs (py st) !! r ∨
       ∃ rc s, objs (py st') !! r = Some (mk_object rc (PyBytes s)).

(** An outcome that is not a normal return. *)
Definition fails {A} (o : outcome A) : Prop :=
  match o with
  | Ret _ => False
  | _ => True
  end.

(** What [outputs] binds a name to: nothing, or a guest value.  [None] when
    [outputs] is not a live dictionary or the value bound is not a live
    object. *)
Inductive Binding :=
| Unbound
| BoundTo (v : PyVal).

Definition output_binding (st : State) (name : string) : option Binding :=
  match m_varsOut (self st) with
  | Some out =>
      match objs (py st) !! out with
      | Some (mk_object _ (PyDict entries)) =>
          match dict_get (KStr (c_str name)) entries with
          | None => Some Unbound
          | Some x =>
              match objs (py st) !! x with
              | Some o => Some (BoundTo (ob_val o))
              | None => None
              end
          end
      | _ => None
      end
  | None => None
  end.

Definition is_array (v : PyVal) : bool :=
  match v with
  | PyNdarray _ => true
  | _ => false
  end.

(** The element kind of an array agrees with the base kind of a host type:
    signed integer with signed integer, unsigned with unsigned, floating
    point with floating point. *)
Definition kind_agrees (k : ascii) (b : Dimension.BaseType) : bool :=
  match b with
  | Dimension.Signed => bool_decide (k = "i"%char)
  | Dimension.Unsigned => bool_decide (k = "u"%char)
  | Dimension.Floating => bool_decide (k = "f"%char)
  end.

(** The disagreements [extractResult] looks for: the kind is one of the three
    numeric kinds, and it is not the one of the base kind. *)
Definition kind_rejected (k : ascii) (b : Dimension.BaseType) : bool :=
  bool_decide (k ∈ ["i"%char; "u"%char; "f"%char]) && negb (kind_agrees k b).

(** ** Concrete scripts, views and runs *)

(** The next member function is called on the state the last one left. *)
Definition and_then {A B} (s : outcome A * State) (m : M State B)
    : outcome B * State :=
  m s.2.

(** A guest function body given by what it does to the guest heap; a body
    that follows a bad reference raises instead. *)
Definition guest (m : M PyHeap PyRef) (w : PyHeap * Memory)
    : (string + PyRef) * (PyHeap * Memory) :=
  match m w.1 with
  | (Ret r, h) => (inr r, (h, w.2))
  | (_, h) => (inl "Traceback (most recent call last): KeyError", (h, w.2))
  end.

(** [def f(ins, outs): outs[name] = ins[name]; return True] *)
Definition copy_body (name : string) (args : list PyPtr) :=
  match args with
  | [ins; outs] =>
      guest (a <- py_dict_get ins (KStr name) ;;
             py_dict_set outs (KStr name) a ;;
             py_incref Py_True ;;
             ret Py_True)
  | _ => guest (crash NullDereference)
  end.

(** [def f(): return True] *)
Definition true_body (args : list PyPtr) :=
  guest (py_incref Py_True ;; ret Py_True).

(** [def f(ins, outs): return False] *)
Definition false_body (args : list PyPtr) :=
  guest (py_incref Py_False ;; ret Py_False).

(** [def f(ins, outs): return "yes"] *)
Definition string_body (args : list PyPtr) :=
  guest (py_new (PyStr "yes")).

(** [def f(ins, outs): raise ValueError] *)
Definition raising_body (args : list PyPtr) (w : PyHeap * Memory)
    : (string + PyRef) * (PyHeap * Memory) :=
  (inl "Traceback (most recent call last): ValueError", w).

(** [def f(ins, outs): outs[name] = ins[name] > 0; return True]: the output
    is a new array of booleans, one byte each, in memory of its own. *)
Definition compare_body (name : string) (args : list PyPtr)
    (w : PyHeap * Memory) : (string + PyRef) * (PyHeap * Memory) :=
  match args with
  | [ins; outs] =>
      let '(p, m) := malloc 2 w.2 in
      match p with
      | Ret result =>
          guest (a <- PyArray_New [2] 0 [1] result ;;
                 py_dict_set outs (KStr name) a ;;
                 Py_XDECREF_ a ;;
                 py_incref Py_True ;;
                 ret Py_True) (w.1, m)
      | _ => guest (crash NullDereference) w
      end
  | _ => guest (crash NullDereference) w
  end.

(** A JSON decoder that accepts everything but a lone opening brace; for
    the text [true] it returns the object True. *)
Definition loads_demo (s : string) : string + Decoded :=
  if decide (s = "{")
  then inl "Traceback (most recent call last): ValueError: Expecting object"
  else if decide (s = "true")
  then inr (SharedObject Py_True)
  else inr (NewObject (PyDocument s)).

(** [def f(a, b, ...)]: parameters passed by position and nothing else. *)
Definition plain_def (params : list string) : Signature :=
  mk_signature params None [] None false.

(** An interpreter in which the module defines the function [f] with the
    signature [sig] and the body [body]. *)
Definition demo_env_of (sig : Signature)
    (body : list PyPtr → PyHeap * Memory → (string + PyRef) * (PyHeap * Memory))
    : Environment :=
  mk_env 3 (λ _, inr tt) (λ _, inr [("f", PyFunction sig)]) body loads_demo
    ["inspect"; "json"].

(** An interpreter in which the module defines the function [f] with the
    parameters [params] and the body [body]. *)
Definition demo_env (params : list string)
    (body : list PyPtr → PyHeap * Memory → (string + PyRef) * (PyHeap * Memory))
    : Environment :=
  demo_env_of (plain_def params) body.

(** The same interpreter, of another major version. *)
Definition built_for (major : Z) (E : Environment) : Environment :=
  mk_env major (py_compile E) (py_exec E) (py_call E) (json_loads E)
    (stdlib E).

Definition demo_script : Script := mk_script "def f(...): ..." "anon" "f".

(** Two points, an attribute X of unsigned bytes and an attribute Y of
    doubles. *)
Definition demo_X : Dimension.Detail :=
  Dimension.mk_detail 1%positive "X" Dimension.Unsigned8.
Definition demo_Y : Dimension.Detail :=
  Dimension.mk_detail 2%positive "Y" Dimension.Double.

Definition demo_view : PointView :=
  mk_view [demo_X; demo_Y] 2
    (λ d idx,
       if decide (d = 1%positive)
       then (if decide (idx = 0%nat) then [x07] else [x09])
       else replicate 8 x01)
    "[1, 8]" "[]".

(** The usual life of an [Invocation] up to the point where the script has
    run: construct, compile, reset, stage in, execute. *)
Definition demo_compiled (E : Environment) : outcome unit * State :=
  and_then (and_then (Invocation_new E demo_script) (compile E))
    resetArguments.

Definition demo_begun (E : Environment) : outcome unit * State :=
  and_then (demo_compiled E) (begin E demo_view "meta").

Definition demo_executed (E : Environment) : outcome bool * State :=
  and_then (demo_begun E) (execute E).

(** The state after the script that copies X has run. *)
Definition demo_copied : State :=
  (demo_executed (demo_env ["ins"; "outs"] (copy_body "X"))).2.

(** The state after a script that raises has run: [execute] threw. *)
Definition demo_raised : outcome bool * State :=
  demo_executed (demo_env ["ins"; "outs"] raising_body).

(** The state after the script that compares X with zero has run. *)
Definition demo_compared : State :=
  (demo_executed (demo_env ["ins"; "outs"] (compare_body "X"))).2.

(** [def f(ins, outs): outs[7] = ins['Y']; outs['X'] = ins['X']; return True]:
    one of the keys is an integer. *)
Definition intkey_body (args : list PyPtr) :=
  match args with
  | [ins; outs] =>
      guest (y <- py_dict_get ins (KStr "Y") ;;
             py_dict_set outs (KObj 7) y ;;
             x <- py_dict_get ins (KStr "X") ;;
             py_dict_set outs (KStr "X") x ;;
             py_incref Py_True ;;
             ret Py_True)
  | _ => guest (crash NullDereference)
  end.

(** The state after the script with the integer key has run. *)
Definition demo_intkey_env : Environment :=
  demo_env ["ins"; "outs"] intkey_body.

Definition demo_intkey : State := (demo_executed demo_intkey_env).2.

(** The module the script was loaded as is alive, with its dictionary, and
    so is the dictionary the object remembers. *)
Definition module_live (st : State) : bool :=
  match m_module (self st), m_dictionary (self st) with
  | Some mo, Some d' =>
      match objs (py st) !! mo with
      | Some (mk_object _ (PyModule _ d)) =>
          bool_decide (is_Some (objs (py st) !! d)) &&
          bool_decide (is_Some (objs (py st) !! d'))
      | _ => false
      end
  | _, _ => false
  end.

(** The state after a script that returns False, and after a script that
    returns a string, both just before the call. *)
Definition demo_before_call
    (body : list PyPtr → PyHeap * Memory → (string + PyRef) * (PyHeap * Memory))
    : outcome unit * State :=
  and_then (demo_begun (demo_env ["ins"; "outs"] body))
    (execute_args (demo_env ["ins"; "outs"] body) ;; execute_globals).

Definition is_bool (v : PyVal) : bool :=
  match v with
  | PyBool _ => true
  | _ => false
  end.

(** The call of the entry function, made on the state [demo_before_call]
    leaves. *)
Definition demo_called
    (body : list PyPtr → PyHeap * Memory → (string + PyRef) * (PyHeap * Memory))
    : outcome PyPtr * State :=
  PyObject_CallObject (demo_env ["ins"; "outs"] body)
    (m_function (self (demo_before_call body).2))
    (m_scriptArgs (self (demo_before_call body).2))
    (demo_before_call body).2.

(** [m] never throws an error of the kind [k]. *)
Definition never_throws {S A} (k : ErrorKind) (m : M S A) : Prop :=
  ∀ s, thrown (m s).1 ≠ Some k.

(** [m] never throws at all: it returns or the process crashes. *)
Definition no_throw {S A} (m : M S A) : Prop :=
  ∀ s, thrown (m s).1 = None.

(** The value of a live object. *)
Definition value_of (h : PyHeap) (r : PyRef) : option PyVal :=
  ob_val <$> objs h !! r.

(** Every live object lies below the next address the allocator hands out. *)
Definition heap_wf (h : PyHeap) : Prop :=
  map_Forall (λ r _, (r < fresh h)%positive) (objs h).

(** The library module [inspect] can be imported and has its function
    [getargspec]. *)
Definition introspectable (h : PyHeap) : bool :=
  match sys_modules h !! "inspect" with
  | Some im =>
      match value_of h im with
      | Some (PyModule _ d) =>
          match value_of h d with
          | Some (PyDict es) =>
              match dict_get (KStr "getargspec") es with
              | Some g =>
                  match value_of h g with
                  | Some (PyBuiltin name) => bool_decide (name = "getargspec")
                  | _ => false
                  end
              | None => false
              end
          | _ => false
          end
      | _ => false
      end
  | None => false
  end.

(** What the entry function declares. *)
Definition entry_signature (st : State) : option Signature :=
  match m_function (self st) with
  | Some f =>
      match value_of (py st) f with
      | Some (PyFunction sig) => Some sig
      | _ => None
      end
  | None => None
  end.

(** The parameters the entry function declares to be passed by position. *)
Definition entry_params (st : State) : option (list string) :=
  sig_args <$> entry_signature st.

(** A script has been compiled, [inputs] is alive, and the interpreter can
    look into functions. *)
Definition ready (st : State) : bool :=
  bool_decide (is_Some (m_bytecode (self st))) &&
  match m_varsIn (self st) with
  | Some vin => bool_decide (is_Some (value_of (py st) vin))
  | None => false
  end &&
  introspectable (py st) &&
  bool_decide (is_Some (value_of (py st) Py_None)) &&
  bool_decide (heap_wf (py st)).

(** The calls of the entry function in a trace. *)
Definition is_call (e : Event) : bool :=
  match e with
  | EvCall _ _ => true
  | _ => false
  end.

Definition calls (t : list Event) : list Event :=
  filter (λ e, is_call e) t.

(** From [h] to [h'] no object of [h] changed its value or went away, the
    module table is the same, and the allocator moved forward. *)
Definition grows (h h' : PyHeap) : Prop :=
  (∀ r v, value_of h r = Some v → value_of h' r = Some v) ∧
  sys_modules h' = sys_modules h ∧
  (heap_wf h → heap_wf h') ∧
  (fresh h ≤ fresh h')%positive.

(** The same process state with another native heap. *)
Definition with_ram (r : Memory) (st : State) : State :=
  mk_state (self st) (py st) r (trace st).

(** Insert an array under [name], run the script, extract the array under
    [name], and read what the returned pointer points to. *)
Definition roundtrip (E : Environment) (name : string) (data_ : ptr)
    (t : Dimension.Type_) (count : Z) : M State (list byte) :=
  insertArgument name data_ t count ;;
  execute E ;;
  p <- extractResult name t ;;
  liftMem (mem_read p (Dimension.size t * count)).

(** What is left of [copy_body] once its lookup of [ins[name]] has found
    the object [a]: [outs[name] = a; return True]. *)
Definition store_body (name : string) (a : PyRef) (args : list PyPtr) :=
  match args with
  | [ins; outs] =>
      guest (py_dict_set outs (KStr name) (Some a) ;;
             py_incref Py_True ;;
             ret Py_True)
  | _ => guest (crash NullDereference)
  end.

(** The interpreter of the script that copies X. *)
Definition demo_copy_env : Environment :=
  demo_env ["ins"; "outs"] (copy_body "X").

(** A view whose spatial reference renders as text the decoder rejects. *)
Definition demo_view_bad_srs : PointView :=
  mk_view (dims demo_view) (points demo_view) (field demo_view)
    (layout_json demo_view) "{".

(** [begin] on that view: the schema is set, the spatial reference is not. *)
Definition demo_begun_bad_srs : outcome unit * State :=
  and_then (demo_compiled demo_copy_env)
    (begin demo_copy_env demo_view_bad_srs "meta").

(** A new object on which [setKWargs] has succeeded once. *)
Definition demo_kwargs : outcome unit * State :=
  and_then (Invocation_new demo_copy_env demo_script)
    (setKWargs demo_copy_env "[1]").

(** A new object with its script compiled. *)
Definition demo_new_compiled : outcome unit * State :=
  and_then (Invocation_new demo_copy_env demo_script) (compile demo_copy_env).

(** The interpreter of the script [def f(): return True]. *)
Definition demo_noarg_env : Environment := demo_env [] true_body.

(** The same process state, with [outputs] (the object [out]) holding the
    entries [es]. *)
Definition with_outputs (out : PyRef) (rc : Z) (es : list (PyKey * PyRef))
    (st : State) : State :=
  mk_state (self st)
    (set_objs (insert out (mk_object rc (PyDict es))) (py st))
    (ram st) (trace st).

(** Two states that differ at most in the error indicator, in the trace, and
    in entries of [outputs] whose key is not a string with a byte
    encoding. *)
Definition same_but_outputs (out : PyRef) (a b : State) : Prop :=
  self a = self b ∧ ram a = ram b ∧ m_varsOut (self a) = Some out ∧
  (∀ r, r ≠ out → objs (py a) !! r = objs (py b) !! r) ∧
  ∃ rca esa rcb esb,
    objs (py a) !! out = Some (mk_object rca (PyDict esa)) ∧
    objs (py b) !! out = Some (mk_object rcb (PyDict esb)) ∧
    ∀ s, dict_get (KStr s) esa = dict_get (KStr s) esb.

(** [m] respects the relation [R] on process states: run from two related
    states on the same view, it ends the same way, leaves the same view, and
    leaves related states. *)
Definition respects (R : State → State → Prop) {A}
    (m : M (State * PointView) A) : Prop :=
  ∀ a b v, R a b →
    ∃ o a' b' v', m (a, v) = (o, (a', v')) ∧ m (b, v) = (o, (b', v')) ∧ R a' b'.
(** [m] throws errors of the kinds [ks] only. *)
Definition throws_only {S A} (ks : list ErrorKind) (m : M S A) : Prop :=
  ∀ s k, thrown (m s).1 = Some k → k ∈ ks.

(** The interpreter of a script whose entry function declares three
    parameters. *)
Definition demo_three_env : Environment := demo_env ["a"; "b"; "c"] true_body.

(** A guest value that can be called. *)
Definition callable (v : PyVal) : bool :=
  match v with
  | PyFunction _ | PyBuiltin _ => true
  | _ => false
  end.

(** An interpreter that rejects every source text. *)
Definition demo_broken_env : Environment :=
  mk_env 3 (λ _, inl "SyntaxError: invalid syntax") (λ _, inr []) true_body
    loads_demo ["inspect"; "json"].


(** An interpreter with no library module to import. *)
Definition demo_bare_env : Environment :=
  mk_env 3 (λ _, inr tt)
    (λ _, inr [("f", PyFunction (plain_def ["ins"; "outs"]))])
    true_body loads_demo [].

(** [def f(ins, outs): outs['X'] = ins['Y']; return True]: X is bound to an
    array of doubles. *)
Definition cross_body (args : list PyPtr) :=
  match args with
  | [ins; outs] =>
      guest (a <- py_dict_get ins (KStr "Y") ;;
             py_dict_set outs (KStr "X") a ;;
             py_incref Py_True ;;
             ret Py_True)
  | _ => guest (crash NullDereference)
  end.

Definition demo_cross_env : Environment := demo_env ["ins"; "outs"] cross_body.

(** [end] after that script has run: it fails on X. *)
Definition demo_end_failed : outcome MetadataNode * (State * PointView) :=
  end_ demo_cross_env "meta" ((demo_executed demo_cross_env).2, demo_view).

(** The native heap holds [n] bytes at [p]. *)
Definition readable (m : Memory) (p : ptr) (n : Z) : bool :=
  match blocks m !! block p with
  | Some bs => bool_decide (0 ≤ offset p ∧ offset p + n ≤ Z.of_nat (length bs))
  | None => false
  end.

(** [outputs] binds the name of the attribute to an array [end] can copy
    [npoints] values from: it passes the checks of [extractResult], it has
    one dimension or none, and its data are [npoints] elements of the size
    of the type in the native heap. *)
Definition copyable (st : State) (npoints : nat) (dd : Dimension.Detail)
    : bool :=
  match output_binding st (Dimension.name dd) with
  | Some (BoundTo (PyNdarray arr)) =>
      bool_decide (elsize (descr arr) `mod` 2 ^ 32
                   = Dimension.size (Dimension.type dd)) &&
      negb (kind_rejected (dkind (descr arr))
              (Dimension.base (Dimension.type dd))) &&
      bool_decide (length (strides arr) ≤ 1)%nat &&
      readable (ram st) (data arr)
        (Dimension.size (Dimension.type dd) * Z.of_nat npoints)
  | _ => false
  end.

(** [p] is a pointer [malloc] returned, and it has not been freed. *)
Definition allocated (m : Memory) (p : ptr) : bool :=
  bool_decide (offset p = 0) && bool_decide (is_Some (blocks m !! block p)).

(** A state on which [end] has nothing to fail on, for the view [v]:
    [outputs] is a live dictionary whose keys can all be decoded (which
    matters when the unit is compiled against a major version of at least
    3), every attribute of the layout whose name is among the decoded names
    is bound to an array that can be copied from, the buffers the object
    holds are allocations, each held once, and the metadata object, if there
    is one, is alive. *)
Definition end_ready (E : Environment) (st : State) (v : PointView) : bool :=
  bool_decide (heap_wf (py st)) &&
  match m_varsOut (self st) with
  | Some out =>
      match objs (py st) !! out with
      | Some (mk_object _ (PyDict es)) =>
          (bool_decide (PY_MAJOR_VERSION E < 3) ||
           forallb (λ kv, bool_decide (is_Some (key_bytes kv.1))) es) &&
          forallb (λ dd, bool_decide (Dimension.name dd ∉ decoded_names es) ||
                         copyable st (points v) dd) (dims v)
      | _ => false
      end
  | None => false
  end &&
  forallb (allocated (ram st)) (m_buffers (self st)) &&
  bool_decide (NoDup (block <$> m_buffers (self st))) &&
  match m_metadata_PyObject (self st) with
  | Some r => bool_decide (is_Some (objs (py st) !! r))
  | None => true
  end.

(** From [st] to [st1] only the guest heap changed, and no object of [st]
    changed or went away. *)
Definition only_adds (st st1 : State) : Prop :=
  self st1 = self st ∧ ram st1 = ram st ∧ trace st1 = trace st ∧
  ∀ r o, objs (py st) !! r = Some o → objs (py st1) !! r = Some o.

(** [def f(a, b, *c): return True] *)
Definition demo_star_env : Environment :=
  demo_env_of (mk_signature ["a"; "b"] (Some "c") [] None false) true_body.

(** [def f(ins, *rest): return True] *)
Definition demo_rest_env : Environment :=
  demo_env_of (mk_signature ["ins"] (Some "rest") [] None false) true_body.

(** [def f(ins: dict, outs: dict) -> bool: return True] *)
Definition demo_annotated_env : Environment :=
  demo_env_of (mk_signature ["ins"; "outs"] None [] None true) true_body.

(** [def f(ins, outs): outs['\udc00'] = ins['X']; return True]: the key is a
    string that holds a lone surrogate. *)
Definition surrogate_body (args : list PyPtr) :=
  match args with
  | [ins; outs] =>
      guest (x <- py_dict_get ins (KStr "X") ;;
             py_dict_set outs (KUnicode [56320]) x ;;
             py_incref Py_True ;;
             ret Py_True)
  | _ => guest (crash NullDereference)
  end.

Definition demo_surrogate_env : Environment :=
  demo_env ["ins"; "outs"] surrogate_body.

(** The state after that script has run. *)
Definition demo_surrogate : State := (demo_executed demo_surrogate_env).2.

(** [def f(ins, outs): outs['X'] = True; return True]: X is bound to an
    object that is not an array. *)
Definition flag_body (args : list PyPtr) :=
  match args with
  | [ins; outs] =>
      guest (py_dict_set outs (KStr "X") (Some Py_True) ;;
             py_incref Py_True ;;
             ret Py_True)
  | _ => guest (crash NullDereference)
  end.

(** The state after that script has run. *)
Definition demo_flagged : State :=
  (demo_executed (demo_env ["ins"; "outs"] flag_body)).2.

(** * Properties *)

(** A decidable fact about concrete data, by evaluation. *)
Ltac by_evaluation :=
  match goal with
  | |- ?P => apply (@bool_decide_unpack P _); vm_compute; exact I
  end.

(** ** The monad *)

Lemma bind_ret_inv {S A B} (m : M S A) (k : A → M S B) s b s' :
  bind m k s = (Ret b, s') →
  ∃ a s1, m s = (Ret a, s1) ∧ k a s1 = (Ret b, s').
Proof.
  unfold bind. destruct (m s) as [[a|e|f] s1]; intros H; try discriminate.
  eauto.
Qed.

Lemma bind_run {S A B} (m : M S A) (k : A → M S B) s a s1 :
  m s = (Ret a, s1) → bind m k s = k a s1.
Proof. unfold bind. intros ->. reflexivity. Qed.

Lemma bind_throw {S A B} (m : M S A) (k : A → M S B) s e s1 :
  m s = (Throw e, s1) → bind m k s = (Throw e, s1).
Proof. unfold bind. intros ->. reflexivity. Qed.

Lemma bind_crash {S A B} (m : M S A) (k : A → M S B) s f s1 :
  m s = (Crash f, s1) → bind m k s = (Crash f, s1).
Proof. unfold bind. intros ->. reflexivity. Qed.

Section Preservation.

Context {S : Type} (I : S → Prop).

Lemma preserves_ret {A} (a : A) : preserves I (ret a).
Proof. intros s o s' [= <- <-]. auto. Qed.

Lemma preserves_throw {A} k msg : preserves I (@throw S A k msg).
Proof. intros s o s' [= <- <-]. auto. Qed.

Lemma preserves_crash {A} f : preserves I (@crash S A f).
Proof. intros s o s' [= <- <-]. auto. Qed.

Lemma preserves_gets {A} (f : S → A) : preserves I (gets f).
Proof. intros s o s' [= <- <-]. auto. Qed.

Lemma preserves_modify (f : S → S) :
  (∀ s, I s → I (f s)) → preserves I (modify f).
Proof. intros Hf s o s' [= <- <-]. auto. Qed.

Lemma preserves_bind {A B} (m : M S A) (k : A → M S B) :
  preserves I m → (∀ a, preserves I (k a)) → preserves I (bind m k).
Proof.
  intros Hm Hk s o s'. unfold bind.
  destruct (m s) as [[a|e|f] s1] eqn:Hms; intros Hrun His.
  - eapply Hk; eauto.
  - injection Hrun as <- <-. eauto.
  - injection Hrun as <- <-. eauto.
Qed.

Lemma preserves_for_each {A} (xs : list A) (body : A → M S unit) :
  (∀ x, x ∈ xs → preserves I (body x)) → preserves I (for_each xs body).
Proof.
  induction xs as [|x xs IH]; intros Hbody; simpl.
  - apply preserves_ret.
  - apply preserves_bind.
    + apply Hbody. left.
    + intros _. apply IH. intros y Hy. apply Hbody. by right.
Qed.

Lemma preserves_if {A} (b : bool) (m1 m2 : M S A) :
  preserves I m1 → preserves I m2 → preserves I (if b then m1 else m2).
Proof. by destruct b. Qed.

Lemma preserves_decide {A} (P : Prop) `{Decision P} (m1 m2 : M S A) :
  preserves I m1 → preserves I m2 →
  preserves I (if decide P then m1 else m2).
Proof. by destruct (decide P). Qed.

End Preservation.

(** Whatever the guest heap or the trace becomes, a property of the native
    side stays. *)
Lemma preserves_liftPy {A} (I : State → Prop) (m : M PyHeap A) :
  (∀ st h, I st → I (mk_state (self st) h (ram st) (trace st))) →
  preserves I (liftPy m).
Proof.
  intros HI st o st'. unfold liftPy.
  destruct (m (py st)) as [o' h]. intros [= <- <-]. auto.
Qed.

Lemma preserves_log (I : State → Prop) e :
  (∀ st t, I st → I (mk_state (self st) (py st) (ram st) t)) →
  preserves I (log e).
Proof. intros HI. apply preserves_modify. intros st. apply HI. Qed.

Lemma preserves_Py_XDECREF (I : State → Prop) p :
  (∀ st h, I st → I (mk_state (self st) h (ram st) (trace st))) →
  (∀ st t, I st → I (mk_state (self st) (py st) (ram st) t)) →
  preserves I (Py_XDECREF p).
Proof.
  intros H1 H2. destruct p as [r|]; simpl.
  - apply preserves_bind; [by apply preserves_liftPy|].
    intros _. by apply preserves_log.
  - apply preserves_ret.
Qed.

(** ** cleanup and resetArguments never touch the native side *)

Lemma cleanup_native bs r :
  preserves (λ st, native st = (bs, r)) cleanup.
Proof.
  unfold cleanup.
  repeat first
    [ apply preserves_bind; [|intros ?]
    | apply preserves_gets
    | apply preserves_for_each; intros ? _
    | apply preserves_Py_XDECREF; [by intros [] ?|by intros [] ?]
    | apply preserves_modify; by intros [[] ? ? ?] ].
Qed.

Lemma resetArguments_native bs r :
  preserves (λ st, native st = (bs, r)) resetArguments.
Proof.
  unfold resetArguments.
  repeat first
    [ apply cleanup_native
    | apply preserves_bind; [|intros ?]
    | apply preserves_liftPy; by intros [] ?
    | apply preserves_modify; by intros [[] ? ? ?] ].
Qed.

(** ** Computations that only read *)

Section Readonly.

Context {S : Type}.

Lemma readonly_ret {A} (a : A) : readonly (@ret S A a).
Proof. by intros s. Qed.

Lemma readonly_throw {A} k msg : readonly (@throw S A k msg).
Proof. by intros s. Qed.

Lemma readonly_crash {A} f : readonly (@crash S A f).
Proof. by intros s. Qed.

Lemma readonly_gets {A} (f : S → A) : readonly (gets f).
Proof. by intros s. Qed.

Lemma readonly_bind {A B} (m : M S A) (k : A → M S B) :
  readonly m → (∀ a, readonly (k a)) → readonly (bind m k).
Proof.
  intros Hm Hk s. unfold bind. specialize (Hm s).
  destruct (m s) as [[a|e|f] s1]; simpl in *; subst; auto.
  apply Hk.
Qed.

Lemma readonly_preserves {A} (I : S → Prop) (m : M S A) :
  readonly m → preserves I m.
Proof. intros Hm s o s' Hrun. specialize (Hm s). rewrite Hrun in Hm. by subst. Qed.

End Readonly.

Lemma readonly_liftPy {A} (m : M PyHeap A) : readonly m → readonly (liftPy m).
Proof.
  intros Hm [i h r t]. unfold liftPy; simpl. specialize (Hm h).
  destruct (m h) as [o h']; simpl in *. by subst.
Qed.

Lemma readonly_liftMem {A} (m : M Memory A) : readonly m → readonly (liftMem m).
Proof.
  intros Hm [i h r t]. unfold liftMem; simpl. specialize (Hm r).
  destruct (m r) as [o r']; simpl in *. by subst.
Qed.

Lemma readonly_onState {A} (m : M State A) : readonly m → readonly (onState m).
Proof.
  intros Hm [st v]. unfold onState; simpl. specialize (Hm st).
  destruct (m st) as [o st']; simpl in *. by subst.
Qed.

Lemma readonly_py_val r : readonly (py_val r).
Proof. intros h. unfold py_val. by destruct (objs h !! r). Qed.

Lemma readonly_py_deref p : readonly (py_deref p).
Proof. destruct p; [apply readonly_py_val|apply readonly_crash]. Qed.

Lemma readonly_py_dict_get d k : readonly (py_dict_get d k).
Proof.
  apply readonly_bind; [apply readonly_py_deref|].
  intros []; apply readonly_ret.
Qed.

Lemma readonly_PyArray_Check p : readonly (PyArray_Check p).
Proof.
  apply readonly_bind; [apply readonly_py_deref|]. intros; apply readonly_ret.
Qed.

Lemma readonly_PyArray_GetPtr a ind : readonly (PyArray_GetPtr a ind).
Proof.
  unfold PyArray_GetPtr. case_decide; [apply readonly_ret|apply readonly_crash].
Qed.

Lemma readonly_mem_read p n : readonly (mem_read p n).
Proof.
  intros m. unfold mem_read. destruct (blocks m !! block p); [|done].
  by case_decide.
Qed.

Ltac readonly_step :=
  first
    [ apply readonly_ret | apply readonly_throw | apply readonly_crash
    | apply readonly_gets
    | apply readonly_liftPy | apply readonly_liftMem | apply readonly_onState
    | apply readonly_py_deref | apply readonly_py_val
    | apply readonly_py_dict_get | apply readonly_PyArray_Check
    | apply readonly_PyArray_GetPtr | apply readonly_mem_read
    | apply readonly_bind; [|intros ?] ].

Lemma readonly_extractResult name t : readonly (extractResult name t).
Proof.
  unfold extractResult, PyDict_GetItemString.
  repeat first [ readonly_step | case_match ].
Qed.

Lemma readonly_hasOutputVariable name : readonly (hasOutputVariable name).
Proof.
  unfold hasOutputVariable, PyDict_GetItemString. repeat readonly_step.
Qed.

(** ** Dictionaries and host strings *)

Lemma c_str_idemp s : c_str (c_str s) = c_str s.
Proof.
  induction s as [|c s IH]; simpl; [done|].
  case_decide; simpl; [done|]. rewrite decide_False by done. by rewrite IH.
Qed.

Lemma dict_get_None k es : dict_get k es = None ↔ k ∉ es.*1.
Proof.
  induction es as [|[k' v] es IH]; simpl.
  - split; [intros _; apply not_elem_of_nil|done].
  - destruct (decide (k' = k)) as [->|Hne].
    + split; [done|]. intros Hk. exfalso. apply Hk. left.
    + rewrite IH, not_elem_of_cons. split; [by intros ?; split; [congruence|]|by intros [_ ?]].
Qed.

Lemma dict_get_Some k es v : dict_get k es = Some v → (k, v) ∈ es.
Proof.
  induction es as [|[k' v'] es IH]; simpl; [done|].
  destruct (decide (k' = k)) as [->|Hne].
  - intros [= ->]. left.
  - intros Hg. right. auto.
Qed.

Lemma elem_of_decoded_names name es :
  name ∈ decoded_names es ↔ ∃ s v, (KStr s, v) ∈ es ∧ name = c_str s.
Proof.
  unfold decoded_names. rewrite list_elem_of_fmap. split.
  - intros (s & -> & Hs). apply list_elem_of_omap in Hs as ([k v] & Hin & Hk).
    destruct k as [s'| |]; simpl in Hk; [|done|done]. injection Hk as ->. eauto.
  - intros (s & v & Hin & ->). exists s. split; [done|].
    apply list_elem_of_omap. by exists (KStr s, v).
Qed.

(** A name that [getOutputNames] produced has no NUL in it. *)
Lemma decoded_names_c_str name es :
  name ∈ decoded_names es → c_str name = name.
Proof.
  rewrite elem_of_decoded_names. intros (s & v & _ & ->). apply c_str_idemp.
Qed.

(** ** getOutputNames *)

Lemma same_but_pending_refl st : same_but_pending st st.
Proof. by repeat split. Qed.

Lemma same_but_pending_trans st1 st2 st3 :
  same_but_pending st1 st2 → same_but_pending st2 st3 →
  same_but_pending st1 st3.
Proof.
  unfold same_but_pending. intros (?&?&?&?&?&?) (?&?&?&?&?&?).
  repeat split; congruence.
Qed.

Lemma same_but_bytes_refl st : same_but_bytes st st.
Proof. unfold same_but_bytes. split_and!; auto. Qed.

Lemma same_but_bytes_trans st1 st2 st3 :
  same_but_bytes st1 st2 → same_but_bytes st2 st3 → same_but_bytes st1 st3.
Proof.
  intros (?&?&?&?&H12) (?&?&?&?&H23).
  unfold same_but_bytes. split_and!; try congruence.
  intros r. destruct (H23 r) as [->|?]; auto.
Qed.

Lemma same_but_pending_bytes st st' :
  same_but_pending st st' → same_but_bytes st st'.
Proof.
  intros (?&?&?&Hobjs&_&?). unfold same_but_bytes. split_and!; try done.
  intros r. left. by rewrite Hobjs.
Qed.

Lemma PyString_AsString_run k st :
  ∃ st', liftPy (PyString_AsString k) st = (Ret (key_bytes k), st') ∧
         same_but_pending st st'.
Proof.
  destruct st as [i h r t]. unfold liftPy, PyString_AsString.
  destruct k; simpl; eexists; (split; [reflexivity|]);
    by repeat split.
Qed.

(** Compiled against a major version below 3, the key is decoded in place. *)
Lemma decode_key_legacy E k st :
  ¬ 3 ≤ PY_MAJOR_VERSION E →
  ∃ st', decode_key E k st = (Ret (key_bytes k), st') ∧
         same_but_pending st st'.
Proof.
  intros Hv. unfold decode_key. rewrite decide_False by done.
  apply PyString_AsString_run.
Qed.

(** Compiled against a major version of at least 3, a key that is a string
    with a byte encoding is decoded through a new bytes object, and any
    other key makes [PyBytes_AsString] follow NULL. *)
Lemma decode_key_bytes E k st :
  3 ≤ PY_MAJOR_VERSION E →
  ∃ st', decode_key E k st
         = (match key_bytes k with
            | Some s => Ret (Some s)
            | None => Crash NullDereference
            end, st') ∧
         same_but_bytes st st'.
Proof.
  intros Hv. unfold decode_key. rewrite decide_True by done.
  destruct st as [i h r t].
  unfold liftPy, PyUnicode_AsUTF8String, PyBytes_AsString.
  destruct k as [s|cps|n]; simpl.
  - unfold bind, py_new, py_deref, py_val, ret; simpl.
    rewrite lookup_insert_eq; simpl.
    eexists; split; [reflexivity|].
    unfold same_but_bytes; simpl. split_and!; try done.
    intros x. destruct (decide (x = fresh h)) as [->|Hne].
    + right. rewrite lookup_insert_eq. eauto.
    + left. by rewrite lookup_insert_ne.
  - eexists; split; [reflexivity|].
    unfold same_but_bytes; simpl. split_and!; auto.
  - eexists; split; [reflexivity|].
    unfold same_but_bytes; simpl. split_and!; auto.
Qed.

Lemma decode_key_inv E k st o st' :
  decode_key E k st = (o, st') →
  same_but_bytes st st' ∧ ∀ p, o = Ret p → p = key_bytes k.
Proof.
  intros Hrun. destruct (decide (3 ≤ PY_MAJOR_VERSION E)) as [Hv|Hv].
  - destruct (decode_key_bytes E k st Hv) as (st1 & Hrun1 & Hsame).
    rewrite Hrun1 in Hrun. injection Hrun as <- <-. split; [done|].
    intros p. by destruct (key_bytes k); intros [= <-].
  - destruct (decode_key_legacy E k st Hv) as (st1 & Hrun1 & Hsame).
    rewrite Hrun1 in Hrun. injection Hrun as <- <-.
    split; [by apply same_but_pending_bytes|]. by intros p [= <-].
Qed.

(** The loop of [getOutputNames] over the entries. *)
Local Abbreviation names_loop E :=
  (fold_M
     (λ (names : list string) (kv : PyKey * PyRef),
        p <- decode_key E kv.1 ;;
        match p with
        | Some p => ret (names ++ [c_str p])
        | None => ret names
        end)).

Lemma names_loop_run E es acc st :
  ¬ 3 ≤ PY_MAJOR_VERSION E →
  ∃ st',
    names_loop E es acc st = (Ret (acc ++ decoded_names es), st') ∧
    same_but_pending st st'.
Proof.
  intros Hv. revert acc st. induction es as [|[k v] es IH]; intros acc st; simpl.
  - exists st. rewrite app_nil_r. split; [done|apply same_but_pending_refl].
  - destruct (decode_key_legacy E k st Hv) as (st1 & Hrun & Hsame).
    unfold decoded_names in *; simpl. unfold bind at 1 2. rewrite Hrun.
    destruct (key_bytes k) as [s|]; simpl.
    + destruct (IH (acc ++ [c_str s]) st1) as (st2 & -> & Hsame2).
      exists st2. rewrite <- app_assoc. split; [done|].
      by eapply same_but_pending_trans.
    + destruct (IH acc st1) as (st2 & -> & Hsame2).
      exists st2. split; [done|]. by eapply same_but_pending_trans.
Qed.

Lemma names_loop_inv E es acc st o st' :
  names_loop E es acc st = (o, st') →
  same_but_bytes st st' ∧
  ∀ names, o = Ret names → names = acc ++ decoded_names es.
Proof.
  revert acc st. induction es as [|[k v] es IH]; intros acc st; simpl.
  - intros [= <- <-]. rewrite app_nil_r.
    split; [apply same_but_bytes_refl|]. by intros names [= <-].
  - unfold bind at 1 2.
    destruct (decode_key E k st) as [o1 st1] eqn:Hk.
    apply decode_key_inv in Hk as [Hsame Hp].
    destruct o1 as [p|e|f]; try (by intros [= <- <-]).
    rewrite (Hp p eq_refl). unfold decoded_names; simpl.
    destruct (key_bytes k) as [s|]; simpl; intros Hrest;
      apply IH in Hrest as [Hsame2 Hnames];
      (split; [by eapply same_but_bytes_trans|]); [|done].
    intros names Hn. rewrite (Hnames names Hn). by rewrite <- app_assoc.
Qed.

Lemma names_loop_crash E es acc st :
  3 ≤ PY_MAJOR_VERSION E →
  (∃ kv, kv ∈ es ∧ key_bytes kv.1 = None) →
  (names_loop E es acc st).1 = Crash NullDereference.
Proof.
  intros Hv. revert acc st.
  induction es as [|[k v] es IH]; intros acc st (kv & Hin & Hkv); simpl.
  - by apply elem_of_nil in Hin.
  - destruct (decode_key_bytes E k st Hv) as (st1 & Hrun & _).
    unfold bind at 1 2. rewrite Hrun.
    destruct (key_bytes k) as [s|] eqn:Hk; simpl; [|done].
    apply IH. apply elem_of_cons in Hin as [->|Hin]; [|by eauto].
    simpl in Hkv. congruence.
Qed.

Lemma names_loop_strings E es acc st :
  3 ≤ PY_MAJOR_VERSION E →
  Forall (λ kv, is_Some (key_bytes kv.1)) es →
  (names_loop E es acc st).1 = Ret (acc ++ decoded_names es).
Proof.
  intros Hv Hall. revert acc st.
  induction Hall as [|[k v] es [s Hk] Hall IH]; intros acc st; simpl.
  - by rewrite app_nil_r.
  - destruct (decode_key_bytes E k st Hv) as (st1 & Hrun & _).
    unfold bind at 1 2. rewrite Hrun. simpl in Hk. rewrite Hk; simpl.
    rewrite IH. unfold decoded_names; simpl. rewrite Hk; simpl.
    by rewrite <- app_assoc.
Qed.

(** Compiled against a major version of at least 3, [getOutputNames] returns
    the names of the keys when every key of [outputs] is a string with a
    byte encoding. *)
Lemma getOutputNames_strings E st out rc es :
  3 ≤ PY_MAJOR_VERSION E →
  m_varsOut (self st) = Some out →
  objs (py st) !! out = Some (mk_object rc (PyDict es)) →
  Forall (λ kv, is_Some (key_bytes kv.1)) es →
  (getOutputNames E st).1 = Ret (decoded_names es).
Proof.
  intros Hv Hout Hobj Hall. unfold getOutputNames.
  rewrite (bind_run _ _ st (Some out) st) by (unfold this, gets; by rewrite Hout).
  rewrite (bind_run _ _ st (PyDict es) st).
  - by apply (names_loop_strings E es [] st).
  - destruct st as [i h r t]; simpl in *.
    unfold liftPy, py_deref, py_val; simpl. by rewrite Hobj.
Qed.

Lemma getOutputNames_dict E st out rc es :
  ¬ 3 ≤ PY_MAJOR_VERSION E →
  m_varsOut (self st) = Some out →
  objs (py st) !! out = Some (mk_object rc (PyDict es)) →
  ∃ st', getOutputNames E st = (Ret (decoded_names es), st') ∧
         same_but_pending st st'.
Proof.
  intros Hv Hout Hobj. unfold getOutputNames.
  rewrite (bind_run _ _ st (Some out) st) by (unfold this, gets; by rewrite Hout).
  rewrite (bind_run _ _ st (PyDict es) st).
  - apply (names_loop_run E es [] st Hv).
  - destruct st as [i h r t]; simpl in *.
    unfold liftPy, py_deref, py_val; simpl. by rewrite Hobj.
Qed.

(** Compiled against a major version of at least 3, [getOutputNames] follows
    NULL as soon as [outputs] has a key that is not a string with a byte
    encoding. *)
Lemma getOutputNames_crash E st out rc es :
  3 ≤ PY_MAJOR_VERSION E →
  m_varsOut (self st) = Some out →
  objs (py st) !! out = Some (mk_object rc (PyDict es)) →
  (∃ kv, kv ∈ es ∧ key_bytes kv.1 = None) →
  (getOutputNames E st).1 = Crash NullDereference.
Proof.
  intros Hv Hout Hobj Hbad. unfold getOutputNames.
  rewrite (bind_run _ _ st (Some out) st) by (unfold this, gets; by rewrite Hout).
  rewrite (bind_run _ _ st (PyDict es) st).
  - by apply names_loop_crash.
  - destruct st as [i h r t]; simpl in *.
    unfold liftPy, py_deref, py_val; simpl. by rewrite Hobj.
Qed.

(** What [getOutputNames] returns, and that it changes nothing but the
    error indicator and the bytes objects it leaves behind. *)
Lemma getOutputNames_inv E st o st' :
  getOutputNames E st = (o, st') →
  same_but_bytes st st' ∧
  ∀ names, o = Ret names →
    names = [] ∨
    ∃ out rc es, m_varsOut (self st) = Some out ∧
      objs (py st) !! out = Some (mk_object rc (PyDict es)) ∧
      names = decoded_names es.
Proof.
  unfold getOutputNames. intros Hrun.
  destruct (m_varsOut (self st)) as [out|] eqn:Hout.
  - rewrite (bind_run _ _ st (Some out) st) in Hrun
      by (unfold this, gets; by rewrite Hout).
    destruct (objs (py st) !! out) as [[rc v]|] eqn:Hobj.
    + rewrite (bind_run _ _ st v st) in Hrun
        by (destruct st; simpl in *; unfold liftPy, py_deref, py_val; simpl;
            by rewrite Hobj).
      apply names_loop_inv in Hrun as [Hsame Hnames]. split; [done|].
      intros names Hn. rewrite (Hnames names Hn); simpl.
      destruct v; simpl; auto. right. eauto 10.
    + rewrite (bind_crash _ _ st UseAfterFree st) in Hrun
        by (destruct st; simpl in *; unfold liftPy, py_deref, py_val; simpl;
            by rewrite Hobj).
      injection Hrun as <- <-. split; [apply same_but_bytes_refl|done].
  - rewrite (bind_run _ _ st None st) in Hrun
      by (unfold this, gets; by rewrite Hout).
    rewrite (bind_crash _ _ st NullDereference st) in Hrun
      by (by destruct st).
    injection Hrun as <- <-. split; [apply same_but_bytes_refl|done].
Qed.

(** ** extractResult, case by case *)

Lemma extractResult_lookup st name t out rc es :
  m_varsOut (self st) = Some out →
  objs (py st) !! out = Some (mk_object rc (PyDict es)) →
  dict_get (KStr (c_str name)) es = None →
  extractResult name t st =
    (Throw (mk_error MissingOutputError
              ("plang output variable '" +:+ name +:+ "' not found.")), st).
Proof.
  intros Hout Hobj Hget. destruct st as [i h r tr]; simpl in *.
  unfold extractResult, bind, this, gets, liftPy, PyDict_GetItemString,
    py_dict_get, bind, py_deref, py_val; simpl.
  rewrite Hout; simpl. rewrite Hobj; simpl. by rewrite Hget.
Qed.

Lemma extractResult_bytes st name t out rc s :
  m_varsOut (self st) = Some out →
  objs (py st) !! out = Some (mk_object rc (PyBytes s)) →
  extractResult name t st =
    (Throw (mk_error MissingOutputError
              ("plang output variable '" +:+ name +:+ "' not found.")), st).
Proof.
  intros Hout Hobj. destruct st as [i h r tr]; simpl in *.
  unfold extractResult, bind, this, gets, liftPy, PyDict_GetItemString,
    py_dict_get, bind, py_deref, py_val; simpl.
  rewrite Hout; simpl. by rewrite Hobj.
Qed.

(** ** end *)

Lemma preserves_onState {A} (I : State * PointView → Prop) (m : M State A) :
  (∀ st st' v, I (st, v) → I (st', v)) → preserves I (onState m).
Proof.
  intros HI [st v] o s'. unfold onState; simpl.
  destruct (m st) as [o' st']. intros [= <- <-]. eauto.
Qed.

Lemma preserves_onView (I : State * PointView → Prop) f :
  (∀ st v, I (st, v) → I (st, f v)) → preserves I (onView f).
Proof. intros HI. apply preserves_modify. intros [st v]. apply HI. Qed.

(** The loop over the attributes never writes to the process state. *)
Lemma end_dim_state names n dd st0 :
  preserves (λ s : State * PointView, s.1 = st0) (end_dim names n dd).
Proof.
  unfold end_dim. apply preserves_decide; [|apply preserves_ret].
  apply preserves_bind.
  { apply readonly_preserves, readonly_onState, readonly_extractResult. }
  intros p. apply preserves_for_each. intros idx _.
  apply preserves_bind.
  { apply readonly_preserves, readonly_onState, readonly_liftMem,
      readonly_mem_read. }
  intros val. by apply preserves_onView.
Qed.

(** An attribute written by [end_dim] is the one it was called for. *)
Lemma end_dim_other names n dd d (col : nat → list byte) :
  Dimension.id dd ≠ d →
  preserves (λ s : State * PointView, ∀ idx, field s.2 d idx = col idx)
    (end_dim names n dd).
Proof.
  intros Hne. unfold end_dim. apply preserves_decide; [|apply preserves_ret].
  apply preserves_bind; [by apply preserves_onState|].
  intros p. apply preserves_for_each. intros idx _.
  apply preserves_bind; [by apply preserves_onState|].
  intros val. apply preserves_onView. intros st v Hv idx'; simpl.
  rewrite decide_False by (by intros [? _]). apply Hv.
Qed.

(** For an attribute that is not bound in [outputs], [end_dim] is over before
    it writes. *)
Lemma end_dim_unbound names n dd st out rc es (I : State * PointView → Prop) :
  m_varsOut (self st) = Some out →
  objs (py st) !! out = Some (mk_object rc (PyDict es)) →
  names = decoded_names es →
  KStr (Dimension.name dd) ∉ es.*1 →
  preserves (λ s, s.1 = st ∧ I s) (end_dim names n dd).
Proof.
  intros Hout Hobj -> Hunbound [st1 v] o s' Hrun [Hst HI]; simpl in *; subst st1.
  unfold end_dim in Hrun. case_decide as Hin.
  - pose proof (decoded_names_c_str _ _ Hin) as Hc.
    assert (dict_get (KStr (c_str (Dimension.name dd))) es = None) as Hget.
    { rewrite Hc. by apply dict_get_None. }
    unfold bind at 1, onState at 1 in Hrun; simpl in Hrun.
    rewrite (extractResult_lookup _ _ _ _ _ _ Hout Hobj Hget) in Hrun.
    by injection Hrun as <- <-.
  - by injection Hrun as <- <-.
Qed.

Lemma end_dim_bytes names n dd st out rc s (I : State * PointView → Prop) :
  m_varsOut (self st) = Some out →
  objs (py st) !! out = Some (mk_object rc (PyBytes s)) →
  preserves (λ s, s.1 = st ∧ I s) (end_dim names n dd).
Proof.
  intros Hout Hobj [st1 v] o s' Hrun [Hst HI]; simpl in *; subst st1.
  unfold end_dim in Hrun. case_decide as Hin.
  - unfold bind at 1, onState at 1 in Hrun; simpl in Hrun.
    rewrite (extractResult_bytes _ _ _ _ _ _ Hout Hobj) in Hrun.
    by injection Hrun as <- <-.
  - by injection Hrun as <- <-.
Qed.

Lemma NoDup_fmap_inj {A B} (f : A → B) (l : list A) x y :
  NoDup (f <$> l) → x ∈ l → y ∈ l → f x = f y → x = y.
Proof.
  induction l as [|a l IH]; simpl; intros Hnd Hx Hy Hf.
  - by apply elem_of_nil in Hx.
  - apply NoDup_cons in Hnd as [Hna Hnd].
    apply elem_of_cons in Hx as [->|Hx]; apply elem_of_cons in Hy as [->|Hy];
      auto.
    + exfalso. apply Hna. rewrite Hf. by apply list_elem_of_fmap_2.
    + exfalso. apply Hna. rewrite <- Hf. by apply list_elem_of_fmap_2.
Qed.

(** Releasing the staging buffers. *)
Lemma free_inv p m o m' :
  free p m = (o, m') →
  (∀ q, released q m → released q m') ∧ (o = Ret tt → released p m').
Proof.
  unfold free, released. destruct (blocks m !! block p) eqn:Hp.
  - case_decide; intros [= <- <-]; simpl; [|done].
    split; [|intros _; apply lookup_delete_eq].
    intros q Hq. rewrite lookup_delete. by case_decide.
  - intros [= <- <-]. done.
Qed.

Lemma free_all_inv bs (s s' : State * PointView) o :
  for_each bs (λ bi, onState (liftMem (free bi))) s = (o, s') →
  self s'.1 = self s.1 ∧ s'.2 = s.2 ∧
  (∀ q, released q (ram s.1) → released q (ram s'.1)) ∧
  (o = Ret tt → ∀ p, p ∈ bs → released p (ram s'.1)).
Proof.
  revert s. induction bs as [|b bs IH]; intros [st v]; simpl.
  - intros [= <- <-]. repeat split; auto. intros _ p Hp.
    by apply elem_of_nil in Hp.
  - unfold bind at 1, onState at 1, liftMem at 1; simpl.
    destruct (free b (ram st)) as [[[]|e|f] m1] eqn:Hfree;
      apply free_inv in Hfree as [Hkeep Hb].
    + intros Hrest. apply IH in Hrest as (Hself & Hview & Hkeep' & Hall);
        simpl in *.
      repeat split; auto. intros Ho p [->|Hp]%elem_of_cons; auto.
    + intros [= <- <-]; simpl. repeat split; auto. done.
    + intros [= <- <-]; simpl. repeat split; auto. done.
Qed.

Lemma bind_inv {S A B} (m : M S A) (k : A → M S B) s o s' :
  bind m k s = (o, s') →
  (∃ a s1, m s = (Ret a, s1) ∧ k a s1 = (o, s')) ∨
  (∃ o1, m s = (o1, s') ∧ fails o1 ∧ fails o).
Proof.
  unfold bind. destruct (m s) as [[a|e|f] s1]; intros Hrun.
  - left. eauto.
  - injection Hrun as <- <-. right. by eexists.
  - injection Hrun as <- <-. right. by eexists.
Qed.

Lemma preserves_and {S A} (I J : S → Prop) (m : M S A) :
  preserves I m → preserves J m → preserves (λ s, I s ∧ J s) m.
Proof. intros HI HJ s o s' Hrun [??]. split; eauto. Qed.

Lemma preserves_weaken {S A} (I J : S → Prop) (m : M S A) :
  (∀ s, I s ↔ J s) → preserves I m → preserves J m.
Proof. intros HIJ HI s o s' Hrun Hs. apply HIJ. eapply HI; eauto. by apply HIJ. Qed.

(** What is left of [end] after the loop over the attributes. *)
Lemma end_tail_view (I : PointView → Prop) m buffers_k :
  buffers_k =
    (buffers <- onState (this m_buffers) ;;
     for_each buffers (λ bi, onState (liftMem (free bi))) ;;
     onState (assign (set_m_buffers [])) ;;
     metadata <- onState (this m_metadata_PyObject) ;;
     match metadata with
     | Some r => v <- onState (liftPy (py_val r)) ;; ret (addMetadata v m)
     | None => ret m
     end) →
  preserves (λ s : State * PointView, I s.2) buffers_k.
Proof.
  intros ->.
  repeat first
    [ apply preserves_bind; [|intros ?]
    | apply preserves_for_each; intros ? _
    | by apply preserves_onState
    | apply preserves_ret
    | case_match ].
Qed.

(** The loop of [end], run after [getOutputNames] returned [names], keeps
    the process state and the values of an attribute that is not bound. *)
Lemma end_loop_frame st st1 names v dd :
  NoDup (Dimension.id <$> dims v) →
  dd ∈ dims v →
  bound_in_outputs st (Dimension.name dd) = false →
  same_but_bytes st st1 →
  (names = [] ∨
   ∃ out rc es, m_varsOut (self st) = Some out ∧
     objs (py st) !! out = Some (mk_object rc (PyDict es)) ∧
     names = decoded_names es) →
  preserves
    (λ s : State * PointView,
       s.1 = st1 ∧ ∀ idx, field s.2 (Dimension.id dd) idx
                          = field v (Dimension.id dd) idx)
    (for_each (dims v) (end_dim names (points v))).
Proof.
  intros Hnd Hdd Hunbound Hsame Hwhat.
  apply preserves_for_each. intros dd' Hdd'.
  destruct (decide (Dimension.id dd' = Dimension.id dd)) as [Heq|Hne].
  - assert (dd' = dd) as -> by (eapply NoDup_fmap_inj; eauto).
    destruct Hwhat as [->|(out & rc & es & Hout & Hobj & ->)].
    + intros s o' s'' Hd. unfold end_dim in Hd.
      rewrite decide_False in Hd by apply not_elem_of_nil.
      by injection Hd as <- <-.
    + destruct Hsame as (Hself & _ & _ & _ & Hobjs).
      destruct (Hobjs out) as [Hsame|(rc' & s & Hbytes)].
      * eapply end_dim_unbound; eauto.
        -- by rewrite Hself.
        -- by rewrite Hsame.
        -- intros Hin. unfold bound_in_outputs in Hunbound.
           rewrite Hout, Hobj in Hunbound.
           by apply bool_decide_eq_false in Hunbound.
      * eapply end_dim_bytes; [|exact Hbytes]. by rewrite Hself.
  - apply preserves_and; [apply end_dim_state|by apply end_dim_other].
Qed.

Lemma end_frame E m st v o s' dd :
  NoDup (Dimension.id <$> dims v) →
  dd ∈ dims v →
  bound_in_outputs st (Dimension.name dd) = false →
  end_ E m (st, v) = (o, s') →
  ∀ idx, field s'.2 (Dimension.id dd) idx = field v (Dimension.id dd) idx.
Proof.
  intros Hnd Hdd Hunbound Hrun. unfold end_ in Hrun.
  apply bind_inv in Hrun as [(names & [st1 v1] & Hnames & Hrun)|(o1 & Hnames & _)].
  2:{ unfold onState in Hnames; simpl in Hnames.
      destruct (getOutputNames E st) as [o2 st2].
      by injection Hnames as _ <-. }
  unfold onState in Hnames; simpl in Hnames.
  destruct (getOutputNames E st) as [o2 st2] eqn:Hgo.
  injection Hnames as -> -> <-.
  apply getOutputNames_inv in Hgo as [Hsame Hwhat].
  specialize (Hwhat names eq_refl).
  pose proof (end_loop_frame _ _ _ _ _ Hnd Hdd Hunbound Hsame Hwhat) as Hloop_ok.
  unfold bind at 1 in Hrun; simpl in Hrun.
  apply bind_inv in Hrun as [([] & s2 & Hloop & Hrun)|(o1 & Hloop & _)].
  - pose proof (Hloop_ok _ _ _ Hloop (conj eq_refl (λ _, eq_refl)))
      as [_ Hs2].
    exact (end_tail_view
             (λ v', ∀ idx, field v' (Dimension.id dd) idx
                           = field v (Dimension.id dd) idx)
             m _ eq_refl _ _ _ Hrun Hs2).
  - by pose proof (Hloop_ok _ _ _ Hloop (conj eq_refl (λ _, eq_refl)))
      as [_ Hs2].
Qed.

(** When [end] returns, no staging buffer is left. *)
Lemma end_release E m st v m' s' :
  end_ E m (st, v) = (Ret m', s') →
  m_buffers (self s'.1) = [] ∧
  ∀ p, p ∈ m_buffers (self st) → released p (ram s'.1).
Proof.
  intros Hrun. unfold end_ in Hrun.
  apply bind_ret_inv in Hrun as (names & [st1 v1] & Hnames & Hrun).
  unfold onState in Hnames; simpl in Hnames.
  destruct (getOutputNames E st) as [o2 st2] eqn:Hgo.
  injection Hnames as -> -> <-.
  apply getOutputNames_inv in Hgo as [(Hself & _) _].
  unfold bind at 1 in Hrun; simpl in Hrun.
  apply bind_ret_inv in Hrun as ([] & s2 & Hloop & Hrun).
  assert (s2.1 = st1) as Hs2.
  { eapply (preserves_for_each (λ s : State * PointView, s.1 = st1));
      [|exact Hloop|done].
    intros dd _. apply end_dim_state. }
  unfold bind at 1, onState at 1 in Hrun; simpl in Hrun.
  apply bind_ret_inv in Hrun as ([] & s3 & Hfree & Hrun).
  apply free_all_inv in Hfree as (Hself3 & _ & _ & Hall).
  rewrite Hs2, Hself in Hall. specialize (Hall eq_refl).
  unfold bind at 1, onState at 1 in Hrun; simpl in Hrun.
  destruct s3 as [st3 v3]; simpl in *.
  assert (preserves
            (λ s : State * PointView,
               m_buffers (self s.1) = [] ∧ ram s.1 = ram st3)
            (metadata <- onState (this m_metadata_PyObject) ;;
             match metadata with
             | Some r =>
                 v <- onState (liftPy (py_val r)) ;; ret (addMetadata v m)
             | None => ret m
             end)) as Htail.
  { repeat first
      [ apply preserves_bind; [|intros ?]
      | apply readonly_preserves, readonly_onState; repeat readonly_step
      | apply preserves_ret
      | case_match ]. }
  match type of Hrun with
  | _ ?s0 = _ =>
      assert (m_buffers (self s0.1) = [] ∧ ram s0.1 = ram st3) as Hinit
        by (by destruct st3 as [[] ? ? ?])
  end.
  destruct (Htail _ _ _ Hrun Hinit) as [Hb Hram].
  split; [done|]. intros p Hp. unfold released. rewrite Hram. by apply Hall.
Qed.

(** [extractResult] in terms of what [outputs] binds the name to. *)
Lemma extractResult_unbound st name t :
  output_binding st name = Some Unbound →
  thrown (extractResult name t st).1 = Some MissingOutputError.
Proof.
  unfold output_binding. intros Hb.
  destruct (m_varsOut (self st)) as [out|] eqn:Hout; [|done].
  destruct (objs (py st) !! out) as [[rc []]|] eqn:Hobj; try done.
  destruct (dict_get (KStr (c_str name)) entries) as [x|] eqn:Hget.
  { by destruct (objs (py st) !! x). }
  by rewrite (extractResult_lookup _ _ _ _ _ _ Hout Hobj Hget).
Qed.

Lemma extractResult_bound st name t v :
  output_binding st name = Some (BoundTo v) →
  extractResult name t st =
    (match v with
     | PyNdarray arr =>
         if decide (elsize (descr arr) `mod` 2 ^ 32 ≠ Dimension.size t)
         then Throw (mk_error SizeMismatchError
                ("dtype of array has size " +:+ pretty (elsize (descr arr)) +:+
                 " but PDAL dimension '" +:+ name +:+
                 "' has byte size of " +:+
                 pretty (Dimension.size t) +:+ " bytes."))
         else if decide (dkind (descr arr) = "i"%char ∧
                         Dimension.base t ≠ Dimension.Signed)
         then Throw (mk_error KindMismatchError
                ("dtype of array has a signed integer type but the " +:+
                 "dimension data type of '" +:+ name +:+
                 "' is not pdal::Signed."))
         else if decide (dkind (descr arr) = "u"%char ∧
                         Dimension.base t ≠ Dimension.Unsigned)
         then Throw (mk_error KindMismatchError
                ("dtype of array has a unsigned integer type but the " +:+
                 "dimension data type of '" +:+ name +:+
                 "' is not pdal::Unsigned."))
         else if decide (dkind (descr arr) = "f"%char ∧
                         Dimension.base t ≠ Dimension.Floating)
         then Throw (mk_error KindMismatchError
                ("dtype of array has a float type but the " +:+
                 "dimension data type of '" +:+ name +:+
                 "' is not pdal::Floating."))
         else if decide (length (strides arr) ≤ length [0])%nat
         then Ret (ptr_add (data arr)
                     (foldr Z.add 0 (zip_with Z.mul (strides arr) [0])))
         else Crash OutOfBounds
     | _ => Throw (mk_error NotAnArrayError
              ("Plang output variable  '" +:+ name +:+
               "' is not a numpy array"))
     end, st).
Proof.
  unfold output_binding. intros Hb.
  destruct (m_varsOut (self st)) as [out|] eqn:Hout; [|done].
  destruct (objs (py st) !! out) as [[rc []]|] eqn:Hobj; try done.
  destruct (dict_get (KStr (c_str name)) entries) as [x|] eqn:Hget; [|done].
  destruct (objs (py st) !! x) as [[rcx vx]|] eqn:Hx; [|done].
  injection Hb as <-; simpl.
  destruct st as [i h r tr]; simpl in *.
  unfold extractResult, bind, this, gets, liftPy, PyDict_GetItemString,
    PyArray_Check, PyArray_GetPtr, py_dict_get, bind, py_deref, py_val, throw,
    ret; simpl.
  rewrite Hout; simpl. rewrite Hobj; simpl. rewrite Hget; simpl.
  rewrite Hx; simpl.
  destruct vx; simpl; try done. rewrite Hx; simpl.
  repeat (case_decide; simpl; try done).
Qed.

Lemma extractResult_returns st name t p :
  (extractResult name t st).1 = Ret p →
  ∃ arr, output_binding st name = Some (BoundTo (PyNdarray arr)).
Proof.
  destruct (output_binding st name) as [[|v]|] eqn:Hb.
  - apply (extractResult_unbound _ _ t) in Hb.
    intros Hr. by rewrite Hr in Hb.
  - rewrite (extractResult_bound _ _ t _ Hb); simpl.
    destruct v; try done. eauto.
  - intros Hr. exfalso. revert Hb Hr. unfold output_binding.
    destruct st as [i h r tr]; simpl.
    unfold extractResult, bind, this, gets, liftPy, PyDict_GetItemString,
      PyArray_Check, py_dict_get, bind, py_deref, py_val, throw, ret, crash;
      simpl.
    destruct (m_varsOut i) as [out|]; simpl; [|done].
    destruct (objs h !! out) as [[rc v]|] eqn:Hobj; simpl; [|done].
    destruct v; simpl; try done.
    destruct (dict_get (KStr (c_str name)) entries) as [x|]; simpl; [|done].
    destruct (objs h !! x); simpl; done.
Qed.

Lemma kind_rejected_spec k b :
  kind_rejected k b = false ↔
  ¬ (k = "i"%char ∧ b ≠ Dimension.Signed) ∧
  ¬ (k = "u"%char ∧ b ≠ Dimension.Unsigned) ∧
  ¬ (k = "f"%char ∧ b ≠ Dimension.Floating).
Proof.
  unfold kind_rejected, kind_agrees.
  destruct (decide (k = "i"%char)) as [->|Hi];
    [destruct b; vm_compute; intuition congruence|].
  destruct (decide (k = "u"%char)) as [->|Hu];
    [destruct b; vm_compute; intuition congruence|].
  destruct (decide (k = "f"%char)) as [->|Hf];
    [destruct b; vm_compute; intuition congruence|].
  rewrite bool_decide_eq_false_2; [simpl; intuition congruence|].
  rewrite !elem_of_cons, elem_of_nil. intuition congruence.
Qed.

Lemma ptr_add_0 p : ptr_add p 0 = p.
Proof. destruct p as [b o]. unfold ptr_add; simpl. f_equal. lia. Qed.

(** An array of one dimension or none that passes the checks: the pointer
    returned is the data pointer. *)
Lemma extractResult_data st name t arr :
  output_binding st name = Some (BoundTo (PyNdarray arr)) →
  elsize (descr arr) `mod` 2 ^ 32 = Dimension.size t →
  kind_rejected (dkind (descr arr)) (Dimension.base t) = false →
  (length (strides arr) ≤ 1)%nat →
  (extractResult name t st).1 = Ret (data arr).
Proof.
  intros Hb Hsize Hkind Hnd.
  rewrite (extractResult_bound _ _ t _ Hb). simpl.
  apply kind_rejected_spec in Hkind as (Hi & Hu & Hf).
  rewrite decide_False by (by intros ?).
  do 3 rewrite decide_False by done.
  rewrite decide_True by done.
  destruct (strides arr) as [|stride [|]]; simpl in *; [| |lia].
  - by rewrite ptr_add_0.
  - replace (stride * 0 + 0) with 0 by lia. by rewrite ptr_add_0.
Qed.

(** ** Keys that cannot be decoded *)

Lemma decoded_names_app es1 es2 :
  decoded_names (es1 ++ es2) = decoded_names es1 ++ decoded_names es2.
Proof. unfold decoded_names. by rewrite omap_app, fmap_app. Qed.

Lemma decoded_names_skip es1 k a es2 :
  key_bytes k = None →
  decoded_names (es1 ++ (k, a) :: es2) = decoded_names (es1 ++ es2).
Proof.
  intros Hk. rewrite !decoded_names_app. f_equal.
  unfold decoded_names; simpl. by rewrite Hk.
Qed.

(** An attribute whose name [getOutputNames] did not produce is skipped by
    the loop of [end]. *)
Lemma end_dim_skipped names n dd (I : State * PointView → Prop) :
  Dimension.name dd ∉ names → preserves I (end_dim names n dd).
Proof.
  intros Hnot. unfold end_dim. rewrite decide_False by done.
  apply preserves_ret.
Qed.

Lemma end_frame_skipped E m st v dd out rc es :
  ¬ 3 ≤ PY_MAJOR_VERSION E →
  NoDup (Dimension.id <$> dims v) →
  dd ∈ dims v →
  m_varsOut (self st) = Some out →
  objs (py st) !! out = Some (mk_object rc (PyDict es)) →
  Dimension.name dd ∉ decoded_names es →
  ∀ idx, field (end_ E m (st, v)).2.2 (Dimension.id dd) idx
         = field v (Dimension.id dd) idx.
Proof.
  intros Hv Hnd Hdd Hout Hobj Hnot.
  destruct (getOutputNames_dict E _ _ _ _ Hv Hout Hobj)
    as (st1 & Hnames & Hsame).
  unfold end_.
  rewrite (bind_run _ _ (st, v) (decoded_names es) (st1, v))
    by (unfold onState; simpl; by rewrite Hnames).
  unfold bind at 1; simpl.
  destruct (for_each (dims v) (end_dim (decoded_names es) (points v)) (st1, v))
    as [o2 s2] eqn:Hloop.
  assert (∀ idx, field s2.2 (Dimension.id dd) idx
                 = field v (Dimension.id dd) idx) as Hs2.
  { eapply (preserves_for_each
              (λ s : State * PointView,
                 ∀ idx, field s.2 (Dimension.id dd) idx
                        = field v (Dimension.id dd) idx));
      [|exact Hloop|done].
    intros dd' Hdd'.
    destruct (decide (Dimension.id dd' = Dimension.id dd)) as [Heq|Hne].
    - assert (dd' = dd) as -> by (eapply NoDup_fmap_inj; eauto).
      by apply end_dim_skipped.
    - by apply end_dim_other. }
  match goal with
  | |- ∀ idx, field (?run).2.2 _ _ = _ => destruct run as [o3 s3] eqn:Hrun
  end.
  unfold bind in Hrun. rewrite Hloop in Hrun.
  destruct o2 as [[]|e|f].
  - exact (end_tail_view
             (λ v', ∀ idx, field v' (Dimension.id dd) idx
                           = field v (Dimension.id dd) idx)
             m _ eq_refl _ _ _ Hrun Hs2).
  - by injection Hrun as <- <-.
  - by injection Hrun as <- <-.
Qed.

(** ** execute: the call and its result *)

Lemma bind_assoc {S A B C} (m : M S A) (k : A → M S B) (k2 : B → M S C) s :
  bind (bind m k) k2 s = bind m (λ a, bind (k a) k2) s.
Proof. unfold bind. destruct (m s) as [[a|e|f] s1]; reflexivity. Qed.

Lemma py_val_live r h :
  is_Some (objs h !! r) → ∃ v, py_val r h = (Ret v, h).
Proof. intros [[rc v] Hr]. exists v. unfold py_val. by rewrite Hr. Qed.

Lemma py_dict_get_live d k h :
  is_Some (objs h !! d) → ∃ v, py_dict_get (Some d) k h = (Ret v, h).
Proof.
  intros Hd. destruct (py_val_live _ _ Hd) as [v Hv].
  unfold py_dict_get, py_deref. rewrite (bind_run _ _ _ _ _ Hv).
  destruct v; eauto.
Qed.

Lemma py_new_str_key s h :
  ∃ h', PyUnicode_FromString s h = (Ret (Some (fresh h)), h') ∧
        objs h' = <[fresh h := mk_object 1 (PyStr (c_str s))]> (objs h) ∧
        fresh h' = Pos.succ (fresh h).
Proof. eexists. unfold PyUnicode_FromString, bind, py_new, ret. simpl. eauto. Qed.

Lemma py_key_str r rc s h :
  objs h !! r = Some (mk_object rc (PyStr s)) →
  py_key (Some r) h = (Ret (KStr s), h).
Proof. intros Hr. unfold py_key, bind, py_deref, py_val. by rewrite Hr. Qed.

Lemma liftPy_run {A} (m : M PyHeap A) st o h :
  m (py st) = (o, h) →
  liftPy m st = (o, mk_state (self st) h (ram st) (trace st)).
Proof. unfold liftPy. by intros ->. Qed.

Lemma this_run {A} (f : Invocation → A) st : this f st = (Ret (f (self st)), st).
Proof. reflexivity. Qed.

(** After the result passed the boolean check *)
Lemma execute_epilogue st (res : PyPtr) :
  module_live st = true →
  ∃ st',
  (module_ <- this m_module ;;
  mod_vars <- liftPy (PyModule_GetDict module_) ;;
  b <- liftPy (PyUnicode_FromString "metadata") ;;
  key <- liftPy (PyUnicode_FromString "metadata") ;;
  found <- liftPy (PyDict_Contains mod_vars key) ;;
  (if decide (found = 1)
   then dictionary <- this m_dictionary ;;
        metadata <- liftPy (PyDict_GetItem dictionary b) ;;
        assign (set_m_metadata_PyObject metadata)
   else ret tt) ;;
  ret (bool_decide (res = Some Py_True))) st
  = (Ret (bool_decide (res = Some Py_True)), st').
Proof.
  unfold module_live. intros Hlive.
  destruct (m_module (self st)) as [mo|] eqn:Hmo; [|done].
  destruct (m_dictionary (self st)) as [d'|] eqn:Hd'; [|done].
  destruct (objs (py st) !! mo) as [[rcm []]|] eqn:Hmod; try done.
  apply andb_true_iff in Hlive as [Hd Hd'live].
  apply bool_decide_eq_true in Hd, Hd'live.
  set (h := py st) in *.
  rewrite (bind_run _ _ _ _ _ (this_run m_module st)), Hmo.
  erewrite bind_run by
    (apply liftPy_run; unfold PyModule_GetDict, bind, py_deref, py_val;
     fold h; rewrite Hmod; reflexivity).
  destruct (py_new_str_key "metadata" h) as (h1 & Hn1 & Ho1 & Hf1).
  erewrite bind_run by (apply liftPy_run; exact Hn1).
  destruct (py_new_str_key "metadata" h1) as (h2 & Hn2 & Ho2 & Hf2).
  erewrite bind_run by (apply liftPy_run; exact Hn2).
  assert (objs h2 !! fresh h1 = Some (mk_object 1 (PyStr "metadata"))) as Hk2.
  { rewrite Ho2. apply lookup_insert_eq. }
  assert (objs h2 !! fresh h = Some (mk_object 1 (PyStr "metadata"))) as Hk1.
  { rewrite Ho2, Hf1, lookup_insert_ne by lia. rewrite Ho1.
    apply lookup_insert_eq. }
  assert (∀ x, is_Some (objs h !! x) → is_Some (objs h2 !! x)) as Hgrow.
  { intros x Hx. rewrite Ho2, Ho1. rewrite !lookup_insert_is_Some'. auto. }
  destruct (py_dict_get_live md_dict (KStr "metadata") h2 (Hgrow _ Hd))
    as [v Hget].
  erewrite bind_run; cycle 1.
  { apply liftPy_run. unfold PyDict_Contains. simpl.
    rewrite (bind_run _ _ _ _ _ (py_key_str _ _ _ _ Hk2)).
    rewrite (bind_run _ _ _ _ _ Hget). reflexivity. }
  cbv beta. case_decide.
  - rewrite bind_assoc. cbv beta.
    rewrite (bind_run _ _ _ _ _ (this_run m_dictionary _)). cbv beta.
    rewrite bind_assoc. simpl self. rewrite Hd'.
    destruct (py_dict_get_live d' (KStr "metadata") h2 (Hgrow _ Hd'live))
      as [v' Hget'].
    erewrite bind_run; cycle 1.
    { apply liftPy_run. unfold PyDict_GetItem. simpl.
      rewrite (bind_run _ _ _ _ _ (py_key_str _ _ _ _ Hk1)). exact Hget'. }
    eexists. reflexivity.
  - eexists. reflexivity.
Qed.

Lemma PyBool_Check_run r h v :
  ob_val <$> objs h !! r = Some v →
  PyBool_Check (Some r) h = (Ret (is_bool v), h).
Proof.
  intros Hv. unfold PyBool_Check, bind, py_deref, py_val.
  destruct (objs h !! r) as [[rc v']|]; [|done]. by injection Hv as ->.
Qed.

Lemma execute_split E st0 st :
  (execute_args E ;; execute_globals) st0 = (Ret tt, st) →
  execute E st0 = execute_call E st.
Proof.
  intros Hpre. unfold execute.
  change (execute_args E ;; execute_globals ;; execute_call E)
    with (bind (execute_args E) (λ _, bind execute_globals (λ _, execute_call E))).
  rewrite <- bind_assoc. by rewrite (bind_run _ _ _ _ _ Hpre).
Qed.

Lemma execute_call_returned E st r st2 :
  PyObject_CallObject E (m_function (self st)) (m_scriptArgs (self st)) st
    = (Ret (Some r), st2) →
  execute_call E st =
    (is_bool <- liftPy (PyBool_Check (Some r)) ;;
     (if is_bool then ret tt
      else throw NonBooleanResult
             "User function return value not a boolean type.") ;;
     module_ <- this m_module ;;
     mod_vars <- liftPy (PyModule_GetDict module_) ;;
     b <- liftPy (PyUnicode_FromString "metadata") ;;
     key <- liftPy (PyUnicode_FromString "metadata") ;;
     found <- liftPy (PyDict_Contains mod_vars key) ;;
     (if decide (found = 1)
      then dictionary <- this m_dictionary ;;
           metadata <- liftPy (PyDict_GetItem dictionary b) ;;
           assign (set_m_metadata_PyObject metadata)
      else ret tt) ;;
     ret (bool_decide (Some r = Some Py_True)))
      (mk_state (set_m_scriptResult (Some r) (self st2)) (py st2) (ram st2)
         (trace st2)).
Proof.
  intros Hcall. unfold execute_call.
  rewrite (bind_run _ _ _ _ _ (this_run m_function st)). cbv beta.
  rewrite (bind_run _ _ _ _ _ (this_run m_scriptArgs st)). cbv beta.
  rewrite (bind_run _ _ _ _ _ Hcall). cbv beta.
  reflexivity.
Qed.


(** ** Computations that do not throw *)

Section NoThrow.

Context {S : Type}.

Lemma no_throw_ret {A} (a : A) : no_throw (@ret S A a).
Proof. by intros s. Qed.

Lemma no_throw_crash {A} f : no_throw (@crash S A f).
Proof. by intros s. Qed.

Lemma no_throw_gets {A} (f : S → A) : no_throw (gets f).
Proof. by intros s. Qed.

Lemma no_throw_modify (f : S → S) : no_throw (modify f).
Proof. by intros s. Qed.

Lemma no_throw_bind {A B} (m : M S A) (k : A → M S B) :
  no_throw m → (∀ a, no_throw (k a)) → no_throw (bind m k).
Proof.
  intros Hm Hk s. unfold bind. specialize (Hm s).
  destruct (m s) as [[a|e|f] s1]; simpl in *; try done. apply Hk.
Qed.

Lemma no_throw_for_each {A} (xs : list A) (body : A → M S unit) :
  (∀ x, no_throw (body x)) → no_throw (for_each xs body).
Proof.
  intros Hb. induction xs; simpl; [apply no_throw_ret|].
  apply no_throw_bind; auto.
Qed.

Lemma no_throw_map_M {A B} (f : A → M S B) (xs : list A) :
  (∀ x, no_throw (f x)) → no_throw (map_M f xs).
Proof.
  intros Hf. induction xs; simpl; [apply no_throw_ret|].
  apply no_throw_bind; [done|]. intros b.
  apply no_throw_bind; [done|]. intros bs. apply no_throw_ret.
Qed.

Lemma never_throws_no_throw {A} k (m : M S A) : no_throw m → never_throws k m.
Proof. intros Hm s. by rewrite Hm. Qed.

Lemma never_throws_throw {A} k k' msg :
  k' ≠ k → never_throws k (@throw S A k' msg).
Proof. intros Hne s [= ?]. done. Qed.

Lemma never_throws_bind {A B} k (m : M S A) (f : A → M S B) :
  never_throws k m → (∀ a, never_throws k (f a)) → never_throws k (bind m f).
Proof.
  intros Hm Hf s. unfold bind. specialize (Hm s).
  destruct (m s) as [[a|e|fl] s1]; simpl in *; try done. apply Hf.
Qed.

End NoThrow.

Lemma no_throw_liftPy {A} (m : M PyHeap A) : no_throw m → no_throw (liftPy m).
Proof.
  intros Hm st. unfold liftPy. specialize (Hm (py st)).
  by destruct (m (py st)) as [o h].
Qed.

Lemma no_throw_py_val r : no_throw (py_val r).
Proof. intros h. unfold py_val. by destruct (objs h !! r). Qed.

Lemma no_throw_py_deref p : no_throw (py_deref p).
Proof. destruct p; [apply no_throw_py_val|apply no_throw_crash]. Qed.

Lemma no_throw_py_incref r : no_throw (py_incref r).
Proof. intros h. unfold py_incref. by destruct (objs h !! r). Qed.

Lemma no_throw_py_decref r : no_throw (py_decref r).
Proof. intros h. unfold py_decref. by destruct (release _ _ _). Qed.

Lemma no_throw_py_store r v : no_throw (py_store r v).
Proof. intros h. unfold py_store. by destruct (objs h !! r). Qed.

Lemma no_throw_py_new v : no_throw (py_new v).
Proof. by intros h. Qed.

Create HintDb no_throw discriminated.

#[local] Hint Resolve no_throw_py_val no_throw_py_deref no_throw_py_incref
  no_throw_py_decref no_throw_py_store no_throw_py_new : no_throw.

Ltac no_throw_step :=
  first
    [ apply no_throw_ret | apply no_throw_crash | apply no_throw_gets
    | apply no_throw_modify
    | solve [auto with no_throw nocore]
    | apply no_throw_liftPy
    | apply no_throw_bind; [|intros ?]
    | apply no_throw_for_each; intros ?
    | apply no_throw_map_M; intros ?
    | case_decide | case_match ].

Ltac no_throw := repeat no_throw_step.

Lemma no_throw_PyErr_SetString msg : no_throw (PyErr_SetString msg).
Proof. unfold PyErr_SetString. no_throw. Qed.

Lemma no_throw_Py_XDECREF_ p : no_throw (Py_XDECREF_ p).
Proof. unfold Py_XDECREF_. no_throw. Qed.

Lemma no_throw_py_dict_get d k : no_throw (py_dict_get d k).
Proof. unfold py_dict_get. no_throw. Qed.

#[local] Hint Resolve no_throw_PyErr_SetString no_throw_Py_XDECREF_
  no_throw_py_dict_get : no_throw.

Lemma no_throw_py_dict_set d k v : no_throw (py_dict_set d k v).
Proof. unfold py_dict_set. no_throw. Qed.

Lemma no_throw_PyTuple_SetItem t i v : no_throw (PyTuple_SetItem t i v).
Proof.
  unfold PyTuple_SetItem. destruct t as [tr|]; [|apply no_throw_crash].
  intros h. destruct (objs h !! tr) as [[rc val]|]; [|done].
  assert (no_throw (Py_XDECREF_ v ;;
                    PyErr_SetString
                      "SystemError: bad argument to internal function" ;;
                    ret (-1))) as Hbad by no_throw.
  destruct val; try apply Hbad.
  case_decide; [|apply Hbad]. case_decide.
  - assert (no_throw (py_store tr (PyTuple (<[Z.to_nat i:=v]> items)) ;;
                      Py_XDECREF_ (items !!! Z.to_nat i) ;; ret 0)) as Hok
      by no_throw.
    apply Hok.
  - assert (no_throw (Py_XDECREF_ v ;;
                      PyErr_SetString
                        "IndexError: tuple assignment index out of range" ;;
                      ret (-1))) as Hidx by no_throw.
    apply Hidx.
Qed.

Lemma no_throw_PyImport_ImportModule name :
  no_throw (PyImport_ImportModule name).
Proof.
  intros h. unfold PyImport_ImportModule.
  destruct (sys_modules h !! name).
  - assert (no_throw (py_incref p ;; ret (Some p))) as H by no_throw. apply H.
  - assert (no_throw (PyErr_SetString ("ImportError: No module named " +:+ name) ;;
                      ret (@None PyRef))) as H by no_throw.
    apply H.
Qed.

#[local] Hint Resolve no_throw_py_dict_set no_throw_PyTuple_SetItem
  no_throw_PyImport_ImportModule : no_throw.

Lemma no_throw_PyModule_GetDict m : no_throw (PyModule_GetDict m).
Proof. unfold PyModule_GetDict. no_throw. Qed.

Lemma no_throw_PyDict_GetItemString d k : no_throw (PyDict_GetItemString d k).
Proof. unfold PyDict_GetItemString. no_throw. Qed.

Lemma no_throw_PyDict_SetItemString d k v :
  no_throw (PyDict_SetItemString d k v).
Proof. unfold PyDict_SetItemString. no_throw. Qed.

Lemma no_throw_PyTuple_New n : no_throw (PyTuple_New n).
Proof. unfold PyTuple_New. no_throw. Qed.

Lemma no_throw_PyTuple_GetItem t i : no_throw (PyTuple_GetItem t i).
Proof. unfold PyTuple_GetItem. no_throw. Qed.

Lemma no_throw_PyList_Size l : no_throw (PyList_Size l).
Proof. unfold PyList_Size. no_throw. Qed.

Lemma no_throw_PyUnicode_FromString s : no_throw (PyUnicode_FromString s).
Proof. unfold PyUnicode_FromString. no_throw. Qed.

Lemma no_throw_PyBool_Check p : no_throw (PyBool_Check p).
Proof. unfold PyBool_Check. no_throw. Qed.

Lemma no_throw_py_key p : no_throw (py_key p).
Proof. unfold py_key. no_throw. Qed.

#[local] Hint Resolve no_throw_PyModule_GetDict no_throw_PyDict_GetItemString
  no_throw_PyDict_SetItemString no_throw_PyTuple_New no_throw_PyTuple_GetItem
  no_throw_PyList_Size no_throw_PyUnicode_FromString no_throw_PyBool_Check
  no_throw_py_key : no_throw.

Lemma no_throw_PyDict_GetItem d k : no_throw (PyDict_GetItem d k).
Proof. unfold PyDict_GetItem. no_throw. Qed.

Lemma no_throw_PyDict_Contains d k : no_throw (PyDict_Contains d k).
Proof. unfold PyDict_Contains. no_throw. Qed.

Lemma no_throw_PyModule_AddObject_ m name o :
  no_throw (PyModule_AddObject_ m name o).
Proof. unfold PyModule_AddObject_. no_throw. Qed.

Lemma no_throw_getTraceback : no_throw getTraceback.
Proof. intros h. unfold getTraceback. by destruct (pending h). Qed.

#[local] Hint Resolve no_throw_PyDict_GetItem no_throw_PyDict_Contains
  no_throw_PyModule_AddObject_ no_throw_getTraceback : no_throw.

Lemma no_throw_py_name_or_none n : no_throw (py_name_or_none n).
Proof. unfold py_name_or_none. no_throw. Qed.

#[local] Hint Resolve no_throw_py_name_or_none : no_throw.

Lemma no_throw_call_getargspec E items : no_throw (call_getargspec E items).
Proof. unfold call_getargspec. no_throw. Qed.

Lemma no_throw_call_loads E items : no_throw (call_loads E items).
Proof. unfold call_loads. no_throw. Qed.

Lemma no_throw_call_entry E items : no_throw (call_entry E items).
Proof.
  intros st. unfold call_entry.
  destruct (py_call E items (py st, ram st)) as [[tb|r] [h m]]; done.
Qed.

Lemma no_throw_log e : no_throw (log e).
Proof. apply no_throw_modify. Qed.

#[local] Hint Resolve no_throw_call_getargspec no_throw_call_loads
  no_throw_call_entry no_throw_log : no_throw.

Lemma no_throw_PyObject_CallObject E f args :
  no_throw (PyObject_CallObject E f args).
Proof. unfold PyObject_CallObject. no_throw. Qed.

Lemma no_throw_Py_INCREF p : no_throw (Py_INCREF p).
Proof. unfold Py_INCREF. no_throw. Qed.

Lemma no_throw_Py_XDECREF p : no_throw (Py_XDECREF p).
Proof. unfold Py_XDECREF. no_throw. Qed.

Lemma no_throw_PyModule_AddObject m name o :
  no_throw (PyModule_AddObject m name o).
Proof. unfold PyModule_AddObject. no_throw. Qed.

#[local] Hint Resolve no_throw_PyObject_CallObject no_throw_Py_INCREF
  no_throw_Py_XDECREF no_throw_PyModule_AddObject : no_throw.

Lemma no_throw_argCount E f : no_throw (argCount E f).
Proof. unfold argCount. no_throw. Qed.

(** ** Which errors a member function can throw *)

Ltac never_throws_step :=
  first
    [ apply never_throws_no_throw; solve [no_throw]
    | apply never_throws_throw; discriminate
    | apply never_throws_bind; [|intros ?]
    | case_decide | case_match ].

Ltac never_throws := repeat never_throws_step.

Lemma execute_globals_never_arity : never_throws ArityError execute_globals.
Proof. unfold execute_globals. never_throws. Qed.

Lemma execute_call_never_arity E : never_throws ArityError (execute_call E).
Proof. unfold execute_call, throw_traceback. never_throws. Qed.

(** ** Insert, copy, extract *)

(** Running a member function on a concrete state, one call at a time. *)
Lemma bind_assoc3 {S A B C D} (m1 : M S A) (m2 : M S B) (m3 : M S C)
    (k : C → M S D) s :
  bind m1 (λ _, bind m2 (λ _, bind m3 k)) s
  = bind (bind m1 (λ _, bind m2 (λ _, m3))) k s.
Proof.
  unfold bind. destruct (m1 s) as [[a|e|f] s1]; [|done..].
  by destruct (m2 s1) as [[a2|e|f] s2].
Qed.

Lemma run_fst {S A} (m : M S A) s a : (m s).1 = Ret a → m s = (Ret a, (m s).2).
Proof. destruct (m s); simpl. by intros ->. Qed.

Ltac step_vm :=
  rewrite ?bind_assoc;
  match goal with
  | |- context [bind ?m ?k ?s] =>
      let v := eval vm_compute in (m s).1 in
      match v with
      | Ret ?a =>
          rewrite (bind_run m k s a (m s).2)
            by (apply run_fst; vm_compute; reflexivity);
          cbv beta
      end
  end.

Lemma py_dict_get_run h d k rc es :
  objs h !! d = Some (mk_object rc (PyDict es)) →
  py_dict_get (Some d) k h = (Ret (dict_get k es), h).
Proof.
  intros Hd. unfold py_dict_get, py_deref, bind, py_val. by rewrite Hd.
Qed.

Lemma call_copy_run key s ins outs a rc es :
  objs (py s) !! ins = Some (mk_object rc (PyDict es)) →
  dict_get (KStr key) es = Some a →
  call_entry (demo_env ["ins"; "outs"] (copy_body key)) [Some ins; Some outs] s
  = call_entry (demo_env ["ins"; "outs"] (store_body key a))
      [Some ins; Some outs] s.
Proof.
  intros Hins Hget. unfold call_entry; simpl. unfold guest; simpl.
  by rewrite (bind_run _ _ _ _ _ (py_dict_get_run _ _ _ _ _ Hins)), Hget.
Qed.

Lemma bind_swap {S A B} (m m' : M S A) (k : A → M S B) s :
  m s = m' s → bind m k s = bind m' k s.
Proof. unfold bind. by intros ->. Qed.

Lemma dict_get_head k v es : dict_get k ((k, v) :: es) = Some v.
Proof. simpl. by rewrite decide_True. Qed.

Lemma output_binding_intro st name out rc es x o :
  m_varsOut (self st) = Some out →
  objs (py st) !! out = Some (mk_object rc (PyDict es)) →
  dict_get (KStr (c_str name)) es = Some x →
  objs (py st) !! x = Some o →
  output_binding st name = Some (BoundTo (ob_val o)).
Proof.
  intros Hout Hobj Hget Hx. unfold output_binding.
  by rewrite Hout, Hobj, Hget, Hx.
Qed.

Lemma roundtrip_pointer (name : string) t count r b :
  let E := demo_env ["ins"; "outs"] (copy_body (c_str name)) in
  let st0 := with_ram r (demo_compiled E).2 in
  ((insertArgument name (mk_ptr b 0) t count ;;
    execute E ;;
    extractResult name t) st0).1 = Ret (mk_ptr b 0) ∧
  ram ((insertArgument name (mk_ptr b 0) t count ;;
        execute E ;;
        extractResult name t) st0).2 = r.
Proof.
  intros E st0. unfold st0, E. destruct t.
  all: step_vm; unfold execute; step_vm; step_vm; unfold execute_call;
    step_vm; step_vm;
    rewrite ?bind_assoc; unfold PyObject_CallObject at 1 2;
    step_vm; step_vm; cbv beta iota; step_vm;
    rewrite ?bind_assoc;
    match goal with
    | |- context [bind (call_entry ?E0 ?items) ?k ?s] =>
        rewrite (bind_swap (call_entry E0 items)
                   (call_entry
                      (demo_env ["ins"; "outs"]
                         (store_body (c_str name) 18%positive)) items) k s)
          by (apply (call_copy_run (c_str name) s 16%positive 17%positive
                       18%positive 2 [(KStr (c_str name), 18%positive)]);
              [vm_compute; reflexivity|apply dict_get_head])
    end;
    repeat step_vm.
  all: match goal with
       | |- (extractResult ?n ?t ?s).1 = _ ∧ _ =>
           rewrite (readonly_extractResult n t s);
           split; [|vm_compute; reflexivity];
           let d := eval vm_compute in
                      (default (mk_descr 0 "?")
                         (PyArray_DescrFromType (getPythonDataType t))) in
           let sz := eval vm_compute in (Dimension.size t) in
           let arr := constr:(mk_array d (mk_ptr b 0) [count] [sz]) in
           assert (output_binding s n = Some (BoundTo (PyNdarray arr))) as Hb
             by (apply (output_binding_intro s n 17%positive 2
                          [(KStr (c_str name), 18%positive)] 18%positive
                          (mk_object 3 (PyNdarray arr)));
                 [vm_compute; reflexivity|vm_compute; reflexivity
                 |apply dict_get_head|vm_compute; reflexivity]);
           rewrite (extractResult_bound s n t _ Hb)
       end.
  all: vm_compute; reflexivity.
Qed.

(** ** The cascade of deallocations always has fuel left *)

Lemma held_delete os r o :
  os !! r = Some o →
  held os = (length (children (ob_val o)) + held (delete r os))%nat.
Proof.
  intros Hr. unfold held.
  rewrite <- (map_to_list_delete os r o Hr). by rewrite fmap_cons.
Qed.

Lemma held_insert os r o o' :
  os !! r = Some o →
  children (ob_val o') = children (ob_val o) →
  held (<[r := o']> os) = held os.
Proof.
  intros Hr Hc. rewrite (held_delete os r o Hr).
  rewrite <- insert_delete_eq. unfold held.
  rewrite map_to_list_insert by apply lookup_delete_eq.
  rewrite fmap_cons; simpl. by rewrite Hc.
Qed.

Lemma release_more_fuel fuel n work os :
  (length work + held os < fuel)%nat →
  release (fuel + n) work os = release fuel work os.
Proof.
  revert work os. induction fuel as [|fuel IH]; intros work os Hlt; [lia|].
  simpl. destruct work as [|r rest]; [done|].
  destruct (os !! r) as [o|] eqn:Hr; [|done].
  case_decide.
  - apply IH. rewrite length_app. rewrite (held_delete os r o Hr) in Hlt.
    simpl in Hlt. lia.
  - apply IH. rewrite (held_insert os r o) by done. simpl in Hlt. lia.
Qed.

(** The result of [Py_DECREF] does not depend on the bound given to the
    cascade: any larger bound gives the same heap. *)
Lemma release_fuel_enough n work os :
  release (release_fuel work os + n) work os
  = release (release_fuel work os) work os.
Proof. apply release_more_fuel. unfold release_fuel. lia. Qed.

(** ** Heaps that only grow *)

Lemma grows_refl h : grows h h.
Proof. by repeat split. Qed.

Lemma grows_trans h1 h2 h3 : grows h1 h2 → grows h2 h3 → grows h1 h3.
Proof.
  intros (Hv1 & Hm1 & Hw1 & Hf1) (Hv2 & Hm2 & Hw2 & Hf2).
  repeat split; auto; [congruence|lia].
Qed.

Lemma heap_wf_fresh h : heap_wf h → objs h !! fresh h = None.
Proof.
  intros Hwf. destruct (objs h !! fresh h) eqn:Hf; [|done].
  apply Hwf in Hf. simpl in Hf. lia.
Qed.

Lemma value_of_live h r v : value_of h r = Some v → (heap_wf h → (r < fresh h)%positive).
Proof.
  unfold value_of. intros Hv Hwf. destruct (objs h !! r) eqn:Hr; [|done].
  by apply Hwf in Hr.
Qed.

Lemma py_new_grows v h :
  heap_wf h →
  ∃ h', py_new v h = (Ret (fresh h), h') ∧ grows h h' ∧ heap_wf h' ∧
        objs h' !! fresh h = Some (mk_object 1 v) ∧
        fresh h' = Pos.succ (fresh h).
Proof.
  intros Hwf. eexists. split; [reflexivity|]. simpl.
  assert (heap_wf
            (mk_heap (<[fresh h:=mk_object 1 v]> (objs h)) (Pos.succ (fresh h))
               (sys_modules h) (pending h) (empty_tuple h))) as Hwf'.
  { unfold heap_wf; simpl. apply map_Forall_insert_2; [lia|].
    intros r o Hr. apply Hwf in Hr. simpl in Hr. lia. }
  repeat split; simpl; auto; try lia.
  - intros r v' Hv. unfold value_of in *; simpl.
    rewrite lookup_insert_ne; [done|]. intros <-.
    by rewrite (heap_wf_fresh _ Hwf) in Hv.
  - apply lookup_insert_eq.
Qed.

Lemma py_incref_grows r v h :
  value_of h r = Some v →
  ∃ h', py_incref r h = (Ret tt, h') ∧ grows h h' ∧ fresh h' = fresh h.
Proof.
  unfold value_of, py_incref. intros Hv.
  destruct (objs h !! r) as [[rc v']|] eqn:Hr; [|done].
  eexists. split; [reflexivity|]. split; [|done].
  repeat split; simpl; auto; try lia.
  - intros r' v'' Hv'. unfold value_of in *; simpl.
    destruct (decide (r = r')) as [<-|Hne].
    + rewrite lookup_insert_eq. by rewrite Hr in Hv'.
    + by rewrite lookup_insert_ne.
  - intros Hwf. unfold heap_wf; simpl. apply map_Forall_insert_2; [|done].
    by apply Hwf in Hr.
Qed.

Lemma py_val_run h r v : value_of h r = Some v → py_val r h = (Ret v, h).
Proof.
  unfold value_of, py_val. destruct (objs h !! r) as [[rc v']|]; [|done].
  by intros [= ->].
Qed.

Lemma map_M_new_names names h :
  heap_wf h →
  ∃ rs h', map_M (λ n, py_new (PyStr n)) names h = (Ret rs, h') ∧
           grows h h' ∧ heap_wf h' ∧ length rs = length names.
Proof.
  revert h. induction names as [|n names IH]; intros h Hwf; simpl.
  - exists [], h. split_and!; auto. apply grows_refl.
  - destruct (py_new_grows (PyStr n) h Hwf) as (h1 & Hn & Hg1 & Hwf1 & _).
    rewrite (bind_run _ _ _ _ _ Hn).
    destruct (IH h1 Hwf1) as (rs & h2 & Hm & Hg2 & Hwf2 & Hlen).
    rewrite (bind_run _ _ _ _ _ Hm).
    exists (fresh h :: rs), h2. split_and!; auto.
    + by eapply grows_trans.
    + simpl. lia.
Qed.

Lemma py_name_or_none_run n h vn :
  heap_wf h →
  value_of h Py_None = Some vn →
  ∃ r h', py_name_or_none n h = (Ret r, h') ∧ grows h h' ∧ heap_wf h'.
Proof.
  intros Hwf Hnone. destruct n as [s|]; simpl.
  - destruct (py_new_grows (PyStr s) h Hwf) as (h1 & Hn & Hg & Hwf1 & _).
    by exists (fresh h), h1.
  - destruct (py_incref_grows _ _ _ Hnone) as (h1 & Hi & Hg & Hfr).
    exists Py_None, h1. rewrite (bind_run _ _ _ _ _ Hi).
    split_and!; [done|done|by apply Hg].
Qed.

(** [inspect.getargspec] on a function it accepts. *)
Lemma call_getargspec_run E f sig h :
  heap_wf h →
  value_of h f = Some (PyFunction sig) →
  is_Some (value_of h Py_None) →
  getargspec_raises E sig = false →
  ∃ t l names rest h',
    call_getargspec E [Some f] h = (Ret (Some t), h') ∧ grows h h' ∧
    heap_wf h' ∧
    value_of h' t = Some (PyTuple (Some l :: rest)) ∧
    value_of h' l = Some (PyList names) ∧
    length names = length (sig_args sig).
Proof.
  intros Hwf Hf [vn Hnone] Hacc. unfold call_getargspec.
  rewrite (bind_run _ _ _ _ _ (py_val_run _ _ _ Hf)). rewrite Hacc.
  destruct (map_M_new_names (sig_args sig) h Hwf)
    as (names & h1 & Hm & Hg1 & Hwf1 & Hlen).
  rewrite (bind_run _ _ _ _ _ Hm).
  destruct (py_new_grows (PyList names) h1 Hwf1)
    as (h2 & Hl & Hg2 & Hwf2 & Hlobj & Hfr2).
  rewrite (bind_run _ _ _ _ _ Hl).
  assert (grows h h2) as Hg02 by (by eapply grows_trans).
  assert (value_of h2 Py_None = Some vn) as Hn2 by (by apply Hg02).
  destruct (py_name_or_none_run (sig_varargs sig) h2 vn Hwf2 Hn2)
    as (va & h3 & Hi3 & Hg3 & Hwf3).
  rewrite (bind_run _ _ _ _ _ Hi3).
  assert (value_of h3 Py_None = Some vn) as Hn3 by (by apply Hg3).
  destruct (py_name_or_none_run (sig_varkw sig) h3 vn Hwf3 Hn3)
    as (vk & h4 & Hi4 & Hg4 & Hwf4).
  rewrite (bind_run _ _ _ _ _ Hi4).
  assert (value_of h4 Py_None = Some vn) as Hn4 by (by apply Hg4).
  destruct (py_incref_grows _ _ _ Hn4) as (h5 & Hi5 & Hg5 & Hfr5).
  rewrite (bind_run _ _ _ _ _ Hi5).
  assert (grows h2 h5) as Hg25
    by (eapply grows_trans; [|exact Hg5]; by eapply grows_trans).
  assert (heap_wf h5) as Hwf5 by (by apply Hg25).
  destruct (py_new_grows
              (PyTuple [Some (fresh h1); Some va; Some vk; Some Py_None])
              h5 Hwf5)
    as (h6 & Ht & Hg6 & Hwf6 & Htobj & Hfr6).
  rewrite (bind_run _ _ _ _ _ Ht).
  exists (fresh h5), (fresh h1), names, [Some va; Some vk; Some Py_None], h6.
  split_and!; auto.
  - eapply grows_trans; [exact Hg02|]. by eapply grows_trans.
  - unfold value_of. by rewrite Htobj.
  - apply Hg6, Hg25. unfold value_of. by rewrite Hlobj.
Qed.

Lemma introspectable_inv h :
  introspectable h = true →
  ∃ im nm d es g,
    sys_modules h !! "inspect" = Some im ∧
    value_of h im = Some (PyModule nm d) ∧
    value_of h d = Some (PyDict es) ∧
    dict_get (KStr "getargspec") es = Some g ∧
    value_of h g = Some (PyBuiltin "getargspec").
Proof.
  unfold introspectable. intros H.
  repeat case_match; try done. apply bool_decide_eq_true in H. subst.
  eauto 10.
Qed.

(** A new tuple of one item, and the item put in. *)
Lemma new_tuple_of_one f h :
  heap_wf h →
  ∃ h1 h',
    PyTuple_New 1 h = (Ret (Some (fresh h)), h1) ∧
    PyTuple_SetItem (Some (fresh h)) 0 (Some f) h1 = (Ret 0, h') ∧
    grows h h' ∧ heap_wf h' ∧
    value_of h' (fresh h) = Some (PyTuple [Some f]) ∧
    ∀ x, x ≠ fresh h → objs h' !! x = objs h !! x.
Proof.
  intros Hwf.
  destruct (py_new_grows (PyTuple (replicate (Z.to_nat 1) None)) h Hwf)
    as (h1 & Ht & Hg1 & Hwf1 & Htobj & Hfr1).
  assert (∀ x, x ≠ fresh h → objs h1 !! x = objs h !! x) as Hframe1.
  { intros x Hx. unfold py_new in Ht. injection Ht as <-. simpl.
    by rewrite lookup_insert_ne. }
  exists h1. eexists. split.
  { unfold PyTuple_New. do 2 rewrite decide_False by lia.
    by rewrite (bind_run _ _ _ _ _ Ht). }
  split.
  { unfold PyTuple_SetItem. rewrite Htobj.
    rewrite decide_True by done. rewrite decide_True by (simpl; lia).
    unfold bind, py_store, Py_XDECREF_, ret; simpl. rewrite Htobj. simpl.
    reflexivity. }
  assert (heap_wf
            (set_objs (insert (fresh h) (mk_object 1 (PyTuple [Some f]))) h1))
    as Hwf2.
  { unfold heap_wf, set_objs; simpl. apply map_Forall_insert_2; [|done].
    rewrite Hfr1. lia. }
  split_and!; auto.
  - destruct Hg1 as (Hv & Hm & _ & Hf1). split_and!; auto.
    intros r v Hr. unfold value_of, set_objs; simpl.
    rewrite lookup_insert_ne; [by apply Hv|].
    intros <-. unfold value_of in Hr. by rewrite (heap_wf_fresh _ Hwf) in Hr.
  - unfold value_of, set_objs; simpl. by rewrite lookup_insert_eq.
  - intros x Hx. unfold set_objs; simpl.
    rewrite lookup_insert_ne by done. by apply Hframe1.
Qed.




(** [argCount] on a function [getargspec] accepts, when [inspect] can be
    imported: the number of parameters [getargspec] lists. *)
Lemma argCount_run E st f sig :
  heap_wf (py st) →
  introspectable (py st) = true →
  is_Some (value_of (py st) Py_None) →
  value_of (py st) f = Some (PyFunction sig) →
  getargspec_raises E sig = false →
  ∃ h', argCount E (Some f) st
          = (Ret (Z.of_nat (length (sig_args sig))),
             mk_state (self st) h' (ram st) (trace st)) ∧
        grows (py st) h' ∧ heap_wf h'.
Proof.
  intros Hwf Hin [vn Hnone] Hf Hacc.
  destruct (introspectable_inv _ Hin)
    as (im & nm & d & es & g & Him & Hmod & Hd & Hg & Hb).
  unfold argCount.
  (* import *)
  destruct (py_incref_grows _ _ _ Hmod) as (h1 & Hi1 & Hg1 & Hfr1).
  erewrite bind_run; cycle 1.
  { apply liftPy_run. unfold PyImport_ImportModule. rewrite Him.
    rewrite (bind_run _ _ _ _ _ Hi1). reflexivity. }
  cbv beta iota.
  assert (heap_wf h1) as Hwf1 by (by apply Hg1).
  (* the dictionary of the module and the function in it *)
  erewrite bind_run; cycle 1.
  { apply liftPy_run. unfold PyModule_GetDict, py_deref; simpl.
    rewrite (bind_run _ _ _ _ _ (py_val_run _ _ _ (proj1 Hg1 _ _ Hmod))).
    reflexivity. }
  cbv beta.
  erewrite bind_run; cycle 1.
  { apply liftPy_run. unfold PyDict_GetItemString, py_dict_get, py_deref; simpl.
    rewrite (bind_run _ _ _ _ _ (py_val_run _ _ _ (proj1 Hg1 _ _ Hd))).
    rewrite Hg. reflexivity. }
  cbv beta.
  (* the argument tuple *)
  destruct (new_tuple_of_one f h1 Hwf1)
    as (h2 & h3 & Hnew & Hset & Hg3 & Hwf3 & Htup & _).
  erewrite bind_run by (apply liftPy_run; exact Hnew). cbv beta.
  erewrite bind_run by (apply liftPy_run; exact Hset). cbv beta.
  assert (grows (py st) h3) as Hg03 by (by eapply grows_trans).
  (* the call *)
  destruct (call_getargspec_run E f sig h3 Hwf3)
    as (t & l & names & rest & h4 & Hcall & Hg4 & Hwf4 & Ht & Hl & Hlen).
  { by apply Hg03. }
  { exists vn. by apply Hg03. }
  { done. }
  erewrite bind_run; cycle 1.
  { unfold PyObject_CallObject.
    erewrite bind_run by
      (apply liftPy_run, py_val_run; simpl; apply Hg03; exact Hb).
    cbv beta.
    erewrite bind_run by (apply liftPy_run, py_val_run; simpl; exact Htup).
    cbv beta iota. rewrite decide_True by done.
    apply liftPy_run. simpl. exact Hcall. }
  cbv beta.
  erewrite bind_run; cycle 1.
  { apply liftPy_run. unfold PyTuple_GetItem, py_deref; simpl.
    rewrite (bind_run _ _ _ _ _ (py_val_run _ _ _ Ht)).
    rewrite decide_True by (simpl; lia). reflexivity. }
  cbv beta. simpl lookup_total.
  exists h4. split_and!; auto.
  - erewrite liftPy_run; cycle 1.
    { unfold PyList_Size, py_deref; simpl.
      rewrite (bind_run _ _ _ _ _ (py_val_run _ _ _ Hl)). reflexivity. }
    simpl. by rewrite Hlen.
  - by eapply grows_trans.
Qed.

(** ** execute and the number of parameters *)

Lemma introspectable_grows h h' :
  grows h h' → introspectable h = true → introspectable h' = true.
Proof.
  intros (Hv & Hm & _) Hin.
  destruct (introspectable_inv _ Hin)
    as (im & nm & d & es & g & Him & Hmod & Hd & Hg & Hb).
  unfold introspectable. rewrite Hm, Him, (Hv _ _ Hmod), (Hv _ _ Hd), Hg.
  rewrite (Hv _ _ Hb). by apply bool_decide_eq_true.
Qed.

Lemma ready_inv st :
  ready st = true →
  ∃ bc vin v vn,
    m_bytecode (self st) = Some bc ∧
    m_varsIn (self st) = Some vin ∧ value_of (py st) vin = Some v ∧
    introspectable (py st) = true ∧
    value_of (py st) Py_None = Some vn ∧
    heap_wf (py st).
Proof.
  unfold ready. rewrite !andb_true_iff, !bool_decide_eq_true.
  intros ((((Hbc & Hvin) & Hin) & Hnone) & Hwf).
  destruct Hbc as [bc Hbc]. destruct (m_varsIn (self st)) as [vin|]; [|done].
  apply bool_decide_eq_true in Hvin as [v Hv]. destruct Hnone as [vn Hvn].
  eauto 10.
Qed.

(** The head of [execute], up to the allocation of the argument tuple. *)
Lemma execute_args_count E st sig :
  ready st = true →
  entry_signature st = Some sig →
  getargspec_raises E sig = false →
  ∃ vin st',
    m_varsIn (self st) = Some vin ∧
    trace st' = trace st ++ [EvIncref vin] ∧
    heap_wf (py st') ∧
    execute_args E st =
      (scriptArgs <- liftPy (PyTuple_New (Z.of_nat (length (sig_args sig)))) ;;
       assign (set_m_scriptArgs scriptArgs) ;;
       (if decide (Z.of_nat (length (sig_args sig)) > 2)
        then throw ArityError
               "Only two arguments -- ins and outs numpy arrays -- can be passed!"
        else ret tt) ;;
       liftPy (PyTuple_SetItem scriptArgs 0 (Some vin)) ;;
       if decide (Z.of_nat (length (sig_args sig)) > 1)
       then varsOut <- this m_varsOut ;;
            Py_INCREF varsOut ;;
            liftPy (PyTuple_SetItem scriptArgs 1 varsOut) ;;
            ret tt
       else ret tt) st'.
Proof.
  intros Hready Hparams Hacc.
  destruct (ready_inv _ Hready)
    as (bc & vin & v & vn & Hbc & Hvin & Hv & Hin & Hnone & Hwf).
  unfold entry_signature in Hparams.
  destruct (m_function (self st)) as [f|] eqn:Hf; [|done].
  destruct (value_of (py st) f) as [[]|] eqn:Hfv; try done.
  injection Hparams as ->.
  unfold execute_args.
  rewrite (bind_run _ _ _ _ _ (this_run m_bytecode st)), Hbc. cbv beta iota.
  rewrite (bind_run _ _ st tt st) by done.
  rewrite (bind_run _ _ _ _ _ (this_run m_varsIn st)), Hvin. cbv beta.
  destruct (py_incref_grows _ _ _ Hv) as (h1 & Hi1 & Hg1 & Hfr1).
  set (st1 := mk_state (self st) h1 (ram st) (trace st ++ [EvIncref vin])).
  rewrite (bind_run _ _ st tt st1); cycle 1.
  { unfold Py_INCREF. by rewrite (bind_run _ _ _ _ _ (liftPy_run _ _ _ _ Hi1)). }
  rewrite (bind_run _ _ _ _ _ (this_run m_function st1)). cbv beta.
  simpl self. rewrite Hf.
  destruct (argCount_run E st1 f sig) as (h2 & Hcount & Hg2 & Hwf2).
  { by apply Hg1. }
  { by eapply introspectable_grows. }
  { exists vn. by apply Hg1. }
  { by apply Hg1. }
  { done. }
  rewrite (bind_run _ _ _ _ _ Hcount). cbv beta.
  exists vin. eexists. split; [done|]. split; [|split; [|reflexivity]]; done.
Qed.

Lemma calls_app t1 t2 : calls (t1 ++ t2) = calls t1 ++ calls t2.
Proof. unfold calls. apply filter_app. Qed.

(** [execute] and the number of parameters [getargspec] lists: more than
    two, and it throws [ArityError] without calling the function; two or
    fewer, and whatever it does, it does not throw [ArityError]. *)
Lemma execute_arity E st sig :
  ready st = true →
  entry_signature st = Some sig →
  getargspec_raises E sig = false →
  ((2 < length (sig_args sig))%nat →
   thrown (execute E st).1 = Some ArityError ∧
   calls (trace (execute E st).2) = calls (trace st)) ∧
  ((length (sig_args sig) ≤ 2)%nat →
   thrown (execute E st).1 ≠ Some ArityError).
Proof.
  intros Hready Hparams Hacc.
  destruct (execute_args_count E st sig Hready Hparams Hacc)
    as (vin & st' & Hvin & Htrace & Hwf' & Hargs).
  split; intros Hn.
  - destruct (py_new_grows
                (PyTuple (replicate (Z.to_nat (Z.of_nat (length (sig_args sig))))
                            None))
                (py st') Hwf') as (h3 & Ht & _).
    assert (∃ st'', execute_args E st
            = (Throw (mk_error ArityError
                 "Only two arguments -- ins and outs numpy arrays -- can be passed!"),
               st'') ∧ trace st'' = trace st') as (st'' & Hthrow & Htrace'').
    { rewrite Hargs.
      erewrite bind_run; cycle 1.
      { apply liftPy_run. unfold PyTuple_New. do 2 rewrite decide_False by lia.
        rewrite (bind_run _ _ _ _ _ Ht). reflexivity. }
      cbv beta. unfold bind at 1, assign at 1, modify at 1. cbv beta iota.
      unfold bind at 1. rewrite decide_True by lia.
      eexists. split; [reflexivity|done]. }
    unfold execute. rewrite (bind_throw _ _ _ _ _ Hthrow); simpl.
    split; [done|]. rewrite Htrace'', Htrace, calls_app. simpl.
    apply app_nil_r.
  - unfold execute, bind at 1. rewrite Hargs.
    match goal with
    | |- thrown (match ?m st' with _ => _ end).1 ≠ _ =>
        change (thrown
                  (bind m (λ _, execute_globals ;; execute_call E) st').1
                ≠ Some ArityError)
    end.
    rewrite decide_False by lia.
    apply never_throws_bind.
    + never_throws.
    + intros _. apply never_throws_bind; [apply execute_globals_never_arity|].
      intros _. apply execute_call_never_arity.
Qed.

(** [argCount] on a function [getargspec] raises for: the NULL it returns
    is handed to [PyTuple_GetItem] (line 67), which follows it. *)
Lemma argCount_raises E st f sig :
  heap_wf (py st) →
  introspectable (py st) = true →
  value_of (py st) f = Some (PyFunction sig) →
  getargspec_raises E sig = true →
  ∃ h', argCount E (Some f) st
        = (Crash NullDereference,
           mk_state (self st) h' (ram st) (trace st)).
Proof.
  intros Hwf Hin Hf Hraise.
  destruct (introspectable_inv _ Hin)
    as (im & nm & d & es & g & Him & Hmod & Hd & Hg & Hb).
  unfold argCount.
  destruct (py_incref_grows _ _ _ Hmod) as (h1 & Hi1 & Hg1 & Hfr1).
  erewrite bind_run; cycle 1.
  { apply liftPy_run. unfold PyImport_ImportModule. rewrite Him.
    rewrite (bind_run _ _ _ _ _ Hi1). reflexivity. }
  cbv beta iota.
  assert (heap_wf h1) as Hwf1 by (by apply Hg1).
  erewrite bind_run; cycle 1.
  { apply liftPy_run. unfold PyModule_GetDict, py_deref; simpl.
    rewrite (bind_run _ _ _ _ _ (py_val_run _ _ _ (proj1 Hg1 _ _ Hmod))).
    reflexivity. }
  cbv beta.
  erewrite bind_run; cycle 1.
  { apply liftPy_run. unfold PyDict_GetItemString, py_dict_get, py_deref; simpl.
    rewrite (bind_run _ _ _ _ _ (py_val_run _ _ _ (proj1 Hg1 _ _ Hd))).
    rewrite Hg. reflexivity. }
  cbv beta.
  destruct (new_tuple_of_one f h1 Hwf1)
    as (h2 & h3 & Hnew & Hset & Hg3 & Hwf3 & Htup & _).
  erewrite bind_run by (apply liftPy_run; exact Hnew). cbv beta.
  erewrite bind_run by (apply liftPy_run; exact Hset). cbv beta.
  assert (grows (py st) h3) as Hg03 by (by eapply grows_trans).
  erewrite bind_run; cycle 1.
  { unfold PyObject_CallObject.
    erewrite bind_run by
      (apply liftPy_run, py_val_run; simpl; apply Hg03; exact Hb).
    cbv beta.
    erewrite bind_run by (apply liftPy_run, py_val_run; simpl; exact Htup).
    cbv beta iota. rewrite decide_True by done.
    apply liftPy_run. simpl. unfold call_getargspec.
    rewrite (bind_run _ _ _ _ _ (py_val_run _ _ _ (proj1 Hg03 _ _ Hf))).
    rewrite Hraise. reflexivity. }
  cbv beta. eexists. reflexivity.
Qed.

(** [execute] on an entry function [getargspec] raises for: the process
    follows NULL before anything is called. *)
Lemma execute_getargspec_raises E st sig :
  ready st = true →
  entry_signature st = Some sig →
  getargspec_raises E sig = true →
  (execute E st).1 = Crash NullDereference ∧
  calls (trace (execute E st).2) = calls (trace st).
Proof.
  intros Hready Hparams Hraise.
  destruct (ready_inv _ Hready)
    as (bc & vin & v & vn & Hbc & Hvin & Hv & Hin & Hnone & Hwf).
  unfold entry_signature in Hparams.
  destruct (m_function (self st)) as [f|] eqn:Hf; [|done].
  destruct (value_of (py st) f) as [[]|] eqn:Hfv; try done.
  injection Hparams as ->.
  destruct (py_incref_grows _ _ _ Hv) as (h1 & Hi1 & Hg1 & Hfr1).
  set (st1 := mk_state (self st) h1 (ram st) (trace st ++ [EvIncref vin])).
  destruct (argCount_raises E st1 f sig) as (h2 & Hcount).
  { by apply Hg1. }
  { by eapply introspectable_grows. }
  { by apply Hg1. }
  { done. }
  assert (execute_args E st
          = (Crash NullDereference,
             mk_state (self st1) h2 (ram st1) (trace st1))) as Hargs.
  { unfold execute_args.
    rewrite (bind_run _ _ _ _ _ (this_run m_bytecode st)), Hbc. cbv beta iota.
    rewrite (bind_run _ _ st tt st) by done.
    rewrite (bind_run _ _ _ _ _ (this_run m_varsIn st)), Hvin. cbv beta.
    rewrite (bind_run _ _ st tt st1); cycle 1.
    { unfold Py_INCREF.
      by rewrite (bind_run _ _ _ _ _ (liftPy_run _ _ _ _ Hi1)). }
    rewrite (bind_run _ _ _ _ _ (this_run m_function st1)). cbv beta.
    simpl self. rewrite Hf.
    by rewrite (bind_crash _ _ _ _ _ Hcount). }
  unfold execute. rewrite (bind_crash _ _ _ _ _ Hargs). simpl.
  split; [done|]. rewrite calls_app. simpl. apply app_nil_r.
Qed.

(** ** Compiled against a version below 3, an entry whose key cannot be
    decoded makes no difference to end *)

Lemma dict_get_app k es1 es2 :
  dict_get k (es1 ++ es2)
  = match dict_get k es1 with Some v => Some v | None => dict_get k es2 end.
Proof.
  induction es1 as [|[k' v] es1 IH]; simpl; [done|]. by case_decide.
Qed.

Lemma dict_get_skip s es1 k a es2 :
  key_bytes k = None →
  dict_get (KStr s) (es1 ++ (k, a) :: es2) = dict_get (KStr s) (es1 ++ es2).
Proof.
  intros Hk. rewrite !dict_get_app. simpl.
  destruct k; [done| |]; by rewrite decide_False.
Qed.

Lemma extractResult_same out a b name t :
  same_but_outputs out a b →
  (extractResult name t a).1 = (extractResult name t b).1.
Proof.
  intros (Hself & Hram & Hout & Hother & rca & esa & rcb & esb & Ha & Hb & Hes).
  assert (m_varsOut (self b) = Some out) as Hout' by (by rewrite <- Hself).
  destruct (dict_get (KStr (c_str name)) esa) as [x|] eqn:Hget.
  - assert (dict_get (KStr (c_str name)) esb = Some x) as Hget'
      by (by rewrite <- Hes).
    destruct (decide (x = out)) as [->|Hne].
    + rewrite (extractResult_bound a name t (PyDict esa)),
        (extractResult_bound b name t (PyDict esb)); [done| |].
      * unfold output_binding. by rewrite Hout', Hb, Hget', Hb.
      * unfold output_binding. by rewrite Hout, Ha, Hget, Ha.
    + specialize (Hother x Hne).
      destruct (objs (py a) !! x) as [[rcx vx]|] eqn:Hx.
      * rewrite (extractResult_bound a name t vx),
          (extractResult_bound b name t vx); [done| |].
        -- unfold output_binding. by rewrite Hout', Hb, Hget', <- Hother.
        -- unfold output_binding. by rewrite Hout, Ha, Hget, Hx.
      * destruct a as [ia ha ra ta], b as [ib hb rb tb]; simpl in *.
        unfold extractResult, bind, this, gets, liftPy, PyDict_GetItemString,
          PyArray_Check, py_dict_get, bind, py_deref, py_val; simpl.
        rewrite Hout, Hout'; simpl. rewrite Ha, Hb; simpl.
        rewrite Hget, Hget'; simpl. by rewrite Hx, <- Hother.
  - assert (dict_get (KStr (c_str name)) esb = None) as Hget'
      by (by rewrite <- Hes).
    by rewrite (extractResult_lookup a name t _ _ _ Hout Ha Hget),
      (extractResult_lookup b name t _ _ _ Hout' Hb Hget').
Qed.

Section Respects.

Variable R : State → State → Prop.

Lemma respects_ret {A} (x : A) : respects R (ret x).
Proof. intros a b v HR. by exists (Ret x), a, b, v. Qed.

Lemma respects_bind {A B} (m : M _ A) (k : A → M _ B) :
  respects R m → (∀ x, respects R (k x)) → respects R (bind m k).
Proof.
  intros Hm Hk a b v HR. destruct (Hm a b v HR) as (o & a1 & b1 & v1 & Ha & Hb & HR1).
  unfold bind. rewrite Ha, Hb.
  destruct o as [x|e|f];
    [by apply Hk|by exists (Throw e), a1, b1, v1|by exists (Crash f), a1, b1, v1].
Qed.

Lemma respects_for_each {A} (xs : list A) (body : A → M _ unit) :
  (∀ x, respects R (body x)) → respects R (for_each xs body).
Proof.
  intros Hbody. induction xs as [|x xs IH]; simpl; [apply respects_ret|].
  apply respects_bind; auto.
Qed.

Lemma respects_onView f : respects R (onView f).
Proof. intros a b v HR. by exists (Ret tt), a, b, (f v). Qed.

Lemma respects_view : respects R (gets snd).
Proof. intros a b v HR. by exists (Ret v), a, b, v. Qed.

Lemma respects_onState {A} (m : M State A) :
  (∀ a b, R a b → (m a).1 = (m b).1 ∧ R (m a).2 (m b).2) →
  respects R (onState m).
Proof.
  intros Hm a b v HR. unfold onState; simpl.
  destruct (Hm a b HR) as [Ho HR'].
  destruct (m a) as [oa sa], (m b) as [ob sb]; simpl in *; subst.
  by exists ob, sa, sb, v.
Qed.

Lemma respects_readonly {A} (m : M State A) :
  readonly m → (∀ a b, R a b → (m a).1 = (m b).1) → respects R (onState m).
Proof.
  intros Hro Hm. apply respects_onState. intros a b HR.
  rewrite (Hro a), (Hro b). auto.
Qed.

End Respects.

Lemma end_dim_same out names n dd :
  respects (same_but_outputs out) (end_dim names n dd).
Proof.
  unfold end_dim. case_decide; [|apply respects_ret].
  apply respects_bind.
  { apply respects_readonly; [apply readonly_extractResult|].
    intros a b. apply extractResult_same. }
  intros p. apply respects_for_each. intros idx.
  apply respects_bind; [|intros val; apply respects_onView].
  apply respects_readonly; [apply readonly_liftMem, readonly_mem_read|].
  intros a b (_ & Hram & _). unfold liftMem. rewrite Hram.
  by destruct (mem_read _ _ (ram b)).
Qed.

Lemma free_same out bi :
  respects (same_but_outputs out) (onState (liftMem (free bi))).
Proof.
  apply respects_onState.
  intros a b (Hself & Hram & Hout & Hother & Hdict).
  unfold liftMem. rewrite Hram.
  destruct (free bi (ram b)) as [o r]; simpl. split; [done|].
  by split_and!.
Qed.

Lemma clear_buffers_same out :
  respects (same_but_outputs out) (onState (assign (set_m_buffers []))).
Proof.
  apply respects_onState.
  intros a b (Hself & Hram & Hout & Hother & Hdict).
  unfold assign, modify; simpl. split; [done|].
  split_and!; simpl; try done. by rewrite Hself.
Qed.

Lemma metadata_same out m r :
  respects (same_but_outputs out)
    (v <- onState (liftPy (py_val r)) ;; ret (addMetadata v m)).
Proof.
  intros a b v HR.
  pose proof HR as (Hself & Hram & Hout & Hother & rca & esa & rcb & esb & Ha & Hb & Hes).
  destruct a as [ia ha ra ta], b as [ib hb rb tb]; simpl in *.
  unfold bind, onState, liftPy, py_val, ret; simpl.
  destruct (decide (r = out)) as [->|Hne].
  - rewrite Ha, Hb; simpl. by eexists (Ret m), _, _, v.
  - rewrite <- (Hother r Hne).
    destruct (objs ha !! r) as [[rcr vr]|]; simpl.
    + by eexists (Ret (addMetadata vr m)), _, _, v.
    + by eexists _, _, _, v.
Qed.

Lemma with_outputs_same st out rc es1 k x es2 :
  m_varsOut (self st) = Some out →
  objs (py st) !! out = Some (mk_object rc (PyDict (es1 ++ (k, x) :: es2))) →
  key_bytes k = None →
  same_but_outputs out st (with_outputs out rc (es1 ++ es2) st).
Proof.
  intros Hout Hobj Hk. unfold same_but_outputs, with_outputs; simpl.
  split_and!; try done.
  - intros r Hr. by rewrite lookup_insert_ne.
  - exists rc, (es1 ++ (k, x) :: es2), rc, (es1 ++ es2).
    rewrite lookup_insert_eq. split_and!; [done|done|].
    intros s. by apply dict_get_skip.
Qed.

Lemma same_but_outputs_pending out a a' b b' :
  same_but_outputs out a b →
  same_but_pending a a' → same_but_pending b b' →
  same_but_outputs out a' b'.
Proof.
  intros (Hself & Hram & Hout & Hother & Hdict)
    (Hsa & Hra & _ & Hoa & _) (Hsb & Hrb & _ & Hob & _).
  unfold same_but_outputs. rewrite Hsa, Hsb, Hra, Hrb, Hoa, Hob.
  by split_and!.
Qed.

(** An entry of [outputs] whose key cannot be decoded makes no difference to
    what [end] returns or to the view it leaves. *)
Lemma end_ignores_undecodable E m st v out rc es1 k x es2 :
  ¬ 3 ≤ PY_MAJOR_VERSION E →
  m_varsOut (self st) = Some out →
  objs (py st) !! out = Some (mk_object rc (PyDict (es1 ++ (k, x) :: es2))) →
  key_bytes k = None →
  (end_ E m (st, v)).1
    = (end_ E m (with_outputs out rc (es1 ++ es2) st, v)).1 ∧
  (end_ E m (st, v)).2.2
    = (end_ E m (with_outputs out rc (es1 ++ es2) st, v)).2.2.
Proof.
  intros Hv Hout Hobj Hk.
  pose proof (with_outputs_same _ _ _ _ _ _ _ Hout Hobj Hk) as HR.
  destruct (getOutputNames_dict E _ _ _ _ Hv Hout Hobj) as (st1 & Hgo & Hp1).
  destruct (getOutputNames_dict E (with_outputs out rc (es1 ++ es2) st) out rc
              (es1 ++ es2)) as (st2 & Hgo' & Hp2).
  { done. }
  { done. }
  { unfold with_outputs; simpl. by rewrite lookup_insert_eq. }
  rewrite (decoded_names_skip _ _ _ _ Hk) in Hgo.
  pose proof (same_but_outputs_pending _ _ _ _ _ HR Hp1 Hp2) as HR'.
  unfold end_.
  rewrite (bind_run _ _ (st, v) (decoded_names (es1 ++ es2)) (st1, v))
    by (unfold onState; simpl; by rewrite Hgo).
  rewrite (bind_run _ _ (with_outputs out rc (es1 ++ es2) st, v)
             (decoded_names (es1 ++ es2)) (st2, v))
    by (unfold onState; simpl; by rewrite Hgo').
  cbv beta.
  match goal with
  | |- (?rest _).1 = _ ∧ _ =>
      assert (respects (same_but_outputs out) rest) as Hrest
  end.
  { apply respects_bind; [apply respects_view|intros view].
    apply respects_bind;
      [apply respects_for_each; intros dd; apply end_dim_same|intros _].
    apply respects_bind.
    { apply respects_readonly; [apply readonly_gets|].
      intros a b (Hself & _). unfold this, gets; simpl. by rewrite Hself. }
    intros buffers.
    apply respects_bind;
      [apply respects_for_each; intros bi; apply free_same|intros _].
    apply respects_bind; [apply clear_buffers_same|intros _].
    apply respects_bind.
    { apply respects_readonly; [apply readonly_gets|].
      intros a b (Hself & _). unfold this, gets; simpl. by rewrite Hself. }
    intros [r|]; [apply metadata_same|apply respects_ret]. }
  destruct (Hrest st1 st2 v HR') as (o & a' & b' & v' & -> & -> & _).
  done.
Qed.

(** Compiled against a major version below 3, a key of [outputs] that cannot
    be decoded to a host string is left out of the list [getOutputNames]
    returns, and [getOutputNames] returns normally: the list is the one it
    would return were the entry not in the dictionary.  An attribute whose
    name is not among the names of the keys that can be decoded is skipped
    by [end], which leaves its stored values as they were; and [end] returns
    what it would return, and leaves the view it would leave, were the entry
    not in the dictionary. *)
Lemma legacy_build_skips_undecodable_key E m st v dd out rc es1 k a es2 :
  ¬ 3 ≤ PY_MAJOR_VERSION E →
  m_varsOut (self st) = Some out →
  objs (py st) !! out = Some (mk_object rc (PyDict (es1 ++ (k, a) :: es2))) →
  key_bytes k = None →
  NoDup (Dimension.id <$> dims v) →
  dd ∈ dims v →
  Dimension.name dd ∉ decoded_names (es1 ++ es2) →
  (getOutputNames E st).1 = Ret (decoded_names (es1 ++ es2)) ∧
  (∀ idx, field (end_ E m (st, v)).2.2 (Dimension.id dd) idx
          = field v (Dimension.id dd) idx) ∧
  (end_ E m (st, v)).1
    = (end_ E m (with_outputs out rc (es1 ++ es2) st, v)).1 ∧
  (end_ E m (st, v)).2.2
    = (end_ E m (with_outputs out rc (es1 ++ es2) st, v)).2.2.
Proof.
  intros Hv Hout Hobj Hk Hnd Hdd Hnot. split_and!.
  - destruct (getOutputNames_dict E _ _ _ _ Hv Hout Hobj) as (st1 & -> & _).
    simpl. by rewrite decoded_names_skip.
  - eapply end_frame_skipped; eauto. by rewrite decoded_names_skip.
  - by eapply end_ignores_undecodable.
  - by eapply end_ignores_undecodable.
Qed.

(** The script bound the integer 7 to the array of Y and the string X to the
    array of X: compiled against version 2, [getOutputNames] returns the one
    name X, and [end] leaves the attribute Y as it was. *)
Example legacy_build_skips_the_integer_key :
  (getOutputNames (built_for 2 demo_intkey_env) demo_intkey).1 = Ret ["X"] ∧
  ∀ idx, field (end_ (built_for 2 demo_intkey_env) "meta"
                  (demo_intkey, demo_view)).2.2 (Dimension.id demo_Y) idx
         = field demo_view (Dimension.id demo_Y) idx.
Proof.
  assert (¬ 3 ≤ PY_MAJOR_VERSION (built_for 2 demo_intkey_env)) as Hv
    by (vm_compute; intros H; by apply H).
  assert (m_varsOut (self demo_intkey) = Some 17%positive) as Hout
    by (vm_compute; reflexivity).
  assert (objs (py demo_intkey) !! 17%positive
          = Some (mk_object 2
                    (PyDict ([] ++ (KObj 7, 19%positive)
                                :: [(KStr "X", 18%positive)])))) as Hobj
    by (vm_compute; reflexivity).
  assert (NoDup (Dimension.id <$> dims demo_view)) as Hnd by by_evaluation.
  assert (demo_Y ∈ dims demo_view) as Hdd by by_evaluation.
  assert (Dimension.name demo_Y
          ∉ decoded_names ([] ++ [(KStr "X", 18%positive)])) as Hnot
    by by_evaluation.
  pose proof (legacy_build_skips_undecodable_key _ "meta" _ _ _ _ _ _ _ _ _
                Hv Hout Hobj eq_refl Hnd Hdd Hnot) as (Hnames & Hframe & _).
  split; [exact Hnames|exact Hframe].
Qed.
(** ** The kinds of error a member function throws *)

Section ThrowsOnly.

Context {S : Type} (ks : list ErrorKind).

Lemma throws_only_no_throw {A} (m : M S A) : no_throw m → throws_only ks m.
Proof. intros Hm s k. by rewrite Hm. Qed.

Lemma throws_only_throw {A} k msg : k ∈ ks → throws_only ks (@throw S A k msg).
Proof. intros Hk s k' [= <-]. done. Qed.

Lemma throws_only_bind {A B} (m : M S A) (f : A → M S B) :
  throws_only ks m → (∀ a, throws_only ks (f a)) → throws_only ks (bind m f).
Proof.
  intros Hm Hf s. unfold bind. specialize (Hm s).
  destruct (m s) as [[a|e|fl] s1]; simpl in *; try done. apply Hf.
Qed.

Lemma throws_only_for_each {A} (xs : list A) (body : A → M S unit) :
  (∀ x, throws_only ks (body x)) → throws_only ks (for_each xs body).
Proof.
  intros Hb. induction xs; simpl; [by apply throws_only_no_throw|].
  apply throws_only_bind; auto.
Qed.

Lemma throws_only_fold_M {A B} (f : B → A → M S B) (xs : list A) b :
  (∀ b x, throws_only ks (f b x)) → throws_only ks (fold_M f xs b).
Proof.
  intros Hf. revert b. induction xs; intros b; simpl;
    [by apply throws_only_no_throw|].
  apply throws_only_bind; auto.
Qed.

End ThrowsOnly.

Lemma throws_only_weaken {S A} ks ks' (m : M S A) :
  ks ⊆ ks' → throws_only ks m → throws_only ks' m.
Proof. intros Hsub Hm s k Hk. apply Hsub. by eapply Hm. Qed.

Lemma throws_only_onState {A} ks (m : M State A) :
  throws_only ks m → throws_only ks (onState m).
Proof.
  intros Hm [st v] k. unfold onState; simpl. specialize (Hm st k).
  by destruct (m st).
Qed.

Lemma no_throw_liftMem {A} (m : M Memory A) : no_throw m → no_throw (liftMem m).
Proof.
  intros Hm st. unfold liftMem. specialize (Hm (ram st)).
  by destruct (m (ram st)) as [o h].
Qed.

Lemma no_throw_malloc n : no_throw (malloc n).
Proof. by intros m. Qed.

Lemma no_throw_free p : no_throw (free p).
Proof. intros m. unfold free. repeat case_match; done. Qed.

Lemma no_throw_mem_read p n : no_throw (mem_read p n).
Proof. intros m. unfold mem_read. repeat case_match; done. Qed.

Lemma no_throw_mem_write p d : no_throw (mem_write p d).
Proof. intros m. unfold mem_write. repeat case_match; done. Qed.

Lemma no_throw_PyArray_New ds t ss p : no_throw (PyArray_New ds t ss p).
Proof. unfold PyArray_New. no_throw. Qed.

Lemma no_throw_PyArray_Check p : no_throw (PyArray_Check p).
Proof. unfold PyArray_Check. no_throw. Qed.

Lemma no_throw_PyArray_GetPtr a ind : no_throw (PyArray_GetPtr a ind).
Proof. unfold PyArray_GetPtr. no_throw. Qed.

Lemma no_throw_PyCallable_Check p : no_throw (PyCallable_Check p).
Proof. unfold PyCallable_Check. no_throw. Qed.

Lemma no_throw_Py_CompileString E s : no_throw (Py_CompileString E s).
Proof. unfold Py_CompileString. no_throw. Qed.

Lemma no_throw_PyImport_ExecCodeModule E n c :
  no_throw (PyImport_ExecCodeModule E n c).
Proof.
  unfold PyImport_ExecCodeModule.
  apply no_throw_bind; [no_throw|]. intros cv.
  destruct cv; try solve [no_throw].
  apply no_throw_bind.
  { intros h. destruct (sys_modules h !! n); [done|].
    revert h. change (no_throw
      (d <- py_new (PyDict []) ;;
       m <- py_new (PyModule n d) ;;
       modify (λ h, mk_heap (objs h) (fresh h) (<[n := m]> (sys_modules h))
                      (pending h) (empty_tuple h)) ;;
       ret m)). no_throw. }
  intros m. no_throw.
Qed.

Lemma no_throw_fromMetadata m : no_throw (fromMetadata m).
Proof. unfold fromMetadata. no_throw. Qed.

Lemma no_throw_PyString_AsString k : no_throw (PyString_AsString k).
Proof. unfold PyString_AsString. no_throw. Qed.

Lemma no_throw_PyUnicode_AsUTF8String k : no_throw (PyUnicode_AsUTF8String k).
Proof. unfold PyUnicode_AsUTF8String. no_throw. Qed.

Lemma no_throw_PyBytes_AsString o : no_throw (PyBytes_AsString o).
Proof. unfold PyBytes_AsString. no_throw. Qed.

#[local] Hint Resolve no_throw_malloc no_throw_free no_throw_mem_read
  no_throw_mem_write no_throw_PyArray_New no_throw_PyArray_Check
  no_throw_PyArray_GetPtr no_throw_PyCallable_Check no_throw_Py_CompileString
  no_throw_PyImport_ExecCodeModule no_throw_fromMetadata
  no_throw_PyString_AsString no_throw_PyUnicode_AsUTF8String
  no_throw_PyBytes_AsString : no_throw.

Ltac no_throw_more :=
  repeat first [ no_throw_step | apply no_throw_liftMem ].

Lemma no_throw_cleanup : no_throw cleanup.
Proof. unfold cleanup, assign. no_throw_more. Qed.

Lemma no_throw_resetArguments : no_throw resetArguments.
Proof.
  unfold resetArguments, assign, PyDict_New.
  apply no_throw_bind; [apply no_throw_cleanup|]. intros _. no_throw_more.
Qed.

Lemma no_throw_insertArgument name p t n : no_throw (insertArgument name p t n).
Proof. unfold insertArgument, assign, this. no_throw_more. Qed.

Lemma no_throw_hasOutputVariable name : no_throw (hasOutputVariable name).
Proof. unfold hasOutputVariable, this. no_throw_more. Qed.

Lemma no_throw_decode_key E k : no_throw (decode_key E k).
Proof. unfold decode_key. no_throw_more. Qed.

Lemma no_throw_fold_M {S A B} (f : B → A → M S B) (xs : list A) b :
  (∀ b x, no_throw (f b x)) → no_throw (fold_M f xs b).
Proof.
  intros Hf. revert b. induction xs; intros b; simpl; [apply no_throw_ret|].
  apply no_throw_bind; auto.
Qed.

Lemma no_throw_getOutputNames E : no_throw (getOutputNames E).
Proof.
  unfold getOutputNames, this.
  apply no_throw_bind; [no_throw|]. intros out.
  apply no_throw_bind; [no_throw|]. intros v.
  apply no_throw_fold_M. intros names kv.
  apply no_throw_bind; [apply no_throw_decode_key|]. intros p. no_throw.
Qed.

Ltac throws_only_step :=
  first
    [ apply throws_only_bind; [|intros ?]
    | apply throws_only_throw; solve [repeat constructor]
    | apply throws_only_for_each; intros ?
    | apply throws_only_onState
    | case_decide | case_match
    | apply throws_only_no_throw; solve [no_throw_more] ].

Ltac throws_only := repeat throws_only_step.

Lemma throws_only_extractResult name t :
  throws_only [MissingOutputError; NotAnArrayError; SizeMismatchError;
               KindMismatchError] (extractResult name t).
Proof. unfold extractResult, this. throws_only. Qed.

Lemma throws_only_getPyJSON E s :
  throws_only [JsonDecodeError] (getPyJSON E s).
Proof. unfold getPyJSON, throw_traceback. throws_only. Qed.

Lemma throws_only_execute E :
  throws_only [NotCompiledError; ArityError; BindingError; ExecutionError;
               NonBooleanResult] (execute E).
Proof.
  unfold execute. apply throws_only_bind; [|intros _; apply throws_only_bind].
  - unfold execute_args, this, assign.
    apply throws_only_bind; [throws_only|]. intros bc.
    apply throws_only_bind; [throws_only|]. intros _.
    apply throws_only_bind; [throws_only|]. intros vin.
    apply throws_only_bind; [throws_only|]. intros _.
    apply throws_only_bind; [throws_only|]. intros f.
    apply throws_only_bind;
      [apply throws_only_no_throw, no_throw_argCount|]. intros n.
    throws_only.
  - unfold execute_globals, this. throws_only.
  - intros _. unfold execute_call, throw_traceback, this, assign. throws_only.
Qed.

Lemma throws_only_compile E :
  throws_only [CompileError; MissingEntryFunction; NotCallable] (compile E).
Proof. unfold compile, throw_traceback, this, assign. throws_only. Qed.

Lemma throws_only_begin E v m :
  throws_only [JsonDecodeError] (begin E v m).
Proof.
  unfold begin, this, assign.
  apply throws_only_bind.
  { apply throws_only_for_each. intros dd. apply throws_only_no_throw.
    unfold begin_dim, this, assign.
    repeat first [ apply no_throw_insertArgument | no_throw_step
                 | apply no_throw_liftMem ]. }
  intros _.
  repeat first [ apply throws_only_getPyJSON | throws_only_step ].
Qed.

Lemma throws_only_end E m :
  throws_only [MissingOutputError; NotAnArrayError; SizeMismatchError;
               KindMismatchError] (end_ E m).
Proof.
  unfold end_, this, assign.
  apply throws_only_bind.
  { apply throws_only_onState, throws_only_no_throw, no_throw_getOutputNames. }
  intros names. apply throws_only_bind; [throws_only|]. intros view.
  apply throws_only_bind.
  { apply throws_only_for_each. intros dd. unfold end_dim.
    case_decide; [|throws_only].
    apply throws_only_bind;
      [apply throws_only_onState, throws_only_extractResult|].
    intros p. unfold onView. throws_only. }
  intros _. unfold onView. throws_only.
Qed.

Lemma throws_only_setKWargs E s :
  throws_only [JsonDecodeError] (setKWargs E s).
Proof.
  unfold setKWargs, this, assign.
  repeat first [ apply throws_only_getPyJSON | throws_only_step ].
Qed.

(** ** cleanup and resetArguments *)

Lemma Py_XDECREF_self p st o st' :
  Py_XDECREF p st = (o, st') → self st' = self st.
Proof.
  intros Hrun.
  by apply (preserves_Py_XDECREF (λ s, self s = self st) p
              ltac:(by intros [] ? ?) ltac:(by intros [] ?) _ _ _ Hrun).
Qed.

Lemma cleanup_clears_wrappers st st' :
  cleanup st = (Ret tt, st') → m_pyInputArrays (self st') = [].
Proof.
  unfold cleanup. intros Hrun.
  do 10 (apply bind_ret_inv in Hrun as (? & ? & _ & Hrun)).
  apply bind_ret_inv in Hrun as ([] & st2 & Hassign & Hrun).
  apply bind_ret_inv in Hrun as (bc & st3 & Hthis & Hrun).
  unfold this, gets in Hthis. injection Hthis as _ <-.
  apply Py_XDECREF_self in Hrun. rewrite Hrun.
  unfold assign, modify in Hassign. by injection Hassign as <-.
Qed.

(** ** The interpreter at start-up *)

Lemma Py_Initialize_wf libs : heap_wf (Py_Initialize libs).
Proof.
  unfold Py_Initialize.
  destruct (decide ("inspect" ∈ libs)), (decide ("json" ∈ libs));
    by_evaluation.
Qed.

(** Dropping the last reference to an object that holds no reference. *)
Lemma py_decref_last r v h :
  objs h !! r = Some (mk_object 1 v) →
  children v = [] →
  py_decref r h = (Ret tt, set_objs (λ _, delete r (objs h)) h).
Proof.
  intros Hr Hc. unfold py_decref, release_fuel. simpl.
  rewrite Hr. simpl. rewrite Hc. simpl. reflexivity.
Qed.

(** ** compile *)

Lemma liftPy_inv {A} (m : M PyHeap A) st o st' :
  liftPy m st = (o, st') →
  ∃ h', m (py st) = (o, h') ∧ st' = mk_state (self st) h' (ram st) (trace st).
Proof.
  unfold liftPy. destruct (m (py st)) as [o' h']. intros [= <- <-]. eauto.
Qed.

Lemma assign_inv f st o st' :
  assign f st = (o, st') →
  o = Ret tt ∧ st' = mk_state (f (self st)) (py st) (ram st) (trace st).
Proof. unfold assign, modify. by intros [= <- <-]. Qed.

Lemma PyModule_GetDict_inv m h d h' :
  PyModule_GetDict m h = (Ret (Some d), h') →
  h' = h ∧ ∃ mo nm, m = Some mo ∧ value_of h mo = Some (PyModule nm d).
Proof.
  unfold PyModule_GetDict, bind, py_deref, py_val, value_of.
  destruct m as [mo|]; [|done].
  destruct (objs h !! mo) as [[rc v]|] eqn:Hmo; [|done]. simpl.
  destruct v; try done. intros [= <- <-]. split; [done|].
  eexists _, _. split; [done|]. by rewrite Hmo.
Qed.

Lemma PyDict_GetItemString_inv d key h f h' :
  PyDict_GetItemString d key h = (Ret (Some f), h') →
  h' = h ∧ ∃ dr es, d = Some dr ∧ value_of h dr = Some (PyDict es) ∧
                    dict_get (KStr (c_str key)) es = Some f.
Proof.
  unfold PyDict_GetItemString, py_dict_get, bind, py_deref, py_val, value_of.
  destruct d as [dr|]; [|done].
  destruct (objs h !! dr) as [[rc v]|] eqn:Hdr; [|done]. simpl.
  destruct v; try done. intros [= Hget <-]. split; [done|].
  eexists _, _. split; [done|]. by rewrite Hdr.
Qed.

Lemma PyCallable_Check_inv f h h' :
  PyCallable_Check (Some f) h = (Ret true, h') →
  h' = h ∧ ∃ v, value_of h f = Some v ∧ callable v = true.
Proof.
  unfold PyCallable_Check, bind, py_val, value_of.
  destruct (objs h !! f) as [[rc v]|]; [|done]. simpl.
  intros [= Hc <-]. split; [done|]. exists v. by destruct v.
Qed.

(** ** end copies what the script produced *)

Lemma for_each_app_ret {S A} (l1 l2 : list A) (body : A → M S unit) s s' :
  for_each (l1 ++ l2) body s = (Ret tt, s') →
  ∃ s1, for_each l1 body s = (Ret tt, s1) ∧ for_each l2 body s1 = (Ret tt, s').
Proof.
  revert s. induction l1 as [|x l1 IH]; intros s; simpl.
  - intros Hrun. by exists s.
  - intros Hrun. apply bind_ret_inv in Hrun as ([] & s0 & Hx & Hrun).
    destruct (IH _ Hrun) as (s1 & H1 & H2). exists s1. split; [|done].
    by rewrite (bind_run _ _ _ _ _ Hx).
Qed.

(** The inner loop of [end]: each point gets the bytes read at its place in
    the array. *)
Lemma copy_loop_ret (p : ptr) (size : Z) d idxs st v s' :
  NoDup idxs →
  for_each idxs
    (λ idx : nat,
       val <- onState (liftMem (mem_read (ptr_add p (size * Z.of_nat idx))
                                  size)) ;;
       onView (setField d idx val)) (st, v) = (Ret tt, s') →
  s'.1 = st ∧
  (∀ idx, idx ∈ idxs →
     (mem_read (ptr_add p (size * Z.of_nat idx)) size (ram st)).1
     = Ret (field s'.2 d idx)) ∧
  (∀ idx, idx ∉ idxs → field s'.2 d idx = field v d idx).
Proof.
  intros Hnd. revert v. induction Hnd as [|i idxs Hni Hnd IH]; intros v; simpl.
  - intros [= <-]. split_and!; try done. intros idx Hin.
    by apply elem_of_nil in Hin.
  - intros Hrun. apply bind_ret_inv in Hrun as ([] & [st1 v1] & Hstep & Hrun).
    apply bind_ret_inv in Hstep as (val & [st2 v2] & Hread & Hset).
    unfold onState, liftMem in Hread; simpl in Hread.
    pose proof (readonly_mem_read (ptr_add p (size * Z.of_nat i)) size (ram st))
      as Hro.
    destruct (mem_read (ptr_add p (size * Z.of_nat i)) size (ram st))
      as [o r'] eqn:Hmem; simpl in Hro; subst r'.
    injection Hread as -> <- <-.
    unfold onView, modify in Hset; simpl in Hset. injection Hset as <- <-.
    assert (mk_state (self st) (py st) (ram st) (trace st) = st) as Hst
      by (by destruct st).
    rewrite Hst in Hrun.
    destruct (IH _ Hrun) as (Hs & Hin & Hout). split_and!; [done| |].
    + intros idx Hidx. apply elem_of_cons in Hidx as [->|Hidx]; [|by apply Hin].
      rewrite Hmem; simpl. f_equal. rewrite (Hout i Hni); simpl.
      by rewrite decide_True.
    + intros idx Hidx. apply not_elem_of_cons in Hidx as [Hne Hidx].
      rewrite (Hout idx Hidx); simpl.
      rewrite decide_False; [done|]. by intros [_ ?].
Qed.

Lemma end_dim_copies names n dd st v s' :
  Dimension.name dd ∈ names →
  end_dim names n dd (st, v) = (Ret tt, s') →
  ∃ p, (extractResult (Dimension.name dd) (Dimension.type dd) st).1 = Ret p ∧
       s'.1 = st ∧
       ∀ idx, (idx < n)%nat →
         (mem_read (ptr_add p (Dimension.size (Dimension.type dd)
                               * Z.of_nat idx))
            (Dimension.size (Dimension.type dd)) (ram st)).1
         = Ret (field s'.2 (Dimension.id dd) idx).
Proof.
  intros Hin. unfold end_dim. rewrite decide_True by done. intros Hrun.
  apply bind_ret_inv in Hrun as (p & [st1 v1] & Hex & Hrun).
  unfold onState in Hex; simpl in Hex.
  pose proof (readonly_extractResult (Dimension.name dd) (Dimension.type dd) st)
    as Hro.
  destruct (extractResult (Dimension.name dd) (Dimension.type dd) st)
    as [o st'] eqn:Hext; simpl in Hro; subst st'.
  injection Hex as -> <- <-.
  apply copy_loop_ret in Hrun as (Hs & Hread & _); [|apply NoDup_seq].
  exists p. split_and!; [done|done|].
  intros idx Hidx. apply Hread. apply elem_of_seq. lia.
Qed.

Lemma getOutputNames_ret E st out rc es names st1 :
  m_varsOut (self st) = Some out →
  objs (py st) !! out = Some (mk_object rc (PyDict es)) →
  getOutputNames E st = (Ret names, st1) →
  names = decoded_names es ∧ same_but_bytes st st1.
Proof.
  intros Hout Hobj. unfold getOutputNames.
  rewrite (bind_run _ _ st (Some out) st) by (unfold this, gets; by rewrite Hout).
  rewrite (bind_run _ _ st (PyDict es) st)
    by (destruct st; simpl in *; unfold liftPy, py_deref, py_val; simpl;
        by rewrite Hobj).
  intros Hrun. apply names_loop_inv in Hrun as [Hsame Hnames].
  split; [|done]. by rewrite (Hnames names eq_refl).
Qed.

(** An array that [outputs] binds after the keys were decoded was bound
    before. *)
Lemma output_binding_bytes_back st st1 name arr :
  same_but_bytes st st1 →
  output_binding st1 name = Some (BoundTo (PyNdarray arr)) →
  output_binding st name = Some (BoundTo (PyNdarray arr)).
Proof.
  intros (Hself & _ & _ & _ & Hobjs). unfold output_binding. rewrite Hself.
  destruct (m_varsOut (self st)) as [out|]; [|done].
  destruct (Hobjs out) as [->|(rc & s & ->)]; [|done].
  destruct (objs (py st) !! out) as [[rc []]|]; try done.
  destruct (dict_get (KStr (c_str name)) entries) as [x|]; [|done].
  destruct (Hobjs x) as [->|(rc' & s & ->)]; [done|]. simpl. done.
Qed.

Lemma extractResult_bytes_back st st1 name t p :
  same_but_bytes st st1 →
  (extractResult name t st1).1 = Ret p →
  (extractResult name t st).1 = Ret p.
Proof.
  intros Hsame Hret.
  destruct (extractResult_returns _ _ _ _ Hret) as [arr Hb1].
  pose proof (output_binding_bytes_back _ _ _ _ Hsame Hb1) as Hb.
  rewrite (extractResult_bound _ _ t _ Hb1) in Hret.
  by rewrite (extractResult_bound _ _ t _ Hb).
Qed.

(** ** hasOutputVariable *)

Lemma hasOutputVariable_run st name out rc es :
  m_varsOut (self st) = Some out →
  objs (py st) !! out = Some (mk_object rc (PyDict es)) →
  hasOutputVariable name st
  = (Ret (bool_decide (KStr (c_str name) ∈ es.*1)), st).
Proof.
  intros Hout Hobj. destruct st as [i h r tr]; simpl in *.
  unfold hasOutputVariable, bind, this, gets, liftPy, PyDict_GetItemString,
    py_dict_get, bind, py_deref, py_val, ret; simpl.
  rewrite Hout; simpl. rewrite Hobj; simpl.
  destruct (dict_get (KStr (c_str name)) es) as [x|] eqn:Hget; simpl.
  - rewrite bool_decide_eq_true_2; [done|].
    apply dict_get_Some in Hget. by apply (list_elem_of_fmap_2 fst) in Hget.
  - rewrite bool_decide_eq_false_2; [done|]. by apply dict_get_None.
Qed.

(** ** getPyJSON *)






(** ** insertArgument *)



(** ** begin: staging an attribute *)

Lemma getFieldInternal_length v d idx size :
  length (getFieldInternal v d idx size) = Z.to_nat size.
Proof. unfold getFieldInternal. apply length_resize. Qed.

Lemma liftMem_run {A} (m : M Memory A) st o r :
  m (ram st) = (o, r) →
  liftMem m st = (o, mk_state (self st) (py st) r (trace st)).
Proof. unfold liftMem. by intros ->. Qed.

(** The writes of [begin] fill the buffer from the front: after the points
    [k], [k+1], ... the buffer holds what it held before them, then their
    values, then what is left of the zeros. *)
Lemma stage_loop view d size b n : ∀ k front st,
  0 ≤ size →
  blocks (ram st) !! b
  = Some (front ++ replicate (Z.to_nat size * n) x00) →
  length front = (Z.to_nat size * k)%nat →
  ∃ r',
    for_each (seq k n)
      (λ idx : nat,
         liftMem (mem_write (ptr_add (mk_ptr b 0) (size * Z.of_nat idx))
                    (getFieldInternal view d idx size))) st
    = (Ret tt, mk_state (self st) (py st) r' (trace st)) ∧
    brk r' = brk (ram st) ∧
    blocks r'
    = <[b := front ++ flat_map (λ idx, getFieldInternal view d idx size)
                        (seq k n)]> (blocks (ram st)).
Proof.
  induction n as [|n IH]; intros k front st Hsize Hblock Hlen; simpl.
  - exists (ram st). split_and!; [by destruct st|done|].
    rewrite Nat.mul_0_r in Hblock. simpl in Hblock.
    by rewrite insert_id.
  - set (data := getFieldInternal view d k size).
    assert (length data = Z.to_nat size) as Hdata
      by apply getFieldInternal_length.
    assert (Z.to_nat (0 + size * Z.of_nat k) = (Z.to_nat size * k)%nat) as Hoff.
    { rewrite Z.add_0_l, Z2Nat.inj_mul, Nat2Z.id by lia. done. }
    assert (replicate (Z.to_nat size * S n) x00
            = replicate (Z.to_nat size) x00
              ++ replicate (Z.to_nat size * n) x00) as Hrep.
    { rewrite <- replicate_add. f_equal. lia. }
    assert (mem_write (ptr_add (mk_ptr b 0) (size * Z.of_nat k)) data (ram st)
            = (Ret tt,
               mk_memory
                 (<[b := (front ++ data)
                         ++ replicate (Z.to_nat size * n) x00]>
                    (blocks (ram st)))
                 (brk (ram st)))) as Hwrite.
    { rewrite Hrep in Hblock.
      unfold mem_write, ptr_add. cbn [block offset]. rewrite Hblock.
      rewrite decide_True; cycle 1.
      { rewrite !length_app, !length_replicate, Hdata, Hlen. split; [lia|].
        rewrite Z.add_0_l. nia. }
      rewrite Hoff, Hdata. do 3 f_equal.
      rewrite <- Hlen at 1. rewrite take_app_length.
      rewrite <- app_assoc. do 2 f_equal.
      rewrite <- Hlen. rewrite drop_app_add'. 2: done.
      by rewrite drop_app_length' by (by rewrite length_replicate). }
    destruct (IH (S k) (front ++ data)
                (mk_state (self st) (py st)
                   (mk_memory
                      (<[b := (front ++ data)
                              ++ replicate (Z.to_nat size * n) x00]>
                         (blocks (ram st)))
                      (brk (ram st))) (trace st)) Hsize)
      as (r' & Hrest & Hbrk & Hblocks).
    { simpl. apply lookup_insert_eq. }
    { rewrite length_app, Hdata, Hlen. lia. }
    exists r'. split_and!.
    + rewrite (bind_run _ _ st tt _
                 (liftMem_run _ _ _ _ Hwrite)). exact Hrest.
    + done.
    + rewrite Hblocks. simpl. rewrite insert_insert_eq.
      by rewrite <- app_assoc.
Qed.


Lemma chunks_length {A} (f : nat → list A) sz n : ∀ k,
  (∀ i, length (f i) = sz) →
  length (flat_map f (seq k n)) = (sz * n)%nat.
Proof.
  induction n as [|n IH]; intros k Hf; simpl; [lia|].
  rewrite length_app, Hf, (IH _ Hf). lia.
Qed.

Lemma chunks_lookup {A} (f : nat → list A) sz n : ∀ k i,
  (∀ i, length (f i) = sz) →
  (i < n)%nat →
  take sz (drop (sz * i) (flat_map f (seq k n))) = f (k + i)%nat.
Proof.
  induction n as [|n IH]; intros k i Hf Hi; [lia|]. simpl.
  destruct i as [|i].
  - rewrite Nat.mul_0_r, Nat.add_0_r, drop_0.
    by rewrite take_app_length' by (by rewrite Hf).
  - replace (sz * S i)%nat with (sz + sz * i)%nat by lia.
    rewrite drop_app_add' by (by rewrite Hf).
    rewrite (IH (S k) i Hf) by lia. f_equal. lia.
Qed.

(** Reading a staged buffer at the place of a point gives the value of the
    point. *)
Lemma staged_read view d size b n idx m :
  0 ≤ size →
  blocks m !! b
  = Some (flat_map (λ idx, getFieldInternal view d idx size) (seq 0 n)) →
  (idx < n)%nat →
  mem_read (ptr_add (mk_ptr b 0) (size * Z.of_nat idx)) size m
  = (Ret (getFieldInternal view d idx size), m).
Proof.
  intros Hsize Hblock Hidx.
  unfold mem_read, ptr_add. cbn [block offset]. rewrite Hblock.
  rewrite (chunks_length _ (Z.to_nat size))
    by (intros i; apply getFieldInternal_length).
  rewrite decide_True by (split_and!; [lia|lia|nia]).
  rewrite Z.add_0_l, Z2Nat.inj_mul, Nat2Z.id by lia.
  by rewrite (chunks_lookup _ (Z.to_nat size))
    by (done || intros i; apply getFieldInternal_length).
Qed.

Lemma Dimension_size_nonneg t : 0 ≤ Dimension.size t.
Proof. by destruct t. Qed.

(** What [insertArgument] leaves alone. *)
Lemma insertArgument_native name data_ t count st :
  m_buffers (self (insertArgument name data_ t count st).2)
  = m_buffers (self st) ∧
  ram (insertArgument name data_ t count st).2 = ram st.
Proof.
  destruct (insertArgument name data_ t count st) as [o st'] eqn:Hrun.
  simpl.
  assert (preserves (λ s, m_buffers (self s) = m_buffers (self st)
                          ∧ ram s = ram st)
            (insertArgument name data_ t count)) as Hpre.
  { unfold insertArgument, this, assign.
    repeat first
      [ apply preserves_bind; [|intros ?]
      | apply preserves_liftPy; by intros [] ?
      | apply preserves_gets
      | apply preserves_ret
      | apply preserves_modify; by intros [[] ? ? ?] ]. }
  by apply (Hpre _ _ _ Hrun).
Qed.

(** [begin_dim], however it ends: the buffer it allocated is the last the
    object holds, and holds the values of the attribute, point after
    point. *)
Lemma begin_dim_stages view dd st :
  let p := mk_ptr (brk (ram st)) 0 in
  let st' := (begin_dim view dd st).2 in
  m_buffers (self st') = m_buffers (self st) ++ [p] ∧
  brk (ram st') = Pos.succ (brk (ram st)) ∧
  (∀ b, b ≠ brk (ram st) → blocks (ram st') !! b = blocks (ram st) !! b) ∧
  ∀ idx, (idx < points view)%nat →
    mem_read (ptr_add p (Dimension.size (Dimension.type dd) * Z.of_nat idx))
      (Dimension.size (Dimension.type dd)) (ram st')
    = (Ret (getFieldInternal view (Dimension.id dd) idx
              (Dimension.size (Dimension.type dd))), ram st').
Proof.
  intros p st'.
  pose proof (Dimension_size_nonneg (Dimension.type dd)) as Hsize.
  set (size := Dimension.size (Dimension.type dd)) in *.
  set (st1 := mk_state (set_m_buffers (m_buffers (self st) ++ [p]) (self st))
                (py st)
                (mk_memory
                   (<[brk (ram st) :=
                        replicate (Z.to_nat (size * Z.of_nat (points view)))
                          x00]> (blocks (ram st)))
                   (Pos.succ (brk (ram st))))
                (trace st)).
  destruct (stage_loop view (Dimension.id dd) size (brk (ram st))
              (points view) 0 [] st1 Hsize)
    as (r' & Hloop & Hbrk & Hblocks).
  { simpl. rewrite lookup_insert_eq. do 2 f_equal.
    rewrite Z2Nat.inj_mul, Nat2Z.id by lia. done. }
  { simpl. lia. }
  assert (begin_dim view dd st
          = insertArgument (Dimension.name dd) p (Dimension.type dd)
              (Z.of_nat (points view))
              (mk_state (self st1) (py st1) r' (trace st1))) as Hrun.
  { unfold begin_dim.
    unfold bind at 1. unfold liftMem at 1, malloc. simpl.
    unfold bind at 1. unfold this at 1, gets. simpl.
    unfold bind at 1. unfold assign at 1, modify. simpl.
    fold size. fold p. fold st1.
    by rewrite (bind_run _ _ _ _ _ Hloop). }
  unfold st'. rewrite Hrun.
  destruct (insertArgument_native (Dimension.name dd) p (Dimension.type dd)
              (Z.of_nat (points view))
              (mk_state (self st1) (py st1) r' (trace st1)))
    as [Hbuf Hram].
  rewrite Hbuf, Hram. simpl.
  simpl in Hblocks. rewrite insert_insert_eq in Hblocks.
  split_and!.
  - by destruct (self st).
  - done.
  - intros b Hb. rewrite Hblocks. by rewrite lookup_insert_ne.
  - intros idx Hidx. apply (staged_read _ _ _ _ (points view)); [done| |done].
    rewrite Hblocks. by rewrite lookup_insert_eq.
Qed.

Lemma mem_read_same_block p n r r' :
  blocks r !! block p = blocks r' !! block p →
  (mem_read p n r).1 = (mem_read p n r').1.
Proof.
  intros Hb. unfold mem_read. rewrite Hb.
  destruct (blocks r' !! block p); [|done]. by case_decide.
Qed.

(** The loop of [begin], when it runs to its end: one buffer for each
    attribute, in the order of the layout, each holding the values of its
    attribute. *)
Lemma begin_loop_stages view : ∀ ds st st',
  for_each ds (begin_dim view) st = (Ret tt, st') →
  ∃ ps,
    m_buffers (self st') = m_buffers (self st) ++ ps ∧
    (brk (ram st) ≤ brk (ram st'))%positive ∧
    (∀ b, (b < brk (ram st))%positive →
          blocks (ram st') !! b = blocks (ram st) !! b) ∧
    Forall2
      (λ dd p,
         (brk (ram st) ≤ block p < brk (ram st'))%positive ∧
         ∀ idx, (idx < points view)%nat →
           (mem_read (ptr_add p (Dimension.size (Dimension.type dd)
                                 * Z.of_nat idx))
              (Dimension.size (Dimension.type dd)) (ram st')).1
           = Ret (getFieldInternal view (Dimension.id dd) idx
                    (Dimension.size (Dimension.type dd))))
      ds ps.
Proof.
  induction ds as [|dd ds IH]; intros st st'; simpl.
  - intros [= <-]. exists []. rewrite app_nil_r. split_and!; try done.
  - intros Hrun. apply bind_ret_inv in Hrun as ([] & st1 & Hdd & Hrun).
    destruct (begin_dim_stages view dd st) as (Hbuf & Hbrk & Hother & Hread).
    rewrite Hdd in Hbuf, Hbrk, Hother, Hread. simpl in *.
    destruct (IH _ _ Hrun) as (ps & Hbufs & Hle & Hless & Hall).
    exists (mk_ptr (brk (ram st)) 0 :: ps). split_and!.
    + rewrite Hbufs, Hbuf. by rewrite <- app_assoc.
    + lia.
    + intros b Hb. rewrite Hless by lia. apply Hother. lia.
    + constructor.
      * split; [simpl; lia|]. intros idx Hidx.
        pose proof (f_equal fst (Hread idx Hidx)) as Hr. simpl in Hr.
        rewrite <- Hr. apply mem_read_same_block. simpl. apply Hless. lia.
      * eapply Forall2_impl; [exact Hall|]. simpl.
        intros dd' p' [Hrange Hp]. split; [lia|done].
Qed.

(** ** execute: the metadata the script leaves *)

Lemma PyUnicode_FromString_grows s h :
  heap_wf h →
  ∃ h', PyUnicode_FromString s h = (Ret (Some (fresh h)), h') ∧
        grows h h' ∧ heap_wf h' ∧
        value_of h' (fresh h) = Some (PyStr (c_str s)).
Proof.
  intros Hwf.
  destruct (py_new_grows (PyStr (c_str s)) h Hwf)
    as (h' & Hnew & Hg & Hwf' & Hobj & _).
  exists h'. split_and!; try done.
  - unfold PyUnicode_FromString. by rewrite (bind_run _ _ _ _ _ Hnew).
  - unfold value_of. by rewrite Hobj.
Qed.

Lemma py_key_run r s h :
  value_of h r = Some (PyStr s) → py_key (Some r) h = (Ret (KStr s), h).
Proof.
  intros Hr. unfold py_key, py_deref.
  by rewrite (bind_run _ _ _ _ _ (py_val_run _ _ _ Hr)).
Qed.

Lemma py_dict_get_value h d k es :
  value_of h d = Some (PyDict es) →
  py_dict_get (Some d) k h = (Ret (dict_get k es), h).
Proof.
  intros Hd. unfold py_dict_get, py_deref.
  by rewrite (bind_run _ _ _ _ _ (py_val_run _ _ _ Hd)).
Qed.

(** After the result passed the boolean check: the object takes the value
    the module binds [metadata] to, if it binds one. *)
Lemma execute_epilogue_metadata st (res : PyPtr) mo nm d es :
  heap_wf (py st) →
  m_module (self st) = Some mo →
  m_dictionary (self st) = Some d →
  value_of (py st) mo = Some (PyModule nm d) →
  value_of (py st) d = Some (PyDict es) →
  ∃ h',
  (module_ <- this m_module ;;
  mod_vars <- liftPy (PyModule_GetDict module_) ;;
  b <- liftPy (PyUnicode_FromString "metadata") ;;
  key <- liftPy (PyUnicode_FromString "metadata") ;;
  found <- liftPy (PyDict_Contains mod_vars key) ;;
  (if decide (found = 1)
   then dictionary <- this m_dictionary ;;
        metadata <- liftPy (PyDict_GetItem dictionary b) ;;
        assign (set_m_metadata_PyObject metadata)
   else ret tt) ;;
  ret (bool_decide (res = Some Py_True))) st
  = (Ret (bool_decide (res = Some Py_True)),
     mk_state
       (match dict_get (KStr "metadata") es with
        | Some x => set_m_metadata_PyObject (Some x) (self st)
        | None => self st
        end) h' (ram st) (trace st)) ∧
  grows (py st) h'.
Proof.
  intros Hwf Hmo Hd Hmod Hdict.
  rewrite (bind_run _ _ _ _ _ (this_run m_module st)), Hmo.
  erewrite bind_run; cycle 1.
  { apply liftPy_run. unfold PyModule_GetDict, py_deref.
    rewrite (bind_run _ _ _ _ _ (py_val_run _ _ _ Hmod)). reflexivity. }
  cbv beta.
  destruct (PyUnicode_FromString_grows "metadata" (py st) Hwf)
    as (h1 & Hn1 & Hg1 & Hwf1 & Hk1).
  erewrite bind_run by (apply liftPy_run; exact Hn1). cbv beta.
  destruct (PyUnicode_FromString_grows "metadata" h1 Hwf1)
    as (h2 & Hn2 & Hg2 & Hwf2 & Hk2).
  erewrite bind_run by (apply liftPy_run; exact Hn2). cbv beta.
  assert (grows (py st) h2) as Hg02 by (by eapply grows_trans).
  change (c_str "metadata") with "metadata" in Hk1, Hk2.
  apply Hg2 in Hk1. apply Hg02 in Hdict.
  erewrite bind_run; cycle 1.
  { apply liftPy_run. unfold PyDict_Contains. simpl.
    rewrite (bind_run _ _ _ _ _ (py_key_run _ _ _ Hk2)).
    rewrite (bind_run _ _ _ _ _ (py_dict_get_value _ _ _ _ Hdict)).
    reflexivity. }
  cbv beta. exists h2. split; [|done].
  destruct (dict_get (KStr "metadata") es) as [x|] eqn:Hget.
  - rewrite decide_True by done.
    rewrite bind_assoc. cbv beta.
    rewrite (bind_run _ _ _ _ _ (this_run m_dictionary _)). cbv beta.
    rewrite bind_assoc. simpl self. rewrite Hd.
    erewrite bind_run; cycle 1.
    { apply liftPy_run. unfold PyDict_GetItem. simpl.
      rewrite (bind_run _ _ _ _ _ (py_key_run _ _ _ Hk1)).
      rewrite (py_dict_get_value _ _ _ _ Hdict), Hget. reflexivity. }
    reflexivity.
  - rewrite decide_False by done. reflexivity.
Qed.

(** ** execute: the argument tuple *)

(** Putting an item into a slot of a tuple that holds nothing there yet. *)
Lemma PyTuple_SetItem_empty_slot t (i : nat) v items h :
  objs h !! t = Some (mk_object 1 (PyTuple items)) →
  items !! i = Some None →
  PyTuple_SetItem (Some t) (Z.of_nat i) v h
  = (Ret 0, set_objs (insert t (mk_object 1 (PyTuple (<[i := v]> items)))) h).
Proof.
  intros Ht Hi. unfold PyTuple_SetItem. rewrite Ht.
  rewrite decide_True by done.
  apply lookup_lt_Some in Hi as Hlt.
  rewrite decide_True by lia. rewrite Nat2Z.id.
  unfold bind, py_store, Py_XDECREF_, ret. rewrite Ht. simpl.
  by rewrite (list_lookup_total_correct _ _ _ Hi).
Qed.

Lemma grows_store_new h t v v' :
  heap_wf h →
  objs h !! t = Some (mk_object 1 v) →
  (∀ h0, grows h0 h → value_of h0 t = None →
         grows h0 (set_objs (insert t (mk_object 1 v')) h)).
Proof.
  intros Hwf Ht h0 (Hv & Hm & Hw & Hf) Hnew. split_and!; try done.
  - intros r x Hr. unfold value_of, set_objs; simpl.
    rewrite lookup_insert_ne; [by apply Hv|]. intros <-.
    by rewrite Hnew in Hr.
  - intros Hwf0. unfold heap_wf, set_objs; simpl.
    apply map_Forall_insert_2; [|done]. by apply Hwf in Ht.
Qed.

Lemma execute_args_tuple E st sig vout :
  ready st = true →
  entry_signature st = Some sig →
  getargspec_raises E sig = false →
  (1 ≤ length (sig_args sig) ≤ 2)%nat →
  m_varsOut (self st) = Some vout →
  is_Some (value_of (py st) vout) →
  ∃ vin a st',
    m_varsIn (self st) = Some vin ∧
    execute_args E st = (Ret tt, st') ∧
    m_scriptArgs (self st') = Some a ∧
    value_of (py st) a = None ∧
    value_of (py st') a
    = Some (PyTuple (take (length (sig_args sig)) [Some vin; Some vout])) ∧
    ram st' = ram st ∧
    trace st'
    = trace st ++ EvIncref vin
        :: (if decide (length (sig_args sig) = 2%nat) then [EvIncref vout] else []).
Proof.
  intros Hready Hparams Hacc Hlen Hvout [vo Hvo].
  destruct (ready_inv _ Hready)
    as (bc & vin & v & vn & Hbc & Hvin & Hv & Hin & Hnone & Hwf).
  unfold entry_signature in Hparams.
  destruct (m_function (self st)) as [f|] eqn:Hf; [|done].
  destruct (value_of (py st) f) as [[]|] eqn:Hfv; try done.
  injection Hparams as ->.
  destruct sig as [params va ko vk an]. simpl sig_args in *.
  unfold execute_args.
  rewrite (bind_run _ _ _ _ _ (this_run m_bytecode st)), Hbc. cbv beta iota.
  rewrite (bind_run _ _ st tt st) by done.
  rewrite (bind_run _ _ _ _ _ (this_run m_varsIn st)), Hvin. cbv beta.
  destruct (py_incref_grows _ _ _ Hv) as (h1 & Hi1 & Hg1 & Hfr1).
  set (st1 := mk_state (self st) h1 (ram st) (trace st ++ [EvIncref vin])).
  rewrite (bind_run _ _ st tt st1); cycle 1.
  { unfold Py_INCREF. by rewrite (bind_run _ _ _ _ _ (liftPy_run _ _ _ _ Hi1)). }
  rewrite (bind_run _ _ _ _ _ (this_run m_function st1)). cbv beta.
  simpl self. rewrite Hf.
  destruct (argCount_run E st1 f (mk_signature params va ko vk an))
    as (h2 & Hcount & Hg2 & Hwf2).
  { by apply Hg1. }
  { by eapply introspectable_grows. }
  { exists vn. by apply Hg1. }
  { by apply Hg1. }
  { done. }
  simpl sig_args in Hcount.
  rewrite (bind_run _ _ _ _ _ Hcount). cbv beta.
  assert (grows (py st) h2) as Hg02 by (by eapply grows_trans).
  destruct (py_new_grows
              (PyTuple (replicate (Z.to_nat (Z.of_nat (length params))) None))
              h2 Hwf2) as (h3 & Ht & Hg3 & Hwf3 & Htobj & Hfr3).
  erewrite bind_run; cycle 1.
  { apply liftPy_run. unfold PyTuple_New. do 2 rewrite decide_False by lia.
    simpl. rewrite (bind_run _ _ _ _ _ Ht). reflexivity. }
  cbv beta. simpl self; simpl ram; simpl trace.
  unfold bind at 1, assign at 1, modify at 1. cbv beta iota.
  simpl self; simpl ram; simpl trace; simpl py.
  rewrite decide_False by lia.
  rewrite (bind_run (ret tt) _ _ tt _ eq_refl).
  rewrite Nat2Z.id in Htobj.
  assert (value_of (py st) (fresh h2) = None) as Hnew.
  { unfold value_of. destruct (objs (py st) !! fresh h2) eqn:Hl; [|done].
    apply Hwf in Hl. simpl in Hl. destruct Hg02 as (_ & _ & _ & Hle). lia. }
  assert (grows (py st) h3) as Hg03 by (by eapply grows_trans).
  exists vin, (fresh h2).
  destruct params as [|p1 [|p2 [|p3 ps]]]; simpl in Hlen; try lia.
  - (* one parameter *)
    simpl replicate in Htobj.
    erewrite bind_run; cycle 1.
    { apply liftPy_run. simpl py.
      exact (PyTuple_SetItem_empty_slot _ 0 (Some vin) [None] h3 Htobj eq_refl). }
    cbv beta. rewrite decide_False by (simpl; lia).
    eexists. split_and!; try reflexivity; try done.
    all: simpl; unfold value_of, set_objs; simpl.
    all: first [ by rewrite lookup_insert_eq
               | by rewrite decide_False by done ].
  - (* two parameters *)
    simpl replicate in Htobj.
    erewrite bind_run; cycle 1.
    { apply liftPy_run. simpl py.
      exact (PyTuple_SetItem_empty_slot _ 0 (Some vin) [None; None] h3 Htobj
               eq_refl). }
    cbv beta. rewrite decide_True by (simpl; lia).
    rewrite (bind_run _ _ _ _ _ (this_run m_varsOut _)). cbv beta.
    simpl self. unfold set_m_scriptArgs at 1. simpl m_varsOut. rewrite Hvout.
    set (h4 := set_objs
                 (insert (fresh h2)
                    (mk_object 1 (PyTuple (<[0%nat := Some vin]> [None; None]))))
                 h3).
    assert (value_of h4 vout = Some vo) as Hvo4.
    { unfold h4, value_of, set_objs; simpl.
      rewrite lookup_insert_ne; [by apply Hg03|]. intros Heq.
      rewrite <- Heq in Hvo. by rewrite Hnew in Hvo. }
    destruct (py_incref_grows _ _ _ Hvo4) as (h5 & Hi5 & Hg5 & Hfr5).
    assert (objs h5 !! fresh h2
            = Some (mk_object 1 (PyTuple [Some vin; None]))) as Ht5.
    { unfold py_incref in Hi5. unfold value_of in Hvo4.
      destruct (objs h4 !! vout) as [[rco vvo]|] eqn:Hl; [|done].
      injection Hi5 as <-. unfold set_objs; simpl.
      rewrite lookup_insert_ne; [apply lookup_insert_eq|].
      intros Heq. rewrite Heq in Hvo. by rewrite Hnew in Hvo. }
    erewrite bind_run; cycle 1.
    { unfold Py_INCREF.
      erewrite bind_run by (apply liftPy_run; simpl py; exact Hi5).
      reflexivity. }
    cbv beta.
    erewrite bind_run; cycle 1.
    { apply liftPy_run. simpl py.
      exact (PyTuple_SetItem_empty_slot _ 1 (Some vout) [Some vin; None] h5
               Ht5 eq_refl). }
    cbv beta.
    eexists. split_and!; try reflexivity; try done.
    all: simpl; unfold value_of, set_objs; simpl.
    all: first [ by rewrite lookup_insert_eq
               | by rewrite <- app_assoc ].
Qed.

(** ** cleanup: the references it drops *)



(** When [end] returns, an attribute bound in [outputs] holds the bytes of
    its output array. *)
Lemma end_copies E m st v dd m' :
  NoDup (Dimension.id <$> dims v) →
  dd ∈ dims v →
  bound_in_outputs st (Dimension.name dd) = true →
  c_str (Dimension.name dd) = Dimension.name dd →
  (end_ E m (st, v)).1 = Ret m' →
  ∃ p,
    (extractResult (Dimension.name dd) (Dimension.type dd) st).1 = Ret p ∧
    ∀ idx, (idx < points v)%nat →
      (mem_read (ptr_add p (Dimension.size (Dimension.type dd)
                            * Z.of_nat idx))
         (Dimension.size (Dimension.type dd)) (ram st)).1
      = Ret (field (end_ E m (st, v)).2.2 (Dimension.id dd) idx).
Proof.
  intros Hnd Hdd Hbound Hnul.
  destruct (end_ E m (st, v)) as [o s'] eqn:Hrun; simpl. intros ->.
  unfold bound_in_outputs in Hbound.
  destruct (m_varsOut (self st)) as [out|] eqn:Hout; [|done].
  destruct (objs (py st) !! out) as [[rc []]|] eqn:Hobj; try done.
  apply bool_decide_eq_true in Hbound.
  unfold end_ in Hrun.
  apply bind_ret_inv in Hrun as (names & [st1 v1] & Hnames & Hrun).
  unfold onState in Hnames; simpl in Hnames.
  destruct (getOutputNames E st) as [o1 st1'] eqn:Hgo.
  injection Hnames as -> -> <-.
  destruct (getOutputNames_ret _ _ _ _ _ _ _ Hout Hobj Hgo) as [-> Hsame].
  assert (Dimension.name dd ∈ decoded_names entries) as Hin.
  { rewrite <- Hnul. apply elem_of_decoded_names.
    apply list_elem_of_fmap in Hbound as ([k x] & Hk & Hkx). simpl in Hk.
    subst k. by exists (Dimension.name dd), x. }
  unfold bind at 1 in Hrun; simpl in Hrun.
  apply bind_ret_inv in Hrun as ([] & s2 & Hloop & Hrun).
  apply list_elem_of_split in Hdd as (l1 & l2 & Hdims).
  rewrite Hdims in Hloop, Hnd.
  apply for_each_app_ret in Hloop as ([st1a v1a] & Hl1 & Hloop).
  assert ((st1a, v1a).1 = st1) as Hst1a.
  { eapply (preserves_for_each (λ s : State * PointView, s.1 = st1));
      [|exact Hl1|done].
    intros dd' _. apply end_dim_state. }
  simpl in Hst1a. subst st1a.
  simpl in Hloop.
  apply bind_ret_inv in Hloop as ([] & s1' & Hdim & Hl2).
  apply end_dim_copies in Hdim as (p & Hex & Hs1' & Hread); [|done].
  exists p. split; [by eapply extractResult_bytes_back|].
  assert (∀ idx, field s2.2 (Dimension.id dd) idx
                 = field s1'.2 (Dimension.id dd) idx) as Hs2.
  { eapply (preserves_for_each
              (λ s : State * PointView,
                 ∀ idx, field s.2 (Dimension.id dd) idx
                        = field s1'.2 (Dimension.id dd) idx));
      [|exact Hl2|done].
    intros dd' Hdd'. apply end_dim_other.
    rewrite fmap_app, fmap_cons in Hnd.
    apply NoDup_app in Hnd as (_ & _ & Hnd).
    apply NoDup_cons in Hnd as [Hnot _].
    intros Heq. apply Hnot. rewrite <- Heq. by apply list_elem_of_fmap_2. }
  pose proof (end_tail_view
                (λ v', ∀ idx, field v' (Dimension.id dd) idx
                              = field s1'.2 (Dimension.id dd) idx)
                m _ eq_refl _ _ _ Hrun Hs2) as Hfinal.
  intros idx Hidx. simpl in Hfinal. rewrite Hfinal.
  destruct Hsame as (_ & Hram & _). rewrite <- Hram.
  by apply Hread.
Qed.

(** ** [end] runs to its end *)

Lemma only_adds_refl st : only_adds st st.
Proof. by repeat split. Qed.

Lemma only_adds_trans st1 st2 st3 :
  only_adds st1 st2 → only_adds st2 st3 → only_adds st1 st3.
Proof.
  intros (H1 & H2 & H3 & H4) (H1' & H2' & H3' & H4').
  repeat split; try congruence. auto.
Qed.

Lemma decode_key_run E k st :
  heap_wf (py st) →
  (3 ≤ PY_MAJOR_VERSION E → is_Some (key_bytes k)) →
  ∃ st1, decode_key E k st = (Ret (key_bytes k), st1) ∧
         only_adds st st1 ∧ heap_wf (py st1).
Proof.
  intros Hwf Hk. destruct (decide (3 ≤ PY_MAJOR_VERSION E)) as [Hv|Hv].
  - destruct (Hk Hv) as [s Hs]. unfold decode_key. rewrite decide_True by done.
    destruct st as [i h r t]; simpl in *.
    unfold liftPy, PyUnicode_AsUTF8String, PyBytes_AsString.
    destruct k as [s'| |]; simpl in Hs; try done. injection Hs as ->.
    simpl. unfold bind, py_new, py_deref, py_val, ret; simpl.
    rewrite lookup_insert_eq; simpl.
    eexists. split; [reflexivity|]. split.
    + repeat split; simpl. intros x o Ho.
      rewrite lookup_insert_ne; [done|]. intros <-.
      by rewrite (heap_wf_fresh _ Hwf) in Ho.
    + simpl. unfold heap_wf; simpl. apply map_Forall_insert_2; [lia|].
      intros x o Hx. apply Hwf in Hx. simpl in Hx. lia.
  - destruct (decode_key_legacy E k st Hv) as (st1 & Hrun & Hsame).
    exists st1. split; [done|].
    destruct Hsame as (H1 & H2 & H3 & H4 & H5 & H6).
    split.
    + repeat split; try done. intros x o. by rewrite H4.
    + unfold heap_wf. by rewrite H4, H5.
Qed.

Lemma getOutputNames_returns E st out rc es :
  heap_wf (py st) →
  m_varsOut (self st) = Some out →
  objs (py st) !! out = Some (mk_object rc (PyDict es)) →
  (3 ≤ PY_MAJOR_VERSION E → Forall (λ kv, is_Some (key_bytes kv.1)) es) →
  ∃ st1, getOutputNames E st = (Ret (decoded_names es), st1) ∧
         only_adds st st1.
Proof.
  intros Hwf Hout Hobj Hkeys. unfold getOutputNames.
  rewrite (bind_run _ _ st (Some out) st) by (unfold this, gets; by rewrite Hout).
  rewrite (bind_run _ _ st (PyDict es) st)
    by (destruct st; simpl in *; unfold liftPy, py_deref, py_val; simpl;
        by rewrite Hobj).
  assert (∀ acc st0, heap_wf (py st0) →
            ∃ st1, fold_M
                     (λ (names : list string) (kv : PyKey * PyRef),
                        p <- decode_key E kv.1 ;;
                        match p with
                        | Some p => ret (names ++ [c_str p])
                        | None => ret names
                        end) es acc st0
                   = (Ret (acc ++ decoded_names es), st1) ∧
                   only_adds st0 st1) as Hloop.
  { clear Hobj. induction es as [|[k x] es IH]; intros acc st0 Hwf0; simpl.
    - exists st0. rewrite app_nil_r. split; [done|apply only_adds_refl].
    - destruct (decode_key_run E k st0 Hwf0) as (st1 & Hrun & Hadds & Hwf1).
      { intros Hv. specialize (Hkeys Hv). by inversion Hkeys. }
      pose (acc' := match key_bytes k with
                    | Some s => acc ++ [c_str s]
                    | None => acc
                    end).
      destruct (IH (λ Hv, Forall_inv_tail (Hkeys Hv)) acc' st1 Hwf1)
        as (st2 & Hrest & Hadds2).
      rewrite (bind_run _ _ st0 acc' st1).
      + rewrite Hrest. exists st2. split; [|by eapply only_adds_trans].
        unfold decoded_names, acc'; simpl.
        destruct (key_bytes k) as [s|]; simpl; [|done].
        by rewrite <- app_assoc.
      + rewrite (bind_run _ _ _ _ _ Hrun). unfold acc'.
        by destruct (key_bytes k). }
  destruct (Hloop [] st Hwf) as (st1 & Hrun & Hadds). by exists st1.
Qed.

Lemma output_binding_only_adds st st1 name v :
  only_adds st st1 →
  output_binding st name = Some (BoundTo v) →
  output_binding st1 name = Some (BoundTo v).
Proof.
  intros (Hself & _ & _ & Hobjs). unfold output_binding. rewrite Hself.
  destruct (m_varsOut (self st)) as [out|]; [|done].
  destruct (objs (py st) !! out) as [[rc ov]|] eqn:Hout; [|done].
  rewrite (Hobjs _ _ Hout).
  destruct ov; try done.
  destruct (dict_get (KStr (c_str name)) entries) as [x|]; [|done].
  destruct (objs (py st) !! x) as [o|] eqn:Hx; [|done].
  by rewrite (Hobjs _ _ Hx).
Qed.

Lemma copyable_only_adds st st1 n dd :
  only_adds st st1 → copyable st n dd = true → copyable st1 n dd = true.
Proof.
  intros Hadds. unfold copyable.
  destruct (output_binding st (Dimension.name dd)) as [[|v]|] eqn:Hb; try done.
  rewrite (output_binding_only_adds _ _ _ _ Hadds Hb).
  destruct Hadds as (_ & -> & _). done.
Qed.

Lemma Dimension_size_pos t : 0 < Dimension.size t.
Proof. destruct t; simpl; lia. Qed.

(** The inner loop of [end] returns when the bytes are there. *)
Lemma copy_loop_run (p : ptr) (size : Z) d (n : nat) st bs :
  blocks (ram st) !! block p = Some bs →
  0 ≤ offset p → 0 < size →
  offset p + size * Z.of_nat n ≤ Z.of_nat (length bs) →
  ∀ idxs v, (∀ i, i ∈ idxs → (i < n)%nat) →
    ∃ v', for_each idxs
            (λ idx : nat,
               val <- onState (liftMem (mem_read
                                          (ptr_add p (size * Z.of_nat idx))
                                          size)) ;;
               onView (setField d idx val)) (st, v) = (Ret tt, (st, v')).
Proof.
  intros Hb Hoff Hsize Hlen. induction idxs as [|i idxs IH]; intros v Hidx; simpl.
  - by exists v.
  - assert (i < n)%nat as Hi by (apply Hidx; left).
    unfold bind at 1 2, onState at 1, liftMem at 1, mem_read; simpl.
    rewrite Hb. rewrite decide_True by nia. simpl.
    unfold onView, modify; simpl.
    assert (mk_state (self st) (py st) (ram st) (trace st) = st) as ->
      by (by destruct st).
    apply IH. intros j Hj. apply Hidx. by right.
Qed.

Lemma end_dim_run names n dd st v :
  (Dimension.name dd ∈ names → copyable st n dd = true) →
  ∃ v', end_dim names n dd (st, v) = (Ret tt, (st, v')).
Proof.
  intros Hc. unfold end_dim. case_decide as Hin; [|by exists v].
  specialize (Hc Hin). unfold copyable in Hc.
  destruct (output_binding st (Dimension.name dd)) as [[|[]]|] eqn:Hb;
    try done.
  apply andb_prop in Hc as [Hc Hread]. apply andb_prop in Hc as [Hc Hnd].
  apply andb_prop in Hc as [Hsize Hkind].
  apply bool_decide_eq_true in Hsize, Hnd. apply negb_true_iff in Hkind.
  pose proof (extractResult_data _ _ _ _ Hb Hsize Hkind Hnd) as Hex.
  pose proof (readonly_extractResult (Dimension.name dd) (Dimension.type dd) st)
    as Hro.
  destruct (extractResult (Dimension.name dd) (Dimension.type dd) st)
    as [o st'] eqn:Hext; simpl in Hro, Hex; subst st' o.
  unfold bind at 1, onState at 1. simpl. rewrite Hext.
  unfold readable in Hread.
  destruct (blocks (ram st) !! block (data a)) as [bs|] eqn:Hbs; [|done].
  apply bool_decide_eq_true in Hread as [Hoff Hlen].
  apply (copy_loop_run (data a) (Dimension.size (Dimension.type dd))
           (Dimension.id dd) n st bs Hbs Hoff (Dimension_size_pos _) Hlen
           (seq 0 n) v).
  intros i Hi. apply elem_of_seq in Hi. lia.
Qed.

Lemma end_loop_run names n st ds :
  (∀ dd, dd ∈ ds → Dimension.name dd ∈ names → copyable st n dd = true) →
  ∀ v, ∃ v', for_each ds (end_dim names n) (st, v) = (Ret tt, (st, v')).
Proof.
  induction ds as [|dd ds IH]; intros Hc v; simpl.
  - by exists v.
  - destruct (end_dim_run names n dd st v) as (v1 & Hrun).
    { apply Hc. by left. }
    unfold bind at 1. rewrite Hrun.
    apply IH. intros dd' Hdd'. apply Hc. by right.
Qed.

Lemma free_all_run bs : ∀ st v,
  Forall (λ p, allocated (ram st) p = true) bs →
  NoDup (block <$> bs) →
  ∃ r, for_each bs (λ bi, onState (liftMem (free bi))) (st, v)
       = (Ret tt, (mk_state (self st) (py st) r (trace st), v)).
Proof.
  induction bs as [|b bs IH]; intros st v Hall Hnd; simpl.
  - exists (ram st). by destruct st.
  - apply Forall_cons in Hall as [Hb Hall].
    rewrite fmap_cons in Hnd. apply NoDup_cons in Hnd as [Hnot Hnd].
    unfold allocated in Hb. apply andb_prop in Hb as [Hoff Hlive].
    apply bool_decide_eq_true in Hoff, Hlive. destruct Hlive as [bytes Hlive].
    unfold bind at 1, onState at 1, liftMem at 1, free. simpl.
    rewrite Hlive. rewrite decide_True by done. simpl.
    destruct (IH (mk_state (self st) (py st)
                    (mk_memory (delete (block b) (blocks (ram st)))
                       (brk (ram st))) (trace st)) v) as (r & Hrun);
      [|done|by exists r].
    apply Forall_forall. intros p Hp.
    rewrite Forall_forall in Hall. specialize (Hall p Hp).
    unfold allocated in *; simpl.
    apply andb_prop in Hall as [Hoffp Hlivep]. rewrite Hoffp; simpl.
    apply bool_decide_eq_true in Hlivep. apply bool_decide_eq_true.
    rewrite lookup_delete_ne; [done|].
    intros Heq. apply Hnot. rewrite Heq. by apply list_elem_of_fmap_2.
Qed.

(** On a state that is ready for it, [end] returns. *)
Lemma end_returns E m st v :
  end_ready E st v = true → ∃ m', (end_ E m (st, v)).1 = Ret m'.
Proof.
  unfold end_ready. intros Hready.
  apply andb_prop in Hready as [Hready Hmeta].
  apply andb_prop in Hready as [Hready Hnd].
  apply andb_prop in Hready as [Hready Hbufs].
  apply andb_prop in Hready as [Hwf Hout].
  apply bool_decide_eq_true in Hwf, Hnd.
  destruct (m_varsOut (self st)) as [out|] eqn:Hvo; [|done].
  destruct (objs (py st) !! out) as [[rc []]|] eqn:Hobj; try done.
  apply andb_prop in Hout as [Hkeys Hdims].
  destruct (getOutputNames_returns E st out rc entries Hwf Hvo Hobj)
    as (st1 & Hnames & Hadds).
  { intros Hv. apply orb_prop in Hkeys as [Hlt|Hkeys].
    - apply bool_decide_eq_true in Hlt. lia.
    - apply Forall_forall. intros kv Hkv.
      rewrite forallb_forall in Hkeys.
      apply list_elem_of_In, Hkeys in Hkv.
      by apply bool_decide_eq_true in Hkv. }
  unfold end_.
  unfold bind at 1, onState at 1. simpl. rewrite Hnames.
  unfold bind at 1, gets at 1. simpl.
  destruct (end_loop_run (decoded_names entries) (points v) st1 (dims v))
    with (v := v) as (v' & Hloop).
  { intros dd Hdd Hin. apply (copyable_only_adds st); [done|].
    rewrite forallb_forall in Hdims.
    specialize (Hdims dd (proj1 (list_elem_of_In _ _) Hdd)).
    apply orb_prop in Hdims as [Hnot|Hc]; [|done].
    by apply bool_decide_eq_true in Hnot. }
  unfold bind at 1. rewrite Hloop.
  destruct Hadds as (Hself & Hram & Htrace & Hobjs).
  unfold bind at 1, onState at 1, this, gets. simpl.
  destruct (free_all_run (m_buffers (self st1)) st1 v') as (r & Hfree).
  { rewrite Hself, Hram. apply Forall_forall. intros p Hp.
    rewrite forallb_forall in Hbufs.
    apply Hbufs, list_elem_of_In, Hp. }
  { by rewrite Hself. }
  unfold bind at 1. rewrite Hfree.
  unfold bind, onState, assign, modify, this, gets, liftPy, py_val, ret; simpl.
  rewrite Hself.
  destruct (m_metadata_PyObject (self st)) as [mr|]; simpl; [|by eexists].
  apply bool_decide_eq_true in Hmeta as [o Ho].
  rewrite (Hobjs _ _ Ho). simpl. by eexists.
Qed.

(** * The claims *)

(** C9.  For every attribute of the layout whose name is not bound in
    [outputs], [end] leaves the stored values of that attribute unchanged,
    however it ends.  And on a state in which nothing makes the copy fail
    ([end_ready]), [end] returns: every attribute bound in [outputs] has been
    given, point by point, the bytes that its output array held in the
    native heap [end] started from, in which the staging buffers were still
    allocated; after that the object holds no buffer, and every buffer it
    held, which are the buffers [begin] pushed, is released. *)
Theorem end_frame_and_release E m st v :
  NoDup (Dimension.id <$> dims v) →
  (∀ dd, dd ∈ dims v →
     bound_in_outputs st (Dimension.name dd) = false →
     ∀ idx, field (end_ E m (st, v)).2.2 (Dimension.id dd) idx
            = field v (Dimension.id dd) idx) ∧
  (end_ready E st v = true →
   ∃ m',
     (end_ E m (st, v)).1 = Ret m' ∧
     (∀ dd, dd ∈ dims v →
        bound_in_outputs st (Dimension.name dd) = true →
        c_str (Dimension.name dd) = Dimension.name dd →
        ∃ p,
          (extractResult (Dimension.name dd) (Dimension.type dd) st).1
            = Ret p ∧
          ∀ idx, (idx < points v)%nat →
            (mem_read (ptr_add p (Dimension.size (Dimension.type dd)
                                  * Z.of_nat idx))
               (Dimension.size (Dimension.type dd)) (ram st)).1
            = Ret (field (end_ E m (st, v)).2.2 (Dimension.id dd) idx)) ∧
     (∀ p, p ∈ m_buffers (self st) → allocated (ram st) p = true) ∧
     m_buffers (self (end_ E m (st, v)).2.1) = [] ∧
     (∀ p, p ∈ m_buffers (self st) →
           released p (ram (end_ E m (st, v)).2.1))).
Proof.
  intros Hnd. split.
  - intros dd Hdd Hunbound.
    destruct (end_ E m (st, v)) as [o s'] eqn:Hrun. by eapply end_frame.
  - intros Hready. destruct (end_returns E m st v Hready) as [m' Hret].
    exists m'. split; [done|]. split.
    { intros dd Hdd Hbound Hnul. by eapply end_copies. }
    split.
    { intros p Hp. unfold end_ready in Hready.
      apply andb_prop in Hready as [Hready _].
      apply andb_prop in Hready as [Hready _].
      apply andb_prop in Hready as [_ Hbufs].
      rewrite forallb_forall in Hbufs. by apply Hbufs, list_elem_of_In. }
    destruct (end_ E m (st, v)) as [o s'] eqn:Hrun. simpl in Hret. subst o.
    by eapply end_release.
Qed.

(** After the script that copies X: Y is not bound and keeps its values; X
    is bound to the array that views the first staging buffer, and gets its
    bytes back; both buffers were allocated, and both are released. *)
Lemma end_frame_and_release_witness :
  NoDup (Dimension.id <$> dims demo_view) ∧
  end_ready demo_copy_env demo_copied demo_view = true ∧
  m_buffers (self demo_copied) = [mk_ptr 1 0; mk_ptr 2 0] ∧
  bound_in_outputs demo_copied (Dimension.name demo_X) = true ∧
  bound_in_outputs demo_copied (Dimension.name demo_Y) = false ∧
  (∀ dd, dd ∈ dims demo_view →
     bound_in_outputs demo_copied (Dimension.name dd) = false →
     ∀ idx, field (end_ demo_copy_env "meta" (demo_copied, demo_view)).2.2
              (Dimension.id dd) idx
            = field demo_view (Dimension.id dd) idx) ∧
  ∃ m',
    (end_ demo_copy_env "meta" (demo_copied, demo_view)).1 = Ret m' ∧
    (∀ dd, dd ∈ dims demo_view →
       bound_in_outputs demo_copied (Dimension.name dd) = true →
       c_str (Dimension.name dd) = Dimension.name dd →
       ∃ p,
         (extractResult (Dimension.name dd) (Dimension.type dd)
            demo_copied).1 = Ret p ∧
         ∀ idx, (idx < points demo_view)%nat →
           (mem_read (ptr_add p (Dimension.size (Dimension.type dd)
                                 * Z.of_nat idx))
              (Dimension.size (Dimension.type dd)) (ram demo_copied)).1
           = Ret (field (end_ demo_copy_env "meta"
                           (demo_copied, demo_view)).2.2
                    (Dimension.id dd) idx)) ∧
    (∀ p, p ∈ m_buffers (self demo_copied) →
          allocated (ram demo_copied) p = true) ∧
    m_buffers (self (end_ demo_copy_env "meta"
                       (demo_copied, demo_view)).2.1) = [] ∧
    (∀ p, p ∈ m_buffers (self demo_copied) →
          released p (ram (end_ demo_copy_env "meta"
                             (demo_copied, demo_view)).2.1)).
Proof.
  assert (NoDup (Dimension.id <$> dims demo_view)) as H1 by by_evaluation.
  assert (end_ready demo_copy_env demo_copied demo_view = true) as H2
    by (vm_compute; reflexivity).
  split; [exact H1|]. split; [exact H2|].
  split; [vm_compute; reflexivity|].
  split; [vm_compute; reflexivity|].
  split; [vm_compute; reflexivity|].
  split.
  - exact (proj1 (end_frame_and_release demo_copy_env "meta" demo_copied
                    demo_view H1)).
  - exact (proj2 (end_frame_and_release demo_copy_env "meta" demo_copied
                    demo_view H1) H2).
Defined.

(** C2 fails on the code.  [cleanup] is all that [resetArguments] runs
    before it allocates the two dictionaries, and all that the destructor
    runs, and it never touches the staging buffers: from every state, both
    leave the list of buffers the object holds and the native heap as they
    were.  So, after [begin] has allocated the blocks 1 and 2 and the script
    has raised, [resetArguments] returns with both buffers still held and
    still allocated, and so does the destructor; the same after a script
    that bound X to an array of doubles, on which [end] failed. *)
Theorem staging_buffers_outlive_reset :
  (∀ st, native (resetArguments st).2 = native st) ∧
  (∀ st, native (Invocation_delete st).2 = native st) ∧
  thrown demo_raised.1 = Some ExecutionError ∧
  m_buffers (self demo_raised.2) = [mk_ptr 1 0; mk_ptr 2 0] ∧
  (resetArguments demo_raised.2).1 = Ret tt ∧
  m_buffers (self (resetArguments demo_raised.2).2)
    = [mk_ptr 1 0; mk_ptr 2 0] ∧
  ¬ released (mk_ptr 1 0) (ram (resetArguments demo_raised.2).2) ∧
  ¬ released (mk_ptr 2 0) (ram (resetArguments demo_raised.2).2) ∧
  (Invocation_delete demo_raised.2).1 = Ret tt ∧
  ¬ released (mk_ptr 1 0) (ram (Invocation_delete demo_raised.2).2) ∧
  ¬ released (mk_ptr 2 0) (ram (Invocation_delete demo_raised.2).2) ∧
  thrown demo_end_failed.1 = Some SizeMismatchError ∧
  m_buffers (self demo_end_failed.2.1) = [mk_ptr 1 0; mk_ptr 2 0] ∧
  (resetArguments demo_end_failed.2.1).1 = Ret tt ∧
  m_buffers (self (resetArguments demo_end_failed.2.1).2)
    = [mk_ptr 1 0; mk_ptr 2 0] ∧
  ¬ released (mk_ptr 1 0) (ram (resetArguments demo_end_failed.2.1).2) ∧
  ¬ released (mk_ptr 2 0) (ram (resetArguments demo_end_failed.2.1).2) ∧
  (Invocation_delete demo_end_failed.2.1).1 = Ret tt ∧
  ¬ released (mk_ptr 1 0) (ram (Invocation_delete demo_end_failed.2.1).2) ∧
  ¬ released (mk_ptr 2 0) (ram (Invocation_delete demo_end_failed.2.1).2).
Proof.
  split.
  { intros st. destruct (resetArguments st) as [o st'] eqn:Hrun.
    by eapply (resetArguments_native _ _ _ _ _ Hrun). }
  split.
  { intros st. unfold Invocation_delete.
    destruct (cleanup st) as [o st'] eqn:Hrun.
    by eapply (cleanup_native _ _ _ _ _ Hrun). }
  unfold released.
  split_and!; first [vm_compute; reflexivity | vm_compute; discriminate].
Qed.

(** C6, as the code has it.  [extractResult] fails with [MissingOutputError]
    when the name is not bound in [outputs], with [NotAnArrayError] when the
    value bound is not an array, with [SizeMismatchError] when the element
    byte size of the array differs from the size of the type, and with
    [KindMismatchError] when the element kind of the array is signed
    integer, unsigned integer or floating point and is not the base kind of
    the type.  An array of any other element kind is not checked for its
    kind: no [KindMismatchError] for it.  A pointer is returned only when
    the name is bound to an array of the right element size whose kind is
    not rejected in that way; and it is returned then, for an array of one
    dimension or of none: the pointer to the data of the array. *)
Theorem extractResult_checks st name t :
  (output_binding st name = Some Unbound →
   thrown (extractResult name t st).1 = Some MissingOutputError) ∧
  (∀ v, output_binding st name = Some (BoundTo v) → is_array v = false →
        thrown (extractResult name t st).1 = Some NotAnArrayError) ∧
  (∀ arr, output_binding st name = Some (BoundTo (PyNdarray arr)) →
          elsize (descr arr) `mod` 2 ^ 32 ≠ Dimension.size t →
          thrown (extractResult name t st).1 = Some SizeMismatchError) ∧
  (∀ arr, output_binding st name = Some (BoundTo (PyNdarray arr)) →
          elsize (descr arr) `mod` 2 ^ 32 = Dimension.size t →
          kind_rejected (dkind (descr arr)) (Dimension.base t) = true →
          thrown (extractResult name t st).1 = Some KindMismatchError) ∧
  (∀ arr, output_binding st name = Some (BoundTo (PyNdarray arr)) →
          kind_rejected (dkind (descr arr)) (Dimension.base t) = false →
          thrown (extractResult name t st).1 ≠ Some KindMismatchError) ∧
  (∀ p, (extractResult name t st).1 = Ret p →
        ∃ arr,
          output_binding st name = Some (BoundTo (PyNdarray arr)) ∧
          elsize (descr arr) `mod` 2 ^ 32 = Dimension.size t ∧
          kind_rejected (dkind (descr arr)) (Dimension.base t) = false) ∧
  (∀ arr, output_binding st name = Some (BoundTo (PyNdarray arr)) →
          elsize (descr arr) `mod` 2 ^ 32 = Dimension.size t →
          kind_rejected (dkind (descr arr)) (Dimension.base t) = false →
          (length (strides arr) ≤ 1)%nat →
          (extractResult name t st).1 = Ret (data arr)).
Proof.
  split; [apply extractResult_unbound|].
  split.
  { intros v Hb Hv. rewrite (extractResult_bound _ _ t _ Hb). by destruct v. }
  split.
  { intros arr Hb Hsize. rewrite (extractResult_bound _ _ t _ Hb).
    by rewrite decide_True. }
  split.
  { intros arr Hb Hsize Hkind. rewrite (extractResult_bound _ _ t _ Hb).
    rewrite decide_False by (by intros ?).
    destruct (kind_rejected _ _) eqn:Hk in Hkind; [|done].
    repeat (case_decide; [done|]).
    exfalso. assert (kind_rejected (dkind (descr arr)) (Dimension.base t)
                     = false) as Hf by (by apply kind_rejected_spec).
    congruence. }
  split.
  { intros arr Hb Hkind. rewrite (extractResult_bound _ _ t _ Hb).
    apply kind_rejected_spec in Hkind as (Hi & Hu & Hf).
    case_decide; [done|]. do 3 rewrite decide_False by done.
    by case_decide. }
  split.
  - intros p Hret.
    destruct (extractResult_returns _ _ _ _ Hret) as [arr Hb].
    rewrite (extractResult_bound _ _ t _ Hb) in Hret. simpl in Hret.
    case_decide as Hsize; [done|].
    assert (elsize (descr arr) `mod` 2 ^ 32 = Dimension.size t) as Hsize'
      by (destruct (decide (elsize (descr arr) `mod` 2 ^ 32
                            = Dimension.size t)); [done|by exfalso]).
    case_decide as Hi; [done|]. case_decide as Hu; [done|].
    case_decide as Hf; [done|].
    exists arr. repeat split; try done.
    by apply kind_rejected_spec.
  - intros arr Hb Hsize Hkind Hnd.
    by apply extractResult_data.
Qed.

(** An instance of every case.  The script that copies X bound X to an
    array of unsigned bytes and bound nothing to Y; another script bound X
    to the object True; a third bound X to an array of booleans. *)
Lemma extractResult_checks_witness :
  thrown (extractResult "Y" Dimension.Double demo_copied).1
    = Some MissingOutputError ∧
  thrown (extractResult "X" Dimension.Unsigned8 demo_flagged).1
    = Some NotAnArrayError ∧
  thrown (extractResult "X" Dimension.Unsigned16 demo_copied).1
    = Some SizeMismatchError ∧
  thrown (extractResult "X" Dimension.Signed8 demo_copied).1
    = Some KindMismatchError ∧
  thrown (extractResult "X" Dimension.Unsigned8 demo_compared).1
    ≠ Some KindMismatchError ∧
  (extractResult "X" Dimension.Unsigned8 demo_copied).1
    = Ret (data (mk_array (mk_descr 1 "u") (mk_ptr 1 0) [2] [1])) ∧
  (∃ arr,
     output_binding demo_copied "X" = Some (BoundTo (PyNdarray arr)) ∧
     elsize (descr arr) `mod` 2 ^ 32 = Dimension.size Dimension.Unsigned8 ∧
     kind_rejected (dkind (descr arr))
       (Dimension.base Dimension.Unsigned8) = false).
Proof.
  pose (arr := mk_array (mk_descr 1 "u") (mk_ptr 1 0) [2] [1]).
  assert ((extractResult "X" Dimension.Unsigned8 demo_copied).1
          = Ret (data arr)) as Hret.
  { apply (extractResult_checks demo_copied "X" Dimension.Unsigned8
             : _ ∧ _ ∧ _ ∧ _ ∧ _ ∧ _ ∧ _).
    - vm_compute; reflexivity.
    - vm_compute; reflexivity.
    - vm_compute; reflexivity.
    - simpl; lia. }
  split.
  { apply (extractResult_checks demo_copied "Y" Dimension.Double).
    vm_compute; reflexivity. }
  split.
  { apply (extractResult_checks demo_flagged "X" Dimension.Unsigned8)
      with (v := PyBool true); vm_compute; reflexivity. }
  split.
  { apply (extractResult_checks demo_copied "X" Dimension.Unsigned16)
      with (arr := arr); [vm_compute; reflexivity|vm_compute; discriminate]. }
  split.
  { apply (extractResult_checks demo_copied "X" Dimension.Signed8)
      with (arr := arr); vm_compute; reflexivity. }
  split.
  { apply (extractResult_checks demo_compared "X" Dimension.Unsigned8)
      with (arr := mk_array (mk_descr 1 "b") (mk_ptr 3 0) [2] [1]);
      vm_compute; reflexivity. }
  split; [exact Hret|].
  exact (proj1 (proj2 (proj2 (proj2 (proj2 (proj2
           (extractResult_checks demo_copied "X" Dimension.Unsigned8))))))
           (data arr) Hret).
Defined.

(** C6, as stated, fails.  The script bound X to an array of booleans: its
    element kind is none of the three base kinds, so it does not agree with
    the unsigned base kind of the attribute, and yet [extractResult] raises
    no [KindMismatchError] and returns the pointer. *)
Lemma extractResult_accepts_boolean_array :
  output_binding demo_compared "X"
    = Some (BoundTo (PyNdarray
                       (mk_array (mk_descr 1 "b") (mk_ptr 3 0) [2] [1]))) ∧
  kind_agrees "b" (Dimension.base Dimension.Unsigned8) = false ∧
  (extractResult "X" Dimension.Unsigned8 demo_compared).1 = Ret (mk_ptr 3 0).
Proof. repeat split; vm_compute; reflexivity. Qed.

(** C10, as the code has it when the unit is compiled against a major
    version of at least 3.  A key of [outputs] that cannot be decoded to a
    host string is not left out: [PyUnicode_AsUTF8String] returns NULL for
    it, line 244 hands that NULL to [PyBytes_AsString], which follows it.
    [getOutputNames] does not return a list of names, and [end], which calls
    it first, does not return either: the process crashes. *)
Theorem undecodable_key_follows_null E m st v out rc es :
  3 ≤ PY_MAJOR_VERSION E →
  m_varsOut (self st) = Some out →
  objs (py st) !! out = Some (mk_object rc (PyDict es)) →
  (∃ kv, kv ∈ es ∧ key_bytes kv.1 = None) →
  (getOutputNames E st).1 = Crash NullDereference ∧
  (end_ E m (st, v)).1 = Crash NullDereference.
Proof.
  intros Hv Hout Hobj Hbad.
  pose proof (getOutputNames_crash E st out rc es Hv Hout Hobj Hbad) as Hgo.
  split; [done|].
  unfold end_, bind at 1, onState at 1; simpl.
  destruct (getOutputNames E st) as [o st1]; simpl in *. by subst o.
Qed.

(** The script bound the integer 7 to the array of Y and the string X to the
    array of X. *)
Lemma undecodable_key_follows_null_witness :
  (getOutputNames demo_intkey_env demo_intkey).1 = Crash NullDereference ∧
  (end_ demo_intkey_env "meta" (demo_intkey, demo_view)).1
    = Crash NullDereference.
Proof.
  apply (undecodable_key_follows_null demo_intkey_env "meta" demo_intkey
           demo_view 17%positive 2
           [(KObj 7, 19%positive); (KStr "X", 18%positive)]).
  - vm_compute; discriminate.
  - vm_compute; reflexivity.
  - vm_compute; reflexivity.
  - exists (KObj 7, 19%positive). split; [by_evaluation|reflexivity].
Defined.

(** C7.  When the call of the entry function succeeds and returns [r]:
    if [r] is not an object of the boolean type, [execute] throws
    [NonBooleanResult], whatever the value is; if it is, and the module is
    still alive, [execute] returns normally, and returns true exactly when [r]
    is the object True.  A returned False is therefore the normal return of
    false. *)
Theorem execute_result E st0 st r st2 :
  (execute_args E ;; execute_globals) st0 = (Ret tt, st) →
  PyObject_CallObject E (m_function (self st)) (m_scriptArgs (self st)) st
    = (Ret (Some r), st2) →
  (∀ v, ob_val <$> objs (py st2) !! r = Some v → is_bool v = false →
        thrown (execute E st0).1 = Some NonBooleanResult) ∧
  (∀ v, ob_val <$> objs (py st2) !! r = Some v → is_bool v = true →
        module_live st2 = true →
        (execute E st0).1 = Ret (bool_decide (r = Py_True))).
Proof.
  intros Hpre Hcall.
  rewrite (execute_split _ _ _ Hpre), (execute_call_returned _ _ _ _ Hcall).
  split; intros v Hv Hb.
  - erewrite bind_run by (apply liftPy_run, PyBool_Check_run; exact Hv).
    cbv beta. rewrite Hb. reflexivity.
  - intros Hlive.
    erewrite bind_run by (apply liftPy_run, PyBool_Check_run; exact Hv).
    cbv beta. rewrite Hb.
    rewrite bind_run with (a := tt)
      (s1 := mk_state (set_m_scriptResult (Some r) (self st2)) (py st2)
               (ram st2) (trace st2)) by (by destruct st2).
    edestruct (execute_epilogue
                 (mk_state (set_m_scriptResult (Some r) (self st2)) (py st2)
                    (ram st2) (trace st2)) (Some r)) as [st' Hep].
    { by destruct st2 as [[] ? ? ?]. }
    rewrite Hep. simpl. apply f_equal, bool_decide_ext. naive_solver.
Qed.

(** A script that returns the string "yes" and a script that returns
    False. *)
Lemma execute_result_witness :
  thrown (execute (demo_env ["ins"; "outs"] string_body)
            (demo_begun (demo_env ["ins"; "outs"] string_body)).2).1
    = Some NonBooleanResult ∧
  (execute (demo_env ["ins"; "outs"] false_body)
     (demo_begun (demo_env ["ins"; "outs"] false_body)).2).1
    = Ret (bool_decide (Py_False = Py_True)).
Proof.
  split.
  - apply (execute_result (demo_env ["ins"; "outs"] string_body)
             (demo_begun (demo_env ["ins"; "outs"] string_body)).2
             (demo_before_call string_body).2
             33%positive
             (demo_called string_body).2)
      with (v := PyStr "yes");
      vm_compute; reflexivity.
  - apply (execute_result (demo_env ["ins"; "outs"] false_body)
             (demo_begun (demo_env ["ins"; "outs"] false_body)).2
             (demo_before_call false_body).2
             Py_False
             (demo_called false_body).2)
      with (v := PyBool false);
      vm_compute; reflexivity.
Defined.

(** C8.  For every attribute type [t], every name and every buffer of
    [size t * count] bytes: after the buffer is inserted as the input array
    [name], and the script [outs[name] = ins[name]] has run, the pointer
    [extractResult] returns for [name] points to the very same bytes. *)
Theorem insert_copy_extract_roundtrip name t count bytes r b :
  blocks r !! b = Some bytes →
  Z.of_nat (length bytes) = Dimension.size t * count →
  (roundtrip (demo_env ["ins"; "outs"] (copy_body (c_str name)))
     name (mk_ptr b 0) t count
     (with_ram r
        (demo_compiled
           (demo_env ["ins"; "outs"] (copy_body (c_str name)))).2)).1
  = Ret bytes.
Proof.
  intros Hblock Hlen.
  destruct (roundtrip_pointer name t count r b) as [Hptr Hram].
  unfold roundtrip.
  rewrite (bind_assoc3 (insertArgument name (mk_ptr b 0) t count)
             (execute (demo_env ["ins"; "outs"] (copy_body (c_str name))))
             (extractResult name t)).
  rewrite (bind_run _ _ _ _ _ (run_fst _ _ _ Hptr)).
  revert Hram. clear Hptr.
  match goal with
  | |- ram ?s = r → _ => generalize s
  end.
  intros st Hram. unfold liftMem, mem_read. rewrite Hram. simpl.
  rewrite Hblock. rewrite decide_True by lia. simpl.
  rewrite drop_0, take_ge; [done|lia].
Qed.

(** Two doubles in a buffer of sixteen bytes. *)
Lemma insert_copy_extract_roundtrip_witness :
  (roundtrip (demo_env ["ins"; "outs"] (copy_body (c_str "Z")))
     "Z" (mk_ptr 5 0) Dimension.Double 2
     (with_ram (mk_memory {[5%positive := replicate 16 x2a]} 6)
        (demo_compiled
           (demo_env ["ins"; "outs"] (copy_body (c_str "Z")))).2)).1
  = Ret (replicate 16 x2a).
Proof.
  apply (insert_copy_extract_roundtrip "Z" Dimension.Double 2
           (replicate 16 x2a)
           (mk_memory {[5%positive := replicate 16 x2a]} 6) 5%positive).
  - vm_compute; reflexivity.
  - vm_compute; reflexivity.
Defined.

(** C1 fails on the code.  After [begin], the schema is the object 23 and the
    spatial reference the object 26.  [execute] hands the schema to the module
    and then increments the count of the spatial reference, hands the spatial
    reference to the module and then increments the count of the schema.
    When [begin] failed on the spatial reference, so that the schema is set and
    the spatial reference is NULL, [execute] hands the schema to the module
    and crashes on the increment of a null pointer.  And the destructor
    releases none of the three: it asks for no decrement of them. *)
Theorem execute_increments_the_other_slot :
  m_schema_PyObject (self (demo_begun demo_copy_env).2) = Some 23%positive ∧
  m_srs_PyObject (self (demo_begun demo_copy_env).2) = Some 26%positive ∧
  trace (demo_executed demo_copy_env).2
    = trace (demo_begun demo_copy_env).2 ++
      [EvIncref 16%positive; EvIncref 17%positive;
       EvAddObject "metadata" 20%positive; EvIncref 20%positive;
       EvAddObject "schema" 23%positive; EvIncref 26%positive;
       EvAddObject "spatialreference" 26%positive; EvIncref 23%positive;
       EvCall 15%positive [Some 16%positive; Some 17%positive]] ∧
  thrown demo_begun_bad_srs.1 = Some JsonDecodeError ∧
  m_schema_PyObject (self demo_begun_bad_srs.2) = Some 23%positive ∧
  m_srs_PyObject (self demo_begun_bad_srs.2) = None ∧
  (execute demo_copy_env demo_begun_bad_srs.2).1 = Crash NullDereference ∧
  trace (execute demo_copy_env demo_begun_bad_srs.2).2
    = trace demo_begun_bad_srs.2 ++
      [EvIncref 16%positive; EvIncref 17%positive;
       EvAddObject "metadata" 20%positive; EvIncref 20%positive;
       EvAddObject "schema" 23%positive] ∧
  (Invocation_delete (demo_executed demo_copy_env).2).1 = Ret tt ∧
  trace (Invocation_delete (demo_executed demo_copy_env).2).2
    = trace (demo_executed demo_copy_env).2 ++
      [EvDecref 16%positive; EvDecref 17%positive; EvDecref 1%positive;
       EvDecref 32%positive; EvDecref 18%positive; EvDecref 19%positive;
       EvDecref 12%positive].
Proof. repeat split; vm_compute; reflexivity. Qed.

(** C3 fails on the code.  [setKWargs] succeeded once: the keyword arguments
    are the object 14, held by one reference.  [setKWargs] on a lone opening
    brace throws [JsonDecodeError] with the traceback of the decoder; the
    member still points to the object 14, but the object is gone: its one
    reference was released before the text was parsed. *)
Theorem setKWargs_failure_releases_prior_value :
  demo_kwargs.1 = Ret tt ∧
  m_pdalargs_PyObject (self demo_kwargs.2) = Some 14%positive ∧
  objs (py demo_kwargs.2) !! 14%positive
    = Some (mk_object 1 (PyDocument "[1]")) ∧
  (setKWargs demo_copy_env "{" demo_kwargs.2).1
    = Throw (mk_error JsonDecodeError
               "Traceback (most recent call last): ValueError: Expecting object")
    ∧
  m_pdalargs_PyObject (self (setKWargs demo_copy_env "{" demo_kwargs.2).2)
    = Some 14%positive ∧
  objs (py (setKWargs demo_copy_env "{" demo_kwargs.2).2) !! 14%positive
    = None.
Proof. repeat split; vm_compute; reflexivity. Qed.

(** C4 fails on the code.  On an object that has just compiled its script,
    [cleanup] returns: it has released [inputs] and [outputs], which are
    gone, and one of the two references to the bytecode; the members still
    point to them.  A second [cleanup] releases them again, and the process
    follows a pointer to an object that is gone. *)
Theorem cleanup_twice_is_not_cleanup_once :
  (cleanup demo_new_compiled.2).1 = Ret tt ∧
  m_varsIn (self (cleanup demo_new_compiled.2).2) = Some 10%positive ∧
  objs (py (cleanup demo_new_compiled.2).2) !! 10%positive = None ∧
  ob_refcnt <$> objs (py demo_new_compiled.2) !! 12%positive = Some 2 ∧
  ob_refcnt <$> objs (py (cleanup demo_new_compiled.2).2) !! 12%positive
    = Some 1 ∧
  ((cleanup ;; cleanup) demo_new_compiled.2).1 = Crash UseAfterFree ∧
  (cleanup (demo_executed demo_copy_env).2).1 = Ret tt ∧
  ((cleanup ;; cleanup) (demo_executed demo_copy_env).2).1
    = Crash UseAfterFree.
Proof. repeat split; vm_compute; reflexivity. Qed.

(** C5 fails on the code.  The entry function declares no parameter.
    [execute] finds the count 0, which is not more than two, fails to put
    [inputs] at index 0 of the empty tuple without looking at the failure, so
    that the argument tuple stays empty, and calls the function with no
    argument: no [ArityError], the body is run, and [execute] returns
    true. *)
Theorem execute_accepts_zero_parameters :
  entry_params (demo_begun demo_noarg_env).2 = Some [] ∧
  (demo_executed demo_noarg_env).1 = Ret true ∧
  calls (trace (demo_executed demo_noarg_env).2) = [EvCall 15%positive []] ∧
  (m_scriptArgs (self (demo_executed demo_noarg_env).2)
   ≫= value_of (py (demo_executed demo_noarg_env).2)) = Some (PyTuple []).
Proof. repeat split; vm_compute; reflexivity. Qed.
(** * Further properties of the member functions *)

(** X1.  When the entry function is a guest function called on the items of
    the argument tuple and the guest raises, [execute] throws
    [ExecutionError] with the traceback of the exception as its message; the
    result pointer is left null, the pending exception is consumed, and the
    function has been called once. *)
Theorem execute_reports_script_exception E st0 st f params a items tb w :
  (execute_args E ;; execute_globals) st0 = (Ret tt, st) →
  m_function (self st) = Some f →
  value_of (py st) f = Some (PyFunction params) →
  m_scriptArgs (self st) = Some a →
  value_of (py st) a = Some (PyTuple items) →
  py_call E items (py st, ram st) = (inl tb, w) →
  (execute E st0).1 = Throw (mk_error ExecutionError tb) ∧
  m_scriptResult (self (execute E st0).2) = None ∧
  pending (py (execute E st0).2) = None ∧
  trace (execute E st0).2 = trace st ++ [EvCall f items].
Proof.
  intros Hpre Hf Hfv Ha Hav Hcall.
  rewrite (execute_split _ _ _ Hpre).
  unfold value_of in Hfv, Hav.
  destruct (objs (py st) !! f) as [[rcf vf]|] eqn:Hfo; [|done].
  destruct (objs (py st) !! a) as [[rca va]|] eqn:Hao; [|done].
  simpl in Hfv, Hav. injection Hfv as ->. injection Hav as ->.
  destruct st as [i h r t]; simpl in *.
  unfold execute_call, bind, this, gets, PyObject_CallObject, bind, liftPy,
    py_val, log, modify, call_entry, assign, throw_traceback, getTraceback,
    throw, bind, liftPy; simpl.
  rewrite Hf, Ha; simpl. rewrite Hfo; simpl. rewrite Hao; simpl.
  rewrite Hcall.
  by destruct w as [h' m'].
Qed.

(** The script [def f(ins, outs): raise ValueError]. *)
Lemma execute_reports_script_exception_witness :
  (execute (demo_env ["ins"; "outs"] raising_body)
     (demo_begun (demo_env ["ins"; "outs"] raising_body)).2).1
  = Throw (mk_error ExecutionError
             "Traceback (most recent call last): ValueError") ∧
  m_scriptResult
    (self (execute (demo_env ["ins"; "outs"] raising_body)
             (demo_begun (demo_env ["ins"; "outs"] raising_body)).2).2) = None ∧
  pending
    (py (execute (demo_env ["ins"; "outs"] raising_body)
           (demo_begun (demo_env ["ins"; "outs"] raising_body)).2).2) = None ∧
  trace (execute (demo_env ["ins"; "outs"] raising_body)
           (demo_begun (demo_env ["ins"; "outs"] raising_body)).2).2
  = trace (demo_before_call raising_body).2
    ++ [EvCall 15%positive [Some 16%positive; Some 17%positive]].
Proof.
  apply (execute_reports_script_exception
           (demo_env ["ins"; "outs"] raising_body)
           (demo_begun (demo_env ["ins"; "outs"] raising_body)).2
           (demo_before_call raising_body).2
           15%positive (plain_def ["ins"; "outs"]) 32%positive
           [Some 16%positive; Some 17%positive]
           "Traceback (most recent call last): ValueError"
           (py (demo_before_call raising_body).2,
            ram (demo_before_call raising_body).2));
    vm_compute; reflexivity.
Defined.

(** X2.  [execute] counts the parameters [inspect.getargspec] lists in
    the first item of its result: the parameters of the entry function that
    can be passed by position; a name after [*] or [**] is not counted.  On
    an object that is ready to run its script: when that count is more than
    two, [execute] throws [ArityError] and the function is not called; when
    it is two or fewer, [execute] never throws [ArityError].  And when
    [getargspec] raises for the function (since version 3, for parameters
    that are keyword-only or annotated), [argCount] hands the NULL it got to
    [PyTuple_GetItem] (line 67): the process follows NULL, and the function
    is not called. *)
Theorem execute_rejects_more_than_two_parameters E st sig :
  ready st = true →
  entry_signature st = Some sig →
  if getargspec_raises E sig
  then (execute E st).1 = Crash NullDereference ∧
       calls (trace (execute E st).2) = calls (trace st)
  else ((2 < length (sig_args sig))%nat →
        thrown (execute E st).1 = Some ArityError ∧
        calls (trace (execute E st).2) = calls (trace st)) ∧
       ((length (sig_args sig) ≤ 2)%nat →
        thrown (execute E st).1 ≠ Some ArityError).
Proof.
  intros Hready Hsig. destruct (getargspec_raises E sig) eqn:Hr.
  - by apply (execute_getargspec_raises E st sig).
  - by apply execute_arity.
Qed.

(** [def f(a, b, c)] is refused; [def f(a, b, *c)] is counted as two
    parameters, and run; on [def f(ins: dict, outs: dict) -> bool] the
    process follows NULL. *)
Lemma execute_rejects_more_than_two_parameters_witness :
  (thrown (execute demo_three_env (demo_begun demo_three_env).2).1
   = Some ArityError ∧
   calls (trace (execute demo_three_env (demo_begun demo_three_env).2).2)
   = calls (trace (demo_begun demo_three_env).2)) ∧
  (thrown (execute demo_star_env (demo_begun demo_star_env).2).1
   ≠ Some ArityError ∧
   (execute demo_star_env (demo_begun demo_star_env).2).1 = Ret true) ∧
  ((execute demo_annotated_env (demo_begun demo_annotated_env).2).1
   = Crash NullDereference ∧
   calls (trace (execute demo_annotated_env
                   (demo_begun demo_annotated_env).2).2)
   = calls (trace (demo_begun demo_annotated_env).2)).
Proof.
  split; [|split].
  - refine (proj1 (execute_rejects_more_than_two_parameters demo_three_env
                     (demo_begun demo_three_env).2
                     (plain_def ["a"; "b"; "c"]) _ _ : _ ∧ _) _).
    + vm_compute; reflexivity.
    + vm_compute; reflexivity.
    + simpl; lia.
  - split; [|vm_compute; reflexivity].
    refine (proj2 (execute_rejects_more_than_two_parameters demo_star_env
                     (demo_begun demo_star_env).2
                     (mk_signature ["a"; "b"] (Some "c") [] None false) _ _
                   : (_ → _) ∧ (_ → _)) _).
    + vm_compute; reflexivity.
    + vm_compute; reflexivity.
    + simpl; lia.
  - refine (execute_rejects_more_than_two_parameters demo_annotated_env
              (demo_begun demo_annotated_env).2
              (mk_signature ["ins"; "outs"] None [] None true) _ _).
    + vm_compute; reflexivity.
    + vm_compute; reflexivity.
Defined.

(** X3.  [hasOutputVariable] changes nothing; when [outputs] is a live
    dictionary it tells whether the name, cut at its first NUL, is a key; and
    it foretells [extractResult]: when it returns false [extractResult]
    throws [MissingOutputError], and when it returns true [extractResult]
    does not throw that error. *)
Theorem hasOutputVariable_foretells_extractResult st name t :
  (hasOutputVariable name st).2 = st ∧
  (∀ out rc es,
     m_varsOut (self st) = Some out →
     objs (py st) !! out = Some (mk_object rc (PyDict es)) →
     (hasOutputVariable name st).1
     = Ret (bool_decide (KStr (c_str name) ∈ es.*1))) ∧
  ((hasOutputVariable name st).1 = Ret false →
   thrown (extractResult name t st).1 = Some MissingOutputError) ∧
  ((hasOutputVariable name st).1 = Ret true →
   thrown (extractResult name t st).1 ≠ Some MissingOutputError).
Proof.
  split; [apply readonly_hasOutputVariable|]. split.
  { intros out rc es Hout Hobj. destruct st as [i h r tr]; simpl in *.
    unfold hasOutputVariable, bind, this, gets, liftPy, PyDict_GetItemString,
      py_dict_get, bind, py_deref, py_val, ret; simpl.
    rewrite Hout; simpl. rewrite Hobj; simpl.
    destruct (dict_get (KStr (c_str name)) es) as [x|] eqn:Hget; simpl.
    - rewrite bool_decide_eq_true_2; [done|].
      apply dict_get_Some in Hget. by apply (list_elem_of_fmap_2 fst) in Hget.
    - rewrite bool_decide_eq_false_2; [done|]. by apply dict_get_None. }
  unfold hasOutputVariable, extractResult.
  rewrite !(bind_run _ _ _ _ _ (this_run m_varsOut st)). cbv beta.
  pose proof (readonly_liftPy _
                (readonly_py_dict_get (m_varsOut (self st))
                   (KStr (c_str name))) st) as Hro.
  unfold PyDict_GetItemString.
  destruct (liftPy (py_dict_get (m_varsOut (self st)) (KStr (c_str name))) st)
    as [[[x|]|e|f] st1] eqn:Hget; simpl in Hro; subst st1.
  - rewrite !(bind_run _ _ _ _ _ Hget). cbv beta. split; [done|]. intros _.
    match goal with
    | |- thrown (?m st).1 ≠ _ =>
        assert (throws_only [NotAnArrayError; SizeMismatchError;
                             KindMismatchError] m) as Honly
    end.
    { throws_only. }
    intros Hk. apply Honly in Hk.
    rewrite !elem_of_cons, elem_of_nil in Hk.
    destruct Hk as [Hk|[Hk|[Hk|[]]]]; discriminate.
  - rewrite !(bind_run _ _ _ _ _ Hget). cbv beta. split; done.
  - rewrite !(bind_throw _ _ _ _ _ Hget). split; done.
  - rewrite !(bind_crash _ _ _ _ _ Hget). split; done.
Qed.

(** X4.  When every key of [outputs] is a string that has a byte encoding
    (on version 3, a str with no lone surrogate in it; on version 2, a str,
    or a unicode object of ASCII characters), [getOutputNames] returns the
    encoded keys in the order of the dictionary, each cut at its first NUL,
    whichever major version the unit is compiled against.  A key that is a
    string without such an encoding is not decoded: compiled against a
    major version of at least 3, [getOutputNames] follows the NULL that
    [PyUnicode_AsUTF8String] returns for it (line 244); compiled against an
    earlier one, it leaves the key out and returns the names of the
    others. *)
Theorem getOutputNames_of_string_keys E st out rc es :
  m_varsOut (self st) = Some out →
  objs (py st) !! out = Some (mk_object rc (PyDict es)) →
  (∀ keys, es.*1 = KStr <$> keys →
           (getOutputNames E st).1 = Ret (c_str <$> keys)) ∧
  (∀ cps, KUnicode cps ∈ es.*1 →
          if decide (3 ≤ PY_MAJOR_VERSION E)
          then (getOutputNames E st).1 = Crash NullDereference
          else (getOutputNames E st).1
               = Ret (c_str <$> omap (λ kv, key_bytes kv.1) es)).
Proof.
  intros Hout Hobj. split.
  - intros keys Hkeys.
    assert (decoded_names es = c_str <$> keys) as Hnames.
    { unfold decoded_names. f_equal. clear Hobj.
      revert keys Hkeys. induction es as [|[k v] es IH]; intros [|s keys];
        simpl; try done.
      intros [= -> Hrest]. simpl. f_equal. by apply IH. }
    assert (Forall (λ kv : PyKey * PyRef, is_Some (key_bytes kv.1)) es)
      as Hall.
    { clear Hobj Hnames. revert keys Hkeys.
      induction es as [|[k v] es IH]; intros [|s keys]; simpl; try done.
      intros [= -> Hrest]. constructor; [by eexists|by eapply IH]. }
    rewrite <- Hnames.
    destruct (decide (3 ≤ PY_MAJOR_VERSION E)) as [Hv|Hv].
    + by eapply getOutputNames_strings.
    + by destruct (getOutputNames_dict E _ _ _ _ Hv Hout Hobj)
        as (st' & -> & _).
  - intros cps Hin. case_decide as Hv.
    + eapply getOutputNames_crash; [done|done|done|].
      apply list_elem_of_fmap in Hin as ([k x] & Hk & Hkx). simpl in Hk.
      subst k. by exists (KUnicode cps, x).
    + by destruct (getOutputNames_dict E _ _ _ _ Hv Hout Hobj)
        as (st' & -> & _).
Qed.

(** After the script that copies X, and after the script that binds a key
    with a lone surrogate, for the unit as it is compiled against
    version 3 and against version 2. *)
Lemma getOutputNames_of_string_keys_witness :
  (getOutputNames demo_copy_env demo_copied).1 = Ret ["X"] ∧
  (getOutputNames demo_surrogate_env demo_surrogate).1
  = Crash NullDereference ∧
  (getOutputNames (built_for 2 demo_surrogate_env) demo_surrogate).1 = Ret [].
Proof.
  split; [|split].
  - refine (proj1 (getOutputNames_of_string_keys demo_copy_env demo_copied
                     17%positive 2 [(KStr "X", 18%positive)] _ _)
              ["X"] _); vm_compute; reflexivity.
  - refine (proj2 (getOutputNames_of_string_keys demo_surrogate_env
                     demo_surrogate 17%positive 2
                     [(KUnicode [56320], 18%positive)] _ _)
              [56320] _); [vm_compute; reflexivity..|by_evaluation].
  - refine (proj2 (getOutputNames_of_string_keys
                     (built_for 2 demo_surrogate_env)
                     demo_surrogate 17%positive 2
                     [(KUnicode [56320], 18%positive)] _ _)
              [56320] _); [vm_compute; reflexivity..|by_evaluation].
Defined.

(** X5.  [cleanup], [resetArguments], the destructor, [getOutputNames],
    [hasOutputVariable] and [insertArgument] never throw a [pdal_error], in
    any state: they return, or the process crashes. *)
Theorem teardown_and_lookups_never_throw E st :
  thrown (cleanup st).1 = None ∧
  thrown (resetArguments st).1 = None ∧
  thrown (Invocation_delete st).1 = None ∧
  thrown (getOutputNames E st).1 = None ∧
  (∀ name, thrown (hasOutputVariable name st).1 = None) ∧
  (∀ name data_ t count,
     thrown (insertArgument name data_ t count st).1 = None).
Proof.
  split_and!.
  - apply no_throw_cleanup.
  - apply no_throw_resetArguments.
  - apply no_throw_cleanup.
  - apply no_throw_getOutputNames.
  - intros name. apply no_throw_hasOutputVariable.
  - intros name data_ t count. apply no_throw_insertArgument.
Qed.

(** X6.  The errors a member function can throw: [compile] throws at its
    own three sites only; [execute] throws its five kinds only;
    [extractResult] its four; [setKWargs] and [begin] fail with
    [JsonDecodeError] only, which comes from [getPyJSON]; and [end] fails
    only with the errors of [extractResult]. *)
Theorem errors_each_member_function_throws E st k :
  (thrown (compile E st).1 = Some k →
   k ∈ [CompileError; MissingEntryFunction; NotCallable]) ∧
  (thrown (execute E st).1 = Some k →
   k ∈ [NotCompiledError; ArityError; BindingError; ExecutionError;
        NonBooleanResult]) ∧
  (∀ name t, thrown (extractResult name t st).1 = Some k →
   k ∈ [MissingOutputError; NotAnArrayError; SizeMismatchError;
        KindMismatchError]) ∧
  (∀ s, thrown (setKWargs E s st).1 = Some k → k = JsonDecodeError) ∧
  (∀ v m, thrown (begin E v m st).1 = Some k → k = JsonDecodeError) ∧
  (∀ v m, thrown (end_ E m (st, v)).1 = Some k →
   k ∈ [MissingOutputError; NotAnArrayError; SizeMismatchError;
        KindMismatchError]).
Proof.
  split_and!.
  - apply throws_only_compile.
  - apply throws_only_execute.
  - intros name t. apply throws_only_extractResult.
  - intros s Hk. apply (throws_only_setKWargs E s) in Hk.
    by apply list_elem_of_singleton in Hk.
  - intros v m Hk. apply (throws_only_begin E v m) in Hk.
    by apply list_elem_of_singleton in Hk.
  - intros v m. apply throws_only_end.
Qed.

(** X7.  When [resetArguments] returns, [inputs] and [outputs] are two
    distinct new dictionaries, both empty and with one reference each, and
    the list of input array wrappers is empty: nothing bound in an earlier
    run is visible. *)
Theorem resetArguments_gives_new_empty_dictionaries st st' :
  resetArguments st = (Ret tt, st') →
  ∃ i o,
    m_varsIn (self st') = Some i ∧ m_varsOut (self st') = Some o ∧ i ≠ o ∧
    objs (py st') !! i = Some (mk_object 1 (PyDict [])) ∧
    objs (py st') !! o = Some (mk_object 1 (PyDict [])) ∧
    m_pyInputArrays (self st') = [].
Proof.
  unfold resetArguments. intros Hrun.
  apply bind_ret_inv in Hrun as ([] & st1 & Hclean & Hrun).
  apply cleanup_clears_wrappers in Hclean.
  destruct st1 as [i1 h1 r1 t1]; simpl in *.
  unfold bind, liftPy, PyDict_New, bind, py_new, ret, assign, modify in Hrun;
    simpl in Hrun.
  injection Hrun as <-. simpl.
  exists (fresh h1), (Pos.succ (fresh h1)). split_and!; try done.
  - lia.
  - rewrite lookup_insert_ne by lia. by rewrite lookup_insert_eq.
  - by rewrite lookup_insert_eq.
Qed.

(** A new object. *)
Lemma resetArguments_gives_new_empty_dictionaries_witness :
  ∃ i o,
    m_varsIn (self (resetArguments
                      (Invocation_new demo_copy_env demo_script).2).2)
    = Some i ∧
    m_varsOut (self (resetArguments
                       (Invocation_new demo_copy_env demo_script).2).2)
    = Some o ∧ i ≠ o ∧
    objs (py (resetArguments
                (Invocation_new demo_copy_env demo_script).2).2) !! i
    = Some (mk_object 1 (PyDict [])) ∧
    objs (py (resetArguments
                (Invocation_new demo_copy_env demo_script).2).2) !! o
    = Some (mk_object 1 (PyDict [])) ∧
    m_pyInputArrays
      (self (resetArguments
               (Invocation_new demo_copy_env demo_script).2).2) = [].
Proof.
  apply (resetArguments_gives_new_empty_dictionaries
           (Invocation_new demo_copy_env demo_script).2
           (resetArguments (Invocation_new demo_copy_env demo_script).2).2).
  vm_compute; reflexivity.
Defined.

(** X8.  The constructor always returns.  It leaves every pointer of the
    object null but [inputs] and [outputs], which are the two objects the
    interpreter allocated last: two empty dictionaries with one reference
    each; the object holds no wrapper and no buffer, and the native heap is
    empty. *)
Theorem constructor_postcondition E script :
  (Invocation_new E script).1 = Ret tt ∧
  self (Invocation_new E script).2
  = mk_invocation script None None None None
      (Some (fresh (Py_Initialize (stdlib E))))
      (Some (Pos.succ (fresh (Py_Initialize (stdlib E)))))
      None None None None None None [] [] ∧
  objs (py (Invocation_new E script).2)
  = <[Pos.succ (fresh (Py_Initialize (stdlib E))) := mk_object 1 (PyDict [])]>
      (<[fresh (Py_Initialize (stdlib E)) := mk_object 1 (PyDict [])]>
         (objs (Py_Initialize (stdlib E)))) ∧
  blocks (ram (Invocation_new E script).2) = ∅ ∧
  trace (Invocation_new E script).2 = [].
Proof.
  unfold Invocation_new. generalize (Py_Initialize (stdlib E)). intros h.
  unfold resetArguments, cleanup, bind, this, gets, Py_XDECREF, for_each,
    assign, modify, liftPy, PyDict_New, bind, py_new, ret; simpl.
  done.
Qed.

(** X9.  The destructor of a new object returns, and gives back the two
    dictionaries the constructor allocated: the objects of the interpreter
    are again those it had before the constructor ran. *)
Theorem destructor_undoes_constructor E script :
  (Invocation_delete (Invocation_new E script).2).1 = Ret tt ∧
  objs (py (Invocation_delete (Invocation_new E script).2).2)
  = objs (Py_Initialize (stdlib E)).
Proof.
  pose proof (Py_Initialize_wf (stdlib E)) as Hwf.
  unfold Invocation_new. revert Hwf.
  generalize (Py_Initialize (stdlib E)). intros h Hwf.
  pose proof (heap_wf_fresh h Hwf) as Hf.
  assert (objs h !! Pos.succ (fresh h) = None) as Hf'.
  { destruct (objs h !! Pos.succ (fresh h)) eqn:Hs; [|done].
    apply Hwf in Hs. simpl in Hs. lia. }
  unfold Invocation_delete, resetArguments, cleanup.
  unfold bind, this, gets, Py_XDECREF, for_each, assign, modify, liftPy,
    PyDict_New, bind, py_new, ret, log, modify.
  with_strategy opaque [py_decref] cbn.
  erewrite py_decref_last;
    [|simpl; rewrite lookup_insert_ne by lia; apply lookup_insert_eq|done].
  with_strategy opaque [py_decref] cbn.
  erewrite py_decref_last;
    [|simpl; rewrite lookup_delete_ne by lia; apply lookup_insert_eq|done].
  cbn. split; [done|].
  apply map_eq. intros k.
  destruct (decide (k = Pos.succ (fresh h))) as [->|Hk1].
  { by rewrite lookup_delete_eq. }
  rewrite lookup_delete_ne by done.
  destruct (decide (k = fresh h)) as [->|Hk2].
  { by rewrite lookup_delete_eq. }
  rewrite lookup_delete_ne by done.
  by rewrite !lookup_insert_ne by done.
Qed.

(** X10.  When the interpreter rejects the source text, [compile] throws
    [CompileError] with the traceback as its message, whatever the state; the
    bytecode pointer is null afterwards and no guest object has changed. *)
Theorem compile_reports_rejected_source E st tb :
  py_compile E (source (m_script (self st))) = inl tb →
  (compile E st).1 = Throw (mk_error CompileError tb) ∧
  m_bytecode (self (compile E st).2) = None ∧
  objs (py (compile E st).2) = objs (py st) ∧
  pending (py (compile E st).2) = None.
Proof.
  intros Hc. destruct st as [i h r t]; simpl in *.
  unfold compile, bind, this, gets, liftPy, Py_CompileString, assign, modify,
    throw_traceback, getTraceback, bind, liftPy, throw; simpl.
  rewrite Hc; simpl. done.
Qed.

Lemma compile_reports_rejected_source_witness :
  (compile demo_broken_env (Invocation_new demo_broken_env demo_script).2).1
  = Throw (mk_error CompileError "SyntaxError: invalid syntax") ∧
  m_bytecode
    (self (compile demo_broken_env
             (Invocation_new demo_broken_env demo_script).2).2) = None ∧
  objs (py (compile demo_broken_env
              (Invocation_new demo_broken_env demo_script).2).2)
  = objs (py (Invocation_new demo_broken_env demo_script).2) ∧
  pending (py (compile demo_broken_env
                 (Invocation_new demo_broken_env demo_script).2).2) = None.
Proof.
  apply (compile_reports_rejected_source demo_broken_env
           (Invocation_new demo_broken_env demo_script).2
           "SyntaxError: invalid syntax").
  reflexivity.
Defined.

(** X11.  When [compile] returns, the object holds the bytecode, the module,
    the dictionary of the module and the entry function: the module is a
    live module whose dictionary is the one held, and that dictionary binds
    the name of the entry function, cut at its first NUL, to the function
    held, which is a live object that can be called. *)
Theorem compile_postcondition E st st' :
  compile E st = (Ret tt, st') →
  ∃ bc mo d f nm es fv,
    m_bytecode (self st') = Some bc ∧
    m_module (self st') = Some mo ∧
    m_dictionary (self st') = Some d ∧
    m_function (self st') = Some f ∧
    value_of (py st') mo = Some (PyModule nm d) ∧
    value_of (py st') d = Some (PyDict es) ∧
    dict_get (KStr (c_str (function (m_script (self st))))) es = Some f ∧
    value_of (py st') f = Some fv ∧ callable fv = true.
Proof.
  unfold compile. intros Hrun.
  apply bind_ret_inv in Hrun as (script & s1 & Hs & Hrun).
  unfold this, gets in Hs. injection Hs as <- <-.
  apply bind_ret_inv in Hrun as (bytecode & s2 & _ & Hrun).
  apply bind_ret_inv in Hrun as ([] & s3 & Ha3 & Hrun).
  apply assign_inv in Ha3 as [_ ->].
  apply bind_ret_inv in Hrun as ([] & s4 & Hm4 & Hrun).
  destruct bytecode as [bc|];
    [|unfold throw_traceback, bind in Hm4;
      by destruct (liftPy getTraceback _) as [[] ?]].
  injection Hm4 as <-.
  apply bind_ret_inv in Hrun as ([] & s5 & Hinc & Hrun).
  assert (self s5 = set_m_bytecode (Some bc) (self s2)) as Hself5.
  { unfold Py_INCREF in Hinc.
    apply bind_ret_inv in Hinc as ([] & s' & Hi & Hl).
    apply liftPy_inv in Hi as (h' & _ & ->).
    unfold log, modify in Hl. by injection Hl as <-. }
  apply bind_ret_inv in Hrun as (module_ & s6 & Hexec & Hrun).
  apply liftPy_inv in Hexec as (h6 & _ & ->).
  apply bind_ret_inv in Hrun as ([] & s7 & Ha7 & Hrun).
  apply assign_inv in Ha7 as [_ ->]. simpl in Hrun.
  apply bind_ret_inv in Hrun as ([] & s8 & Hm8 & Hrun).
  destruct module_ as [mo|];
    [|unfold throw_traceback, bind in Hm8;
      by destruct (liftPy getTraceback _) as [[] ?]].
  injection Hm8 as <-.
  apply bind_ret_inv in Hrun as (dictionary & s9 & Hd & Hrun).
  apply liftPy_inv in Hd as (h9 & Hd & ->). simpl in Hd, Hrun.
  apply bind_ret_inv in Hrun as ([] & s10 & Ha10 & Hrun).
  apply assign_inv in Ha10 as [_ ->]. simpl in Hrun.
  apply bind_ret_inv in Hrun as (function_ & s11 & Hf & Hrun).
  apply liftPy_inv in Hf as (h11 & Hf & ->). simpl in Hf, Hrun.
  apply bind_ret_inv in Hrun as ([] & s12 & Ha12 & Hrun).
  apply assign_inv in Ha12 as [_ ->]. simpl in Hrun.
  apply bind_ret_inv in Hrun as ([] & s13 & Hm13 & Hrun).
  destruct function_ as [f|]; [|done]. injection Hm13 as <-.
  apply bind_ret_inv in Hrun as (c & s14 & Hc & Hrun).
  apply liftPy_inv in Hc as (h14 & Hc & ->). simpl in Hc, Hrun.
  destruct c;
    [|unfold throw_traceback, bind in Hrun;
      by destruct (liftPy getTraceback _) as [[] ?]].
  injection Hrun as <-. simpl.
  apply PyCallable_Check_inv in Hc as (-> & fv & Hfv & Hcall).
  destruct dictionary as [d|];
    [|by unfold PyDict_GetItemString, py_dict_get, bind, py_deref, crash in Hf].
  apply PyDict_GetItemString_inv in Hf as (-> & dr & es & [= <-] & Hes & Hget).
  apply PyModule_GetDict_inv in Hd as (-> & mo' & nm & [= <-] & Hmo).
  exists bc, mo, d, f, nm, es, fv. rewrite Hself5. by split_and!.
Qed.

Lemma compile_postcondition_witness :
  ∃ bc mo d f nm es fv,
    m_bytecode (self demo_new_compiled.2) = Some bc ∧
    m_module (self demo_new_compiled.2) = Some mo ∧
    m_dictionary (self demo_new_compiled.2) = Some d ∧
    m_function (self demo_new_compiled.2) = Some f ∧
    value_of (py demo_new_compiled.2) mo = Some (PyModule nm d) ∧
    value_of (py demo_new_compiled.2) d = Some (PyDict es) ∧
    dict_get
      (KStr (c_str (function
                      (m_script
                         (self (Invocation_new demo_copy_env
                                  demo_script).2))))) es
    = Some f ∧
    value_of (py demo_new_compiled.2) f = Some fv ∧ callable fv = true.
Proof.
  apply (compile_postcondition demo_copy_env
           (Invocation_new demo_copy_env demo_script).2 demo_new_compiled.2).
  vm_compute; reflexivity.
Defined.

(** X12.  When [end] returns, every attribute of the layout that is bound in
    [outputs] under its name (a name with no NUL in it) holds, for each
    point, the bytes its output array held at that point's place: the
    pointer [extractResult] returns for the attribute, advanced by the size
    of the type for each point. *)
Theorem end_copies_bound_attribute E m st v dd m' :
  NoDup (Dimension.id <$> dims v) →
  dd ∈ dims v →
  bound_in_outputs st (Dimension.name dd) = true →
  c_str (Dimension.name dd) = Dimension.name dd →
  (end_ E m (st, v)).1 = Ret m' →
  ∃ p,
    (extractResult (Dimension.name dd) (Dimension.type dd) st).1 = Ret p ∧
    ∀ idx, (idx < points v)%nat →
      (mem_read (ptr_add p (Dimension.size (Dimension.type dd)
                            * Z.of_nat idx))
         (Dimension.size (Dimension.type dd)) (ram st)).1
      = Ret (field (end_ E m (st, v)).2.2 (Dimension.id dd) idx).
Proof. apply end_copies. Qed.

(** After the script that copies X: the two points of X come back. *)
Lemma end_copies_bound_attribute_witness :
  ∃ p,
    (extractResult (Dimension.name demo_X) (Dimension.type demo_X)
       demo_copied).1 = Ret p ∧
    ∀ idx, (idx < points demo_view)%nat →
      (mem_read (ptr_add p (Dimension.size (Dimension.type demo_X)
                            * Z.of_nat idx))
         (Dimension.size (Dimension.type demo_X)) (ram demo_copied)).1
      = Ret (field (end_ demo_copy_env "meta" (demo_copied, demo_view)).2.2
               (Dimension.id demo_X) idx).
Proof.
  assert (NoDup (Dimension.id <$> dims demo_view)) as H1 by by_evaluation.
  assert (demo_X ∈ dims demo_view) as H2 by by_evaluation.
  assert (bound_in_outputs demo_copied (Dimension.name demo_X) = true) as H3
    by (vm_compute; reflexivity).
  assert (c_str (Dimension.name demo_X) = Dimension.name demo_X) as H4
    by reflexivity.
  assert ((end_ demo_copy_env "meta" (demo_copied, demo_view)).1 = Ret "meta")
    as H5 by (vm_compute; reflexivity).
  exact (end_copies_bound_attribute demo_copy_env "meta" demo_copied demo_view
           demo_X "meta" H1 H2 H3 H4 H5).
Defined.

(** X13.  [getOutputNames] and [hasOutputVariable] agree.  When [outputs] is
    a live dictionary and [getOutputNames] returns, a name with no NUL in it
    for which [hasOutputVariable] returns true is among the names returned;
    and when no key of [outputs] has a NUL in it, [hasOutputVariable] returns
    true for every name returned, which is what line 428 asserts. *)
Theorem getOutputNames_agrees_with_hasOutputVariable E st out rc es names name :
  m_varsOut (self st) = Some out →
  objs (py st) !! out = Some (mk_object rc (PyDict es)) →
  (getOutputNames E st).1 = Ret names →
  ((hasOutputVariable name st).1 = Ret true → c_str name = name →
   name ∈ names) ∧
  ((∀ s v, (KStr s, v) ∈ es → c_str s = s) → name ∈ names →
   (hasOutputVariable name st).1 = Ret true).
Proof.
  intros Hout Hobj Hnames.
  destruct (getOutputNames E st) as [o st1] eqn:Hgo. simpl in Hnames. subst o.
  destruct (getOutputNames_ret _ _ _ _ _ _ _ Hout Hobj Hgo) as [-> _].
  rewrite (hasOutputVariable_run _ _ _ _ _ Hout Hobj). simpl. split.
  - intros [= Hin] Hnul. apply bool_decide_eq_true in Hin.
    apply list_elem_of_fmap in Hin as ([k x] & Hk & Hkx). simpl in Hk. subst k.
    apply elem_of_decoded_names. exists (c_str name), x.
    split; [done|]. by rewrite c_str_idemp.
  - intros Hkeys Hin. apply elem_of_decoded_names in Hin as (s & x & Hsx & ->).
    f_equal. apply bool_decide_eq_true.
    rewrite c_str_idemp, (Hkeys _ _ Hsx).
    by apply (list_elem_of_fmap_2 fst) in Hsx.
Qed.

(** After the script that copies X. *)
Lemma getOutputNames_agrees_with_hasOutputVariable_witness :
  ((hasOutputVariable "X" demo_copied).1 = Ret true → c_str "X" = "X" →
   "X" ∈ ["X"]) ∧
  ((∀ s v, (KStr s, v) ∈ [(KStr "X", 18%positive)] → c_str s = s) →
   "X" ∈ ["X"] →
   (hasOutputVariable "X" demo_copied).1 = Ret true).
Proof.
  apply (getOutputNames_agrees_with_hasOutputVariable demo_copy_env
           demo_copied 17%positive 2 [(KStr "X", 18%positive)] ["X"] "X");
    vm_compute; reflexivity.
Defined.



(** X15.  Where the library module [json] cannot be imported, [getPyJSON]
    throws [JsonDecodeError] with the import error as its message, whatever
    the text. *)
Theorem getPyJSON_needs_json_module E s st :
  sys_modules (py st) !! "json" = None →
  (getPyJSON E s st).1
  = Throw (mk_error JsonDecodeError "ImportError: No module named json").
Proof.
  intros Hjson. destruct st as [i h r t]; simpl in *.
  unfold getPyJSON, bind, liftPy, PyUnicode_FromString, bind, py_new, ret,
    PyImport_ImportModule; simpl.
  rewrite Hjson. reflexivity.
Qed.





(** X18.  The staging loop of [begin] (lines 370-384), when it runs to its
    end: the object holds one more buffer for each attribute of the layout,
    in the order of the layout; each is a new allocation, and reading it at
    the place of a point (the size of the type times the index) gives the
    bytes [getFieldInternal] gives for that attribute of that point; the
    allocations there were before are as they were. *)
Theorem begin_stages_every_attribute view st st' :
  for_each (dims view) (begin_dim view) st = (Ret tt, st') →
  ∃ ps,
    m_buffers (self st') = m_buffers (self st) ++ ps ∧
    (brk (ram st) ≤ brk (ram st'))%positive ∧
    (∀ b, (b < brk (ram st))%positive →
          blocks (ram st') !! b = blocks (ram st) !! b) ∧
    Forall2
      (λ dd p,
         (brk (ram st) ≤ block p < brk (ram st'))%positive ∧
         ∀ idx, (idx < points view)%nat →
           (mem_read (ptr_add p (Dimension.size (Dimension.type dd)
                                 * Z.of_nat idx))
              (Dimension.size (Dimension.type dd)) (ram st')).1
           = Ret (getFieldInternal view (Dimension.id dd) idx
                    (Dimension.size (Dimension.type dd))))
      (dims view) ps.
Proof. apply begin_loop_stages. Qed.

(** The view of two points with the attributes X and Y, on a compiled
    object. *)
Lemma begin_stages_every_attribute_witness :
  ∃ ps,
    m_buffers
      (self (for_each (dims demo_view) (begin_dim demo_view)
               (demo_compiled demo_copy_env).2).2)
    = m_buffers (self (demo_compiled demo_copy_env).2) ++ ps ∧
    (brk (ram (demo_compiled demo_copy_env).2)
     ≤ brk (ram (for_each (dims demo_view) (begin_dim demo_view)
                   (demo_compiled demo_copy_env).2).2))%positive ∧
    (∀ b, (b < brk (ram (demo_compiled demo_copy_env).2))%positive →
          blocks (ram (for_each (dims demo_view) (begin_dim demo_view)
                         (demo_compiled demo_copy_env).2).2) !! b
          = blocks (ram (demo_compiled demo_copy_env).2) !! b) ∧
    Forall2
      (λ dd p,
         (brk (ram (demo_compiled demo_copy_env).2) ≤ block p
          < brk (ram (for_each (dims demo_view) (begin_dim demo_view)
                        (demo_compiled demo_copy_env).2).2))%positive ∧
         ∀ idx, (idx < points demo_view)%nat →
           (mem_read (ptr_add p (Dimension.size (Dimension.type dd)
                                 * Z.of_nat idx))
              (Dimension.size (Dimension.type dd))
              (ram (for_each (dims demo_view) (begin_dim demo_view)
                      (demo_compiled demo_copy_env).2).2)).1
           = Ret (getFieldInternal demo_view (Dimension.id dd) idx
                    (Dimension.size (Dimension.type dd))))
      (dims demo_view) ps.
Proof.
  apply (begin_stages_every_attribute demo_view
           (demo_compiled demo_copy_env).2
           (for_each (dims demo_view) (begin_dim demo_view)
              (demo_compiled demo_copy_env).2).2).
  vm_compute; reflexivity.
Defined.

(** X19.  [argCount] on a guest function, where the library module
    [inspect] can be imported.  When [getargspec] accepts the function,
    [argCount] returns the length of the first item of its result: the
    number of parameters that can be passed by position, in which a name
    after [*] or [**] does not count; and the value of every guest object
    that was live is as it was.  When [getargspec] raises (since version 3,
    for parameters that are keyword-only or annotated), [argCount] does not
    return: [PyTuple_GetItem] follows the NULL it is handed (line 67).
    Either way the object, the native heap and the trace are as they
    were. *)
Theorem argCount_counts_parameters E st f sig :
  heap_wf (py st) →
  introspectable (py st) = true →
  is_Some (value_of (py st) Py_None) →
  value_of (py st) f = Some (PyFunction sig) →
  (if getargspec_raises E sig
   then (argCount E (Some f) st).1 = Crash NullDereference
   else (argCount E (Some f) st).1
        = Ret (Z.of_nat (length (sig_args sig))) ∧
        (∀ r v, value_of (py st) r = Some v →
                value_of (py (argCount E (Some f) st).2) r = Some v)) ∧
  self (argCount E (Some f) st).2 = self st ∧
  ram (argCount E (Some f) st).2 = ram st ∧
  trace (argCount E (Some f) st).2 = trace st.
Proof.
  intros Hwf Hin Hnone Hf. destruct (getargspec_raises E sig) eqn:Hr.
  - destruct (argCount_raises E st f sig Hwf Hin Hf Hr) as (h' & ->).
    by split_and!.
  - destruct (argCount_run E st f sig Hwf Hin Hnone Hf Hr)
      as (h' & -> & Hgrows & _).
    simpl. split_and!; try done. apply Hgrows.
Qed.

(** [def f(a, b, c)] counts three, [def f(a, b, *c)] counts two, and on
    [def f(ins: dict, outs: dict) -> bool] the process follows NULL. *)
Lemma argCount_counts_parameters_witness :
  (argCount demo_three_env (Some 15%positive)
     (demo_begun demo_three_env).2).1 = Ret 3 ∧
  (argCount demo_star_env (Some 15%positive)
     (demo_begun demo_star_env).2).1 = Ret 2 ∧
  (argCount demo_annotated_env (Some 15%positive)
     (demo_begun demo_annotated_env).2).1 = Crash NullDereference.
Proof.
  split; [|split].
  - refine (proj1 (proj1 (argCount_counts_parameters demo_three_env
                            (demo_begun demo_three_env).2 15%positive
                            (plain_def ["a"; "b"; "c"]) _ _ _ _)
                   : _ ∧ _)).
    + by_evaluation.
    + vm_compute; reflexivity.
    + by_evaluation.
    + vm_compute; reflexivity.
  - refine (proj1 (proj1 (argCount_counts_parameters demo_star_env
                            (demo_begun demo_star_env).2 15%positive
                            (mk_signature ["a"; "b"] (Some "c") [] None false)
                            _ _ _ _)
                   : _ ∧ _)).
    + by_evaluation.
    + vm_compute; reflexivity.
    + by_evaluation.
    + vm_compute; reflexivity.
  - refine (proj1 (argCount_counts_parameters demo_annotated_env
                     (demo_begun demo_annotated_env).2 15%positive
                     (mk_signature ["ins"; "outs"] None [] None true)
                     _ _ _ _)).
    + by_evaluation.
    + vm_compute; reflexivity.
    + by_evaluation.
    + vm_compute; reflexivity.
Defined.

(** X20.  Where the library module [inspect] cannot be imported, [argCount]
    returns 0 for any function (line 61 returns [false]), and leaves an
    import error pending. *)
Theorem argCount_without_inspect E st f :
  sys_modules (py st) !! "inspect" = None →
  (argCount E f st).1 = Ret 0 ∧
  pending (py (argCount E f st).2)
  = Some "ImportError: No module named inspect" ∧
  objs (py (argCount E f st).2) = objs (py st).
Proof.
  intros Hno. destruct st as [i h r t]; simpl in *.
  unfold argCount, bind, liftPy, PyImport_ImportModule; simpl.
  rewrite Hno. simpl. done.
Qed.

(** An interpreter with no [inspect] to import. *)
Lemma argCount_without_inspect_witness :
  (argCount demo_bare_env (Some Py_None)
     (Invocation_new demo_bare_env demo_script).2).1 = Ret 0 ∧
  pending (py (argCount demo_bare_env (Some Py_None)
                 (Invocation_new demo_bare_env demo_script).2).2)
  = Some "ImportError: No module named inspect" ∧
  objs (py (argCount demo_bare_env (Some Py_None)
              (Invocation_new demo_bare_env demo_script).2).2)
  = objs (py (Invocation_new demo_bare_env demo_script).2).
Proof.
  apply (argCount_without_inspect demo_bare_env
           (Invocation_new demo_bare_env demo_script).2 (Some Py_None)).
  reflexivity.
Defined.

(** An interpreter with no [json] to import. *)
Lemma getPyJSON_needs_json_module_witness :
  (getPyJSON demo_bare_env "[1]"
     (Invocation_new demo_bare_env demo_script).2).1
  = Throw (mk_error JsonDecodeError "ImportError: No module named json").
Proof.
  apply (getPyJSON_needs_json_module demo_bare_env "[1]"
           (Invocation_new demo_bare_env demo_script).2).
  reflexivity.
Defined.

(** X21.  When the call of the entry function returns an object of the
    boolean type, and the module is live with the dictionary the object
    remembers: [execute] returns, true exactly when the object is True, and
    the object's metadata pointer is then what the module binds the name
    [metadata] to, if it binds one (a borrowed reference), and is as it was
    if it binds none. *)
Theorem execute_takes_metadata_from_module E st0 st r st2 b mo nm d es :
  (execute_args E ;; execute_globals) st0 = (Ret tt, st) →
  PyObject_CallObject E (m_function (self st)) (m_scriptArgs (self st)) st
    = (Ret (Some r), st2) →
  value_of (py st2) r = Some (PyBool b) →
  heap_wf (py st2) →
  m_module (self st2) = Some mo →
  m_dictionary (self st2) = Some d →
  value_of (py st2) mo = Some (PyModule nm d) →
  value_of (py st2) d = Some (PyDict es) →
  (execute E st0).1 = Ret (bool_decide (r = Py_True)) ∧
  m_scriptResult (self (execute E st0).2) = Some r ∧
  m_metadata_PyObject (self (execute E st0).2)
  = match dict_get (KStr "metadata") es with
    | Some x => Some x
    | None => m_metadata_PyObject (self st2)
    end.
Proof.
  intros Hpre Hcall Hr Hwf Hmo Hd Hmod Hdict.
  rewrite (execute_split _ _ _ Hpre), (execute_call_returned _ _ _ _ Hcall).
  erewrite bind_run by (apply liftPy_run, PyBool_Check_run; exact Hr).
  cbv beta. simpl is_bool. cbv iota.
  rewrite bind_run with (a := tt)
    (s1 := mk_state (set_m_scriptResult (Some r) (self st2)) (py st2)
             (ram st2) (trace st2)) by (by destruct st2).
  edestruct (execute_epilogue_metadata
               (mk_state (set_m_scriptResult (Some r) (self st2)) (py st2)
                  (ram st2) (trace st2)) (Some r) mo nm d es)
    as (h' & Hep & _);
    [done|by destruct st2 as [[] ? ? ?]|by destruct st2 as [[] ? ? ?]
    |done|done|].
  rewrite Hep. simpl. split_and!.
  - apply f_equal, bool_decide_ext. naive_solver.
  - by destruct (dict_get (KStr "metadata") es), st2 as [[] ? ? ?].
  - by destruct (dict_get (KStr "metadata") es), st2 as [[] ? ? ?].
Qed.

(** The script [def f(ins, outs): return False], after [begin]. *)
Lemma execute_takes_metadata_from_module_witness :
  (execute (demo_env ["ins"; "outs"] false_body)
     (demo_begun (demo_env ["ins"; "outs"] false_body)).2).1
  = Ret (bool_decide (Py_False = Py_True)) ∧
  m_scriptResult
    (self (execute (demo_env ["ins"; "outs"] false_body)
             (demo_begun (demo_env ["ins"; "outs"] false_body)).2).2)
  = Some Py_False ∧
  m_metadata_PyObject
    (self (execute (demo_env ["ins"; "outs"] false_body)
             (demo_begun (demo_env ["ins"; "outs"] false_body)).2).2)
  = match dict_get (KStr "metadata")
            [(KStr "f", 15%positive); (KStr "metadata", 20%positive);
             (KStr "schema", 23%positive);
             (KStr "spatialreference", 26%positive)] with
    | Some x => Some x
    | None => m_metadata_PyObject (self (demo_called false_body).2)
    end.
Proof.
  apply (execute_takes_metadata_from_module
           (demo_env ["ins"; "outs"] false_body)
           (demo_begun (demo_env ["ins"; "outs"] false_body)).2
           (demo_before_call false_body).2
           Py_False
           (demo_called false_body).2
           false 14%positive "anon" 13%positive
           [(KStr "f", 15%positive); (KStr "metadata", 20%positive);
            (KStr "schema", 23%positive);
            (KStr "spatialreference", 26%positive)]).
  - vm_compute; reflexivity.
  - vm_compute; reflexivity.
  - vm_compute; reflexivity.
  - by_evaluation.
  - vm_compute; reflexivity.
  - vm_compute; reflexivity.
  - vm_compute; reflexivity.
  - vm_compute; reflexivity.
Defined.

(** X22.  The head of [execute] (lines 260-277) on an object that is ready
    to run a script for whose entry function [getargspec] lists one or two
    parameters (the parameters that can be passed by position; a name after
    [*] or [**] is not listed), with [outputs] live: it returns; the
    argument tuple is a new tuple that holds [inputs], and after it
    [outputs] when two parameters are listed; [inputs] has been given one
    more reference, and [outputs] one more exactly when it was put in the
    tuple; the native heap is not touched. *)
Theorem execute_builds_argument_tuple E st sig vout :
  ready st = true →
  entry_signature st = Some sig →
  getargspec_raises E sig = false →
  (1 ≤ length (sig_args sig) ≤ 2)%nat →
  m_varsOut (self st) = Some vout →
  is_Some (value_of (py st) vout) →
  ∃ vin a st',
    m_varsIn (self st) = Some vin ∧
    execute_args E st = (Ret tt, st') ∧
    m_scriptArgs (self st') = Some a ∧
    value_of (py st) a = None ∧
    value_of (py st') a
    = Some (PyTuple (take (length (sig_args sig)) [Some vin; Some vout])) ∧
    ram st' = ram st ∧
    trace st'
    = trace st ++ EvIncref vin
        :: (if decide (length (sig_args sig) = 2%nat)
            then [EvIncref vout] else []).
Proof. apply execute_args_tuple. Qed.

(** The script that copies X, [def f(ins, outs)], and the script
    [def f(ins, *rest)], for which the tuple holds [inputs] alone. *)
Lemma execute_builds_argument_tuple_witness :
  (∃ vin a st',
     m_varsIn (self (demo_begun demo_copy_env).2) = Some vin ∧
     execute_args demo_copy_env (demo_begun demo_copy_env).2 = (Ret tt, st') ∧
     m_scriptArgs (self st') = Some a ∧
     value_of (py (demo_begun demo_copy_env).2) a = None ∧
     value_of (py st') a = Some (PyTuple [Some vin; Some 17%positive]) ∧
     ram st' = ram (demo_begun demo_copy_env).2 ∧
     trace st'
     = trace (demo_begun demo_copy_env).2
       ++ [EvIncref vin; EvIncref 17%positive]) ∧
  (∃ vin a st',
     m_varsIn (self (demo_begun demo_rest_env).2) = Some vin ∧
     execute_args demo_rest_env (demo_begun demo_rest_env).2 = (Ret tt, st') ∧
     m_scriptArgs (self st') = Some a ∧
     value_of (py (demo_begun demo_rest_env).2) a = None ∧
     value_of (py st') a = Some (PyTuple [Some vin]) ∧
     ram st' = ram (demo_begun demo_rest_env).2 ∧
     trace st' = trace (demo_begun demo_rest_env).2 ++ [EvIncref vin]).
Proof.
  split.
  - refine (execute_builds_argument_tuple demo_copy_env
              (demo_begun demo_copy_env).2 (plain_def ["ins"; "outs"])
              17%positive _ _ _ _ _ _).
    + vm_compute; reflexivity.
    + vm_compute; reflexivity.
    + vm_compute; reflexivity.
    + simpl; lia.
    + vm_compute; reflexivity.
    + by_evaluation.
  - refine (execute_builds_argument_tuple demo_rest_env
              (demo_begun demo_rest_env).2
              (mk_signature ["ins"] (Some "rest") [] None false)
              17%positive _ _ _ _ _ _).
    + vm_compute; reflexivity.
    + vm_compute; reflexivity.
    + vm_compute; reflexivity.
    + simpl; lia.
    + vm_compute; reflexivity.
    + by_evaluation.
Defined.


